(** * The BIOM table validator (biom/commands/table_validator.py)

    A shallow embedding of [TableValidator]: the values a parsed document is
    made of, the Python operations the rules apply to them (with the
    exceptions they raise), the field rules, and the two drivers
    [_validate_json] and [_validate_hdf5]. *)

From Stdlib Require Import ZArith List String Ascii Bool Lia.
From Stdlib Require Import PrimFloat FloatOps SpecFloat.
Import ListNotations.
Local Open Scope string_scope.
Local Open Scope list_scope.
Local Open Scope Z_scope.

(** ** Exceptions and the error monad *)

Inductive pyexn : Set :=
| TypeError
| AttributeError
| KeyError
| IndexError
| ValueError.

Inductive result (A : Type) : Type :=
| Ok (a : A)
| Raise (e : pyexn).
Arguments Ok {A} a.
Arguments Raise {A} e.

Definition bind {A B : Type} (r : result A) (k : A -> result B) : result B :=
  match r with
  | Ok a => k a
  | Raise e => Raise e
  end.

Notation "x <- r ;; k" := (bind r (fun x => k))
  (at level 61, r at next level, right associativity).

Definition rmap {A B : Type} (f : A -> B) (r : result A) : result B :=
  match r with
  | Ok a => Ok (f a)
  | Raise e => Raise e
  end.

Definition raises {A : Type} (r : result A) : bool :=
  match r with
  | Ok _ => false
  | Raise _ => true
  end.

(** ** Values

    The objects [json.load] builds (Python 2: text is [unicode], an integer
    beyond [sys.maxint] is a [long]) together with byte strings [str], which
    documents built in Python carry.  A [dict] is kept as the list of its
    items in iteration order; its keys are text.

    [PNpBool] is [numpy.bool_], the object h5py hands over for a boolean
    attribute of a hierarchical file: it compares and subtracts as a number
    but is not an instance of [int].  The integers and floats h5py hands
    over are instances of [int] and [float] ([numpy.int64] and
    [numpy.float64] on a 64-bit build of Python 2) and are kept as [PInt]
    and [PFloat]. *)

#[local] Unset Elimination Schemes.
Inductive pyval : Type :=
| PNone
| PBool (b : bool)
| PInt (z : Z)
| PLong (z : Z)
| PFloat (f : float)
| PStr (s : string)
| PUnicode (s : string)
| PList (l : list pyval)
| PDict (kvs : list (string * pyval))
| PNpBool (b : bool).
#[local] Set Elimination Schemes.

Definition dict : Type := list (string * pyval).

(** [sys.maxint] of a 64-bit build. *)
Definition maxint : Z := 2 ^ 63 - 1.

(** The result of an [int] operation: an [int] while it fits, else a [long]. *)
Definition mk_int (z : Z) : pyval :=
  if (- maxint - 1 <=? z) && (z <=? maxint) then PInt z else PLong z.

(** *** dict operations *)

Fixpoint dict_lookup (k : string) (d : dict) : option pyval :=
  match d with
  | [] => None
  | (k', v) :: d' => if String.eqb k k' then Some v else dict_lookup k d'
  end.

Definition dict_has (k : string) (d : dict) : bool :=
  match dict_lookup k d with
  | Some _ => true
  | None => false
  end.

(** [del d[k]], used to build a document that misses one field. *)
Fixpoint dict_remove (k : string) (d : dict) : dict :=
  match d with
  | [] => []
  | (k', v) :: d' =>
      if String.eqb k k' then dict_remove k d' else (k', v) :: dict_remove k d'
  end.

(** *** Numbers *)

Definition float_value (f : float) : spec_float := Prim2SF f.

(** [float == int], exact as in CPython. *)
Definition float_eq_Z (f : float) (n : Z) : bool :=
  match float_value f with
  | S754_zero _ => n =? 0
  | S754_finite s m e =>
      let v := if s then Z.neg m else Z.pos m in
      if 0 <=? e then v * 2 ^ e =? n else v =? n * 2 ^ (- e)
  | _ => false
  end.

(** [int > float], exact as in CPython. *)
Definition Z_gt_float (x : Z) (f : float) : bool :=
  match float_value f with
  | S754_nan => false
  | S754_infinity s => s
  | S754_zero _ => 0 <? x
  | S754_finite s m e =>
      let v := if s then Z.neg m else Z.pos m in
      if 0 <=? e then v * 2 ^ e <? x else v <? x * 2 ^ (- e)
  end.

Definition Z_of_bool (b : bool) : Z := if b then 1 else 0.

(** [v == n] for an [int] [n]. *)
Definition eq_int (v : pyval) (n : Z) : bool :=
  match v with
  | PBool b | PNpBool b => Z_of_bool b =? n
  | PInt z | PLong z => z =? n
  | PFloat f => float_eq_Z f n
  | _ => false
  end.

(** [v == s] for an ASCII text constant [s]. *)
Definition eq_str (v : pyval) (s : string) : bool :=
  match v with
  | PStr t | PUnicode t => String.eqb t s
  | _ => false
  end.

(** [n -= 1] *)
Definition py_sub1 (v : pyval) : result pyval :=
  match v with
  | PBool b | PNpBool b => Ok (PInt (Z_of_bool b - 1))
  | PInt z => Ok (mk_int (z - 1))
  | PLong z => Ok (PLong (z - 1))
  | PFloat f => Ok (PFloat (PrimFloat.sub f PrimFloat.one))
  | _ => Raise TypeError
  end.

(** [x > v] for an [int] [x].  Against a non-number Python 2 falls back to
    its default ordering: [None] is below every object, a number is below
    every other object. *)
Definition int_gt (x : Z) (v : pyval) : bool :=
  match v with
  | PBool b | PNpBool b => Z_of_bool b <? x
  | PInt z | PLong z => z <? x
  | PFloat f => Z_gt_float x f
  | PNone => true
  | _ => false
  end.

(** *** Type tests, truth, hashing *)

(** [isinstance(x, int)]: [bool] is a subclass of [int]; [long] and
    [numpy.bool_] are not. *)
Definition _is_int (x : pyval) : bool :=
  match x with
  | PInt _ | PBool _ => true
  | _ => false
  end.

(** The integer an [int] instance stands for. *)
Definition int_val (x : pyval) : Z :=
  match x with
  | PInt z => z
  | PBool b => Z_of_bool b
  | _ => 0
  end.

Definition is_dict (x : pyval) : bool :=
  match x with
  | PDict _ => true
  | _ => false
  end.

Definition is_none (x : pyval) : bool :=
  match x with
  | PNone => true
  | _ => false
  end.

(** [bool(v)] *)
Definition truthy (v : pyval) : bool :=
  match v with
  | PNone => false
  | PBool b | PNpBool b => b
  | PInt z | PLong z => negb (z =? 0)
  | PFloat f => negb (PrimFloat.eqb f PrimFloat.zero)
  | PStr s | PUnicode s => negb (String.eqb s EmptyString)
  | PList l => match l with [] => false | _ => true end
  | PDict d => match d with [] => false | _ => true end
  end.

(** Whether [hash(v)] succeeds. *)
Definition hashable (v : pyval) : bool :=
  match v with
  | PList _ | PDict _ => false
  | _ => true
  end.

(** *** Text *)

Definition lower_ascii (c : ascii) : ascii :=
  let n := nat_of_ascii c in
  if (Nat.leb 65 n && Nat.leb n 90)%bool then ascii_of_nat (n + 32) else c.

Fixpoint lower_string (s : string) : string :=
  match s with
  | EmptyString => EmptyString
  | String c s' => String (lower_ascii c) (lower_string s')
  end.

(** [value.lower()] *)
Definition py_lower (v : pyval) : result pyval :=
  match v with
  | PStr s => Ok (PStr (lower_string s))
  | PUnicode s => Ok (PUnicode (lower_string s))
  | _ => Raise AttributeError
  end.

Fixpoint replace_char (a b : ascii) (s : string) : string :=
  match s with
  | EmptyString => EmptyString
  | String c s' => String (if Ascii.eqb c a then b else c) (replace_char a b s')
  end.

Fixpoint chars_of (s : string) : list string :=
  match s with
  | EmptyString => []
  | String c s' => String c EmptyString :: chars_of s'
  end.

(** Whether a text is ASCII.  Python 2 brings a [str] and a [unicode]
    together through the ASCII codec, which fails on any other character. *)
Definition is_ascii (s : string) : bool :=
  forallb (fun c => Nat.ltb (nat_of_ascii c) 128) (list_ascii_of_string s).

(** Whether [str(v)] succeeds: a [unicode] is encoded as ASCII, any other
    object has a [str] of its own. *)
Definition str_ok (v : pyval) : bool :=
  match v with
  | PUnicode s => is_ascii s
  | _ => true
  end.

Definition is_unicode (v : pyval) : bool :=
  match v with
  | PUnicode _ => true
  | _ => false
  end.

Definition is_substring (k s : string) : bool :=
  match String.index 0 k s with
  | Some _ => true
  | None => false
  end.

(** *** Containers *)

(** [len(v)] *)
Definition py_len (v : pyval) : result Z :=
  match v with
  | PStr s | PUnicode s => Ok (Z.of_nat (String.length s))
  | PList l => Ok (Z.of_nat (List.length l))
  | PDict d => Ok (Z.of_nat (List.length d))
  | _ => Raise TypeError
  end.

(** The objects [iter(v)] yields. *)
Definition py_iter (v : pyval) : result (list pyval) :=
  match v with
  | PStr s => Ok (map PStr (chars_of s))
  | PUnicode s => Ok (map PUnicode (chars_of s))
  | PList l => Ok l
  | PDict d => Ok (map (fun kv => PUnicode (fst kv)) d)
  | _ => Raise TypeError
  end.

(** [a, b = v] and [x, y, val = v]: the objects of [v], whose number must
    be [n]. *)
Definition unpack (n : nat) (v : pyval) : result (list pyval) :=
  xs <- py_iter v ;;
  if Nat.eqb (List.length xs) n then Ok xs else Raise ValueError.

(** [key in v] for a text constant [key]. *)
Definition py_contains (v : pyval) (key : string) : result bool :=
  match v with
  | PDict d => Ok (dict_has key d)
  | PList l => Ok (existsb (fun x => eq_str x key) l)
  | PStr s | PUnicode s => Ok (is_substring key s)
  | _ => Raise TypeError
  end.

(** [v[key]] for a text constant [key]. *)
Definition py_getitem (v : pyval) (key : string) : result pyval :=
  match v with
  | PDict d =>
      match dict_lookup key d with
      | Some x => Ok x
      | None => Raise KeyError
      end
  | PNpBool _ => Raise IndexError
  | _ => Raise TypeError
  end.

(** [v[i]] for [i] one of the constants 0 and 1. *)
Definition py_index (v : pyval) (i : nat) : result pyval :=
  match v with
  | PList l =>
      match nth_error l i with
      | Some x => Ok x
      | None => Raise IndexError
      end
  | PStr s =>
      match nth_error (chars_of s) i with
      | Some c => Ok (PStr c)
      | None => Raise IndexError
      end
  | PUnicode s =>
      match nth_error (chars_of s) i with
      | Some c => Ok (PUnicode c)
      | None => Raise IndexError
      end
  | PDict _ => Raise KeyError
  | PNpBool _ => Raise IndexError
  | _ => Raise TypeError
  end.

(** [v.get(key, None)] *)
Definition py_get (v : pyval) (key : string) : result pyval :=
  match v with
  | PDict d =>
      match dict_lookup key d with
      | Some x => Ok x
      | None => Ok PNone
      end
  | _ => Raise AttributeError
  end.

(** [v in names] for a set (or the keys of a dict) of text constants. *)
Definition in_names (v : pyval) (names : list string) : result bool :=
  if hashable v then Ok (existsb (eq_str v) names) else Raise TypeError.

(** ** Report lines

    A line is the format string of the source with the arguments of its [%]
    operator; [str] and [repr] of an object are left symbolic.  The empty
    line is [no_defect], the empty format without arguments. *)

Inductive fmtarg : Type :=
| FText (s : string)   (* a text constant or an [int], put through [%s]/[%d] *)
| FNum (n : Z)
| FStr (v : pyval)     (* [%s] of an object: [str(v)] *)
| FRepr (v : pyval).   (* [%s] of [repr(v)] *)

Inductive line : Type :=
| Line (template : string) (args : list fmtarg).

Definition no_defect : line := Line EmptyString [].

(** [len(status_msg) > 0]: every format string of the source starts with
    literal text, so only the empty format gives the empty string. *)
Definition len_pos (l : line) : bool :=
  match l with
  | Line t _ => negb (String.eqb t EmptyString)
  end.

(** ** The two kinds of document *)

(** An open hierarchical file: the root attributes, and the groups and
    datasets by path (a dataset as the list of its entries).  An attribute
    is the object h5py hands over: text, a number, [PNpBool] for a boolean,
    and for an array the list of its elements, which stands for the array
    where it is unpacked, iterated or tested with [isinstance].  A dataset
    lies below its group: [without_item] removes a group together with
    what it holds. *)
Record h5file : Type := H5File {
  attrs : dict;
  items : dict
}.

Inductive table : Type :=
| TJson (v : pyval)
| THdf5 (h : h5file).

(** ** Class constants *)

Definition FormatURL : string := "http://biom-format.org".

Definition TableTypes : list string :=
  ["otu table"; "pathway table"; "function table"; "ortholog table";
   "gene table"; "metabolite table"; "taxon table"].

Definition MatrixTypes : list string := ["sparse"; "dense"].

Inductive pytype : Set := Ty_int | Ty_str | Ty_float | Ty_unicode.

Definition ElementTypes : list (string * pytype) :=
  [("int", Ty_int); ("str", Ty_str); ("float", Ty_float);
   ("unicode", Ty_unicode)].

Definition HDF5FormatVersions : list (Z * Z) := [(2, 0)].

(** [isinstance(v, dtype)] *)
Definition isinstance (v : pyval) (dtype : pytype) : bool :=
  match dtype, v with
  | Ty_int, (PInt _ | PBool _) => true
  | Ty_str, PStr _ => true
  | Ty_float, PFloat _ => true
  | Ty_unicode, PUnicode _ => true
  | _, _ => false
  end.

(** [self.ElementTypes[name]] *)
Definition ElementTypes_getitem (name : pyval) : result pytype :=
  if hashable name then
    match find (fun kt => eq_str name (fst kt)) ElementTypes with
    | Some kt => Ok (snd kt)
    | None => Raise KeyError
    end
  else Raise TypeError.

(** ** The document accessor *)

Definition _json_or_hdf5_get (t : table) (key : string) : result pyval :=
  match t with
  | THdf5 h =>
      match dict_lookup key (attrs h) with
      | Some x => Ok x
      | None => Ok PNone
      end
  | TJson v => py_get v key
  end.

Definition _json_or_hdf5_key (t : table) (key : string) : string :=
  match t with
  | THdf5 _ => replace_char "_"%char "-"%char key
  | TJson _ => key
  end.

(** [key in table.attrs] *)
Definition attrs_contains (h : h5file) (key : string) : result bool :=
  Ok (dict_has key (attrs h)).

(** [table.attrs[key]] *)
Definition attrs_getitem (h : h5file) (key : string) : result pyval :=
  match dict_lookup key (attrs h) with
  | Some x => Ok x
  | None => Raise KeyError
  end.

(** ** Field rules *)

Definition _valid_nnz (h : h5file) : result line :=
  nnz <- attrs_getitem h "nnz" ;;
  if negb (_is_int nnz) then Ok (Line "nnz is not an integer!" [])
  else if int_val nnz <? 0 then Ok (Line "nnz is negative!" [])
  else Ok no_defect.

Definition _valid_format_url (t : table) : result line :=
  let key := _json_or_hdf5_key t "format_url" in
  value <- _json_or_hdf5_get t key ;;
  if negb (eq_str value FormatURL) then Ok (Line "Invalid '%s'" [FText key])
  else Ok no_defect.

Definition _valid_shape (t : table) : result line :=
  shape <- _json_or_hdf5_get t "shape" ;;
  ab <- unpack 2 shape ;;
  match ab with
  | [a; b] =>
      if negb (_is_int a && _is_int b)
      then Ok (Line "'shape' values do not appear to be integers" [])
      else Ok no_defect
  | _ => Raise ValueError
  end.

Definition _valid_matrix_type (table_json : pyval) : result line :=
  mt <- py_getitem table_json "matrix_type" ;;
  known <- in_names mt MatrixTypes ;;
  if negb known then Ok (Line "Unknown 'matrix_type'" []) else Ok no_defect.

Definition _valid_matrix_element_type (table_json : pyval) : result line :=
  et <- py_getitem table_json "matrix_element_type" ;;
  known <- in_names et (map fst ElementTypes) ;;
  if negb known then Ok (Line "Unknown 'matrix_element_type'" [])
  else Ok no_defect.

(** ** [datetime.strptime]

    The standard library's parser, for the directives the validator's
    formats use.  The format is turned into a regular expression: a
    directive becomes a group of alternatives tried from left to right, any
    other character stands for itself, letters without regard to case.  The
    expression is matched at the start of the text with backtracking; text
    left over after the match is an error, and so is a day the month does
    not have or a second beyond 59. *)

Inductive directive : Set := dY | dm | dd | dH | dM | dS | df.

Inductive item : Type :=
| ILit (c : ascii)
| IGroup (d : directive).

Definition digit_in (lo hi : nat) (c : ascii) : bool :=
  let n := nat_of_ascii c in
  (Nat.leb (48 + lo) n && Nat.leb n (48 + hi))%bool.

Definition any_digit : ascii -> bool := digit_in 0 9.

Definition chr (a : ascii) (c : ascii) : bool := Ascii.eqb a c.

(** The alternatives of a directive, each a sequence of character classes. *)
Definition directive_regex (d : directive) : list (list (ascii -> bool)) :=
  match d with
  | dY => [[any_digit; any_digit; any_digit; any_digit]]
  | dm => [[chr "1"; digit_in 0 2]; [chr "0"; digit_in 1 9]; [digit_in 1 9]]
  | dd => [[chr "3"; digit_in 0 1]; [digit_in 1 2; any_digit];
           [chr "0"; digit_in 1 9]; [digit_in 1 9]; [chr " "; digit_in 1 9]]
  | dH => [[chr "2"; digit_in 0 3]; [digit_in 0 1; any_digit]; [any_digit]]
  | dM => [[digit_in 0 5; any_digit]; [any_digit]]
  | dS => [[chr "6"; digit_in 0 1]; [digit_in 0 5; any_digit]; [any_digit]]
  | df => [repeat any_digit 6; repeat any_digit 5; repeat any_digit 4;
           repeat any_digit 3; repeat any_digit 2; repeat any_digit 1]
  end.

Definition directive_of (c : ascii) : option directive :=
  if Ascii.eqb c "Y" then Some dY
  else if Ascii.eqb c "m" then Some dm
  else if Ascii.eqb c "d" then Some dd
  else if Ascii.eqb c "H" then Some dH
  else if Ascii.eqb c "M" then Some dM
  else if Ascii.eqb c "S" then Some dS
  else if Ascii.eqb c "f" then Some df
  else None.

Fixpoint parse_format (fmt : string) : option (list item) :=
  match fmt with
  | EmptyString => Some []
  | String "%" (String c rest) =>
      match directive_of c, parse_format rest with
      | Some d, Some its => Some (IGroup d :: its)
      | _, _ => None
      end
  | String "%" EmptyString => None
  | String c rest =>
      match parse_format rest with
      | Some its => Some (ILit c :: its)
      | None => None
      end
  end.

(** One alternative against the start of [s]: the text it takes, and the
    rest. *)
Fixpoint match_alt (alt : list (ascii -> bool)) (s : string)
  : option (string * string) :=
  match alt with
  | [] => Some (EmptyString, s)
  | p :: alt' =>
      match s with
      | String c s' =>
          if p c then
            match match_alt alt' s' with
            | Some (txt, rest) => Some (String c txt, rest)
            | None => None
            end
          else None
      | EmptyString => None
      end
  end.

(** The first alternative (in order) after which [k] succeeds. *)
Fixpoint first_alt {A : Type} (alts : list (list (ascii -> bool)))
  (s : string) (k : string -> string -> option A) : option A :=
  match alts with
  | [] => None
  | alt :: alts' =>
      match match_alt alt s with
      | Some (txt, rest) =>
          match k txt rest with
          | Some r => Some r
          | None => first_alt alts' s k
          end
      | None => first_alt alts' s k
      end
  end.

(** The match of the whole expression: the text of each group, and what is
    left of [s]. *)
Fixpoint match_items (its : list item) (s : string)
  : option (list (directive * string) * string) :=
  match its with
  | [] => Some ([], s)
  | ILit c :: its' =>
      match s with
      | String c' s' =>
          if Ascii.eqb (lower_ascii c) (lower_ascii c')
          then match_items its' s' else None
      | EmptyString => None
      end
  | IGroup d :: its' =>
      first_alt (directive_regex d) s
        (fun txt rest =>
           match match_items its' rest with
           | Some (fs, r) => Some ((d, txt) :: fs, r)
           | None => None
           end)
  end.

(** [int(text)] of a matched group (digits, after an optional blank). *)
Fixpoint int_of_text (acc : Z) (s : string) : Z :=
  match s with
  | EmptyString => acc
  | String c s' =>
      if any_digit c
      then int_of_text (10 * acc + Z.of_nat (nat_of_ascii c - 48)) s'
      else int_of_text acc s'
  end.

Definition directive_eqb (a b : directive) : bool :=
  match a, b with
  | dY, dY | dm, dm | dd, dd | dH, dH | dM, dM | dS, dS | df, df => true
  | _, _ => false
  end.

Definition group (d : directive) (fs : list (directive * string))
  : option string :=
  match find (fun f => directive_eqb d (fst f)) fs with
  | Some f => Some (snd f)
  | None => None
  end.

Definition group_int (d : directive) (default : Z)
  (fs : list (directive * string)) : Z :=
  match group d fs with
  | Some txt => int_of_text 0 txt
  | None => default
  end.

(** Microseconds: the digits of [%f] padded with zeros to six. *)
Definition fraction (fs : list (directive * string)) : Z :=
  match group df fs with
  | Some txt => int_of_text 0 txt * 10 ^ (6 - Z.of_nat (String.length txt))
  | None => 0
  end.

Definition is_leap (y : Z) : bool :=
  ((y mod 4 =? 0) && (negb (y mod 100 =? 0) || (y mod 400 =? 0)))%bool.

Definition days_in_month (y m : Z) : Z :=
  if m =? 2 then (if is_leap y then 29 else 28)
  else if (m =? 4) || (m =? 6) || (m =? 9) || (m =? 11) then 30
  else 31.

Record datetime : Set := Datetime {
  year : Z; month : Z; day : Z;
  hour : Z; minute : Z; second : Z; microsecond : Z
}.

(** The checks of the [date] and [datetime] constructors. *)
Definition datetime_ok (t : datetime) : bool :=
  ((1 <=? year t) && (year t <=? 9999)
   && (1 <=? month t) && (month t <=? 12)
   && (1 <=? day t) && (day t <=? days_in_month (year t) (month t))
   && (0 <=? hour t) && (hour t <=? 23)
   && (0 <=? minute t) && (minute t <=? 59)
   && (0 <=? second t) && (second t <=? 59)
   && (0 <=? microsecond t) && (microsecond t <=? 999999))%bool.

(** The text handed to the parser: a [str] as it is, a [unicode] encoded as
    ASCII; nothing else is accepted. *)
Definition data_string (val : pyval) : result string :=
  match val with
  | PStr s => Ok s
  | PUnicode s => if is_ascii s then Ok s else Raise ValueError
  | _ => Raise TypeError
  end.

Definition strptime (val : pyval) (fmt : string) : result datetime :=
  s <- data_string val ;;
  match parse_format fmt with
  | None => Raise ValueError
  | Some its =>
      match match_items its s with
      | None => Raise ValueError
      | Some (fs, rest) =>
          if negb (String.eqb rest EmptyString) then Raise ValueError
          else
            let t := Datetime (group_int dY 1900 fs) (group_int dm 1 fs)
                       (group_int dd 1 fs) (group_int dH 0 fs)
                       (group_int dM 0 fs) (group_int dS 0 fs) (fraction fs) in
            if datetime_ok t then Ok t else Raise ValueError
      end
  end.

Definition valid_times : list string :=
  ["%Y-%m-%d"; "%Y-%m-%dT%H:%M"; "%Y-%m-%dT%H:%M:%S";
   "%Y-%m-%dT%H:%M:%S.%f"].

(** The loop of [_check_date]: the value of [valid_time] when it ends.  Any
    exception of the parser is swallowed and the next format is tried. *)
Fixpoint valid_time_of (val : pyval) (fmts : list string) : bool :=
  match fmts with
  | [] => false
  | fmt :: fmts' =>
      match strptime val fmt with
      | Ok _ => true
      | Raise _ => valid_time_of val fmts'
      end
  end.

Definition _check_date (val : pyval) : line :=
  if valid_time_of val valid_times then no_defect
  else Line "Timestamp does not appear to be ISO 8601" [].

Definition _valid_creation_date (h : h5file) : result line :=
  val <- attrs_getitem h "creation-date" ;;
  Ok (_check_date val).

Definition _valid_datetime (table_json : pyval) : result line :=
  val <- py_getitem table_json "date" ;;
  Ok (_check_date val).

(** ** Matrix data rules *)

(** The body of the loop of [_valid_sparse_data] over the entries from
    index [idx] on.  The bare [except] turns any failure of the unpacking
    into a defect. *)
Fixpoint sparse_loop (dtype : pytype) (n_rows n_cols : pyval) (idx : Z)
  (coords : list pyval) : line :=
  match coords with
  | [] => no_defect
  | coord :: rest =>
      match unpack 3 coord with
      | Ok [x; y; val] =>
          if negb (_is_int x) || negb (_is_int y)
          then Line "Bad x or y type at idx %d: %s" [FNum idx; FRepr coord]
          else if negb (isinstance val dtype)
          then Line "Bad value at idx %d: %s" [FNum idx; FRepr coord]
          else if (int_val x <? 0) || int_gt (int_val x) n_rows
          then Line "x out of bounds at idx %d: %s" [FNum idx; FRepr coord]
          else if (int_val y <? 0) || int_gt (int_val y) n_cols
          then Line "y out of bounds at idx %d: %s" [FNum idx; FRepr coord]
          else sparse_loop dtype n_rows n_cols (idx + 1) rest
      | _ => Line "Bad matrix entry idx %d: %s" [FNum idx; FRepr coord]
      end
  end.

Definition _valid_sparse_data (table_json : pyval) : result line :=
  et <- py_getitem table_json "matrix_element_type" ;;
  dtype <- ElementTypes_getitem et ;;
  shape <- py_getitem table_json "shape" ;;
  rc <- unpack 2 shape ;;
  match rc with
  | [n_rows; n_cols] =>
      n_rows <- py_sub1 n_rows ;;
      n_cols <- py_sub1 n_cols ;;
      data <- py_getitem table_json "data" ;;
      coords <- py_iter data ;;
      Ok (sparse_loop dtype n_rows n_cols 0 coords)
  | _ => Raise ValueError
  end.

(** [reduce(and_, bs)]: without an initial value an empty list is an
    error. *)
Definition reduce_and (bs : list bool) : result bool :=
  match bs with
  | [] => Raise TypeError
  | b :: bs' => Ok (fold_left andb bs' b)
  end.

(** The loop of [_valid_dense_data]: [Some] defect when the loop returns,
    [None] when it runs to its end. *)
Fixpoint dense_loop (dtype : pytype) (n_cols : pyval) (rows : list pyval)
  : result (option line) :=
  match rows with
  | [] => Ok None
  | row :: rest =>
      n <- py_len row ;;
      if negb (eq_int n_cols n)
      then Ok (Some (Line "Incorrect number of cols: %s" [FRepr row]))
      else
        vs <- py_iter row ;;
        ok <- reduce_and (map (fun v => isinstance v dtype) vs) ;;
        if negb ok
        then Ok (Some (Line "Bad datatype in row: %s" [FRepr row]))
        else dense_loop dtype n_cols rest
  end.

Definition _valid_dense_data (table_json : pyval) : result line :=
  et <- py_getitem table_json "matrix_element_type" ;;
  dtype <- ElementTypes_getitem et ;;
  shape <- py_getitem table_json "shape" ;;
  rc <- unpack 2 shape ;;
  match rc with
  | [n_rows; n_cols] =>
      data <- py_getitem table_json "data" ;;
      rows <- py_iter data ;;
      r <- dense_loop dtype n_cols rows ;;
      match r with
      | Some defect => Ok defect
      | None =>
          n <- py_len data ;;
          if negb (eq_int n_rows n)
          then Ok (Line "Incorrect number of rows in matrix" [])
          else Ok no_defect
      end
  | _ => Raise ValueError
  end.

(** ** The remaining field rules *)

(** [str(ver)] of a [unicode] that is not ASCII raises
    [UnicodeEncodeError], a [ValueError]. *)
Definition _valid_hdf5_format_version (h : h5file) : result line :=
  ver <- attrs_getitem h "format-version" ;;
  elems <- py_iter ver ;;
  if forallb hashable elems then
    let known :=
      existsb (fun mm =>
                 match elems with
                 | [a; b] => eq_int a (fst mm) && eq_int b (snd mm)
                 | _ => false
                 end) HDF5FormatVersions in
    if negb known then
      if str_ok ver then Ok (Line "Invalid format version '%s'" [FStr ver])
      else Raise ValueError
    else Ok no_defect
  else Raise TypeError.

(** [self._format_version] is a [str].  Against a [unicode] field it is
    decoded as ASCII: when that fails the two compare unequal and the
    formatting of the message, which decodes it again, raises
    [UnicodeDecodeError], a [ValueError]. *)
Definition _valid_format (_format_version : string) (table_json : pyval)
  : result line :=
  f <- py_getitem table_json "format" ;;
  if is_unicode f && negb (is_ascii _format_version) then Raise ValueError
  else if negb (eq_str f _format_version)
  then Ok (Line "Invalid format '%s', must be '%s'"
             [FStr f; FText _format_version])
  else Ok no_defect.

Definition _valid_type (t : table) : result line :=
  let key := _json_or_hdf5_key t "type" in
  value <- _json_or_hdf5_get t key ;;
  lowered <- py_lower value ;;
  known <- in_names lowered TableTypes ;;
  if negb known then Ok (Line "Unknown BIOM type: %s" [FStr value])
  else Ok no_defect.

Definition _valid_generated_by (t : table) : result line :=
  let key := _json_or_hdf5_key t "generated_by" in
  value <- _json_or_hdf5_get t key ;;
  if negb (truthy value) then Ok (Line "'generated_by' is not populated" [])
  else Ok no_defect.

Definition _valid_nullable_id (t : table) : result line := Ok no_defect.

Definition _valid_id (record : pyval) : result line :=
  id <- py_getitem record "id" ;;
  if negb (truthy id) then Ok (Line "'id' in %s appears empty" [FStr record])
  else Ok no_defect.

Definition _valid_metadata (record : pyval) : result line :=
  md <- py_getitem record "metadata" ;;
  if is_none md then Ok no_defect
  else if is_dict md then Ok no_defect
  else Ok (Line "metadata is neither null or an object" []).

(** The [required_keys] of [_valid_rows] and [_valid_columns];
    [required_by_type] is empty and adds nothing. *)
Definition record_keys : list (string * (pyval -> result line)) :=
  [("id", _valid_id); ("metadata", _valid_metadata)].

(** The inner loop over the required keys of one entry: [Some] defect when
    it returns. *)
Fixpoint check_record (missing : string) (idx : Z) (record : pyval)
  (required_keys : list (string * (pyval -> result line)))
  : result (option line) :=
  match required_keys with
  | [] => Ok None
  | (key, method) :: rest =>
      has <- py_contains record key ;;
      if negb has then Ok (Some (Line missing [FNum idx; FText key]))
      else
        res <- method record ;;
        if len_pos res then Ok (Some res)
        else check_record missing idx record rest
  end.

(** The outer loop over the entries, from index [idx] on. *)
Fixpoint records_loop (missing : string) (idx : Z) (records : list pyval)
  : result line :=
  match records with
  | [] => Ok no_defect
  | record :: rest =>
      r <- check_record missing idx record record_keys ;;
      match r with
      | Some defect => Ok defect
      | None => records_loop missing (idx + 1) rest
      end
  end.

Definition _valid_rows (table_json : pyval) : result line :=
  ty <- py_getitem table_json "type" ;;
  _ <- py_lower ty ;;
  rows <- py_getitem table_json "rows" ;;
  rs <- py_iter rows ;;
  records_loop "ROW IDX %d MISSING '%s' FIELD" 0 rs.

Definition _valid_columns (table_json : pyval) : result line :=
  ty <- py_getitem table_json "type" ;;
  _ <- py_lower ty ;;
  cols <- py_getitem table_json "columns" ;;
  cs <- py_iter cols ;;
  records_loop "COL IDX %d MISSING '%s' FIELD" 0 cs.

Definition _valid_data (table_json : pyval) : result line :=
  mt <- py_getitem table_json "matrix_type" ;;
  lowered <- py_lower mt ;;
  if eq_str lowered "sparse" then _valid_sparse_data table_json
  else if eq_str lowered "dense" then _valid_dense_data table_json
  else Ok (Line "Unknown matrix type" []).

(** ** The drivers *)

(** [valid_table] and [report_lines]. *)
Record report : Type := Report {
  valid_table : bool;
  report_lines : list line
}.

Definition append (r : report) (l : line) : report :=
  Report (valid_table r) (report_lines r ++ [l]).

Definition fail (r : report) : report := Report false (report_lines r).

(** [if detailed_report: report_lines.append(l)] *)
Definition narrate (detailed_report : bool) (r : report) (l : line) : report :=
  if detailed_report then append r l else r.

(** The loop over the required fields, shared by both drivers: [contains]
    is [key in table_json] or [key in table.attrs], [missing] the format of
    the line for an absent key. *)
Fixpoint check_required {T : Type} (contains : T -> string -> result bool)
  (missing : string) (detailed_report : bool) (t : T)
  (required : list (string * (T -> result line))) (r : report)
  : result report :=
  match required with
  | [] => Ok r
  | (key, method) :: rest =>
      has <- contains t key ;;
      if negb has then
        check_required contains missing detailed_report t rest
          (append (fail r) (Line missing [FText key]))
      else
        let r := narrate detailed_report r
                   (Line "Validating '%s'..." [FText key]) in
        status_msg <- method t ;;
        if len_pos status_msg then
          check_required contains missing detailed_report t rest
            (append (fail r) status_msg)
        else check_required contains missing detailed_report t rest r
  end.

(** The loops over the required groups and datasets. *)
Fixpoint check_present (missing : string) (detailed_report : bool)
  (h : h5file) (paths : list string) (r : report) : report :=
  match paths with
  | [] => r
  | path :: rest =>
      if negb (dict_has path (items h)) then
        check_present missing detailed_report h rest
          (narrate detailed_report (fail r) (Line missing [FText path]))
      else check_present missing detailed_report h rest r
  end.

Definition required_attrs : list (string * (h5file -> result line)) :=
  [("format-url", fun h => _valid_format_url (THdf5 h));
   ("format-version", _valid_hdf5_format_version);
   ("type", fun h => _valid_type (THdf5 h));
   ("shape", fun h => _valid_shape (THdf5 h));
   ("nnz", _valid_nnz);
   ("generated-by", fun h => _valid_generated_by (THdf5 h));
   ("id", fun h => _valid_nullable_id (THdf5 h));
   ("creation-date", _valid_creation_date)].

Definition required_groups : list string := ["observation"; "sample"].

Definition required_datasets : list string :=
  ["observation/ids"; "observation/data"; "observation/indices";
   "observation/indptr"; "sample/ids"; "sample/data"; "sample/indices";
   "sample/indptr"].

(** [table.get(path, None)] *)
Definition h5_get (h : h5file) (path : string) : pyval :=
  match dict_lookup path (items h) with
  | Some x => x
  | None => PNone
  end.

(** [if x is None: valid_table = False; report_lines.append(l)] *)
Definition flag_none (x : pyval) (r : report) (l : line) : report :=
  if is_none x then append (fail r) l else r.

(** [if n != len(ids): valid_table = False; report_lines.append(l)] *)
Definition flag_len (n ids : pyval) (r : report) (l : line) : result report :=
  k <- py_len ids ;;
  if negb (eq_int n k) then Ok (append (fail r) l) else Ok r.

(** The block [if 'shape' in table.attrs:] that ends [_validate_hdf5]. *)
Definition shape_versus_ids (h : h5file) (detailed_report : bool) (r : report)
  : result report :=
  if dict_has "shape" (attrs h) then
    let r := narrate detailed_report r
               (Line "Validating 'shape' versus number of samples and observations..." []) in
    shape <- attrs_getitem h "shape" ;;
    ns <- unpack 2 shape ;;
    match ns with
    | [n_obs; n_samp] =>
        let obs_ids := h5_get h "observation/ids" in
        let samp_ids := h5_get h "sample/ids" in
        let r := flag_none obs_ids r
                   (Line "observation/ids does not exist, cannot validate shape" []) in
        let r := flag_none samp_ids r
                   (Line "sample/ids does not exist, cannot validate shape" []) in
        r <- flag_len n_obs obs_ids r
               (Line "Number of observation IDs is not equal to the described shape" []) ;;
        flag_len n_samp samp_ids r
          (Line "Number of sample IDs is not equal to the described shape" [])
    | _ => Raise ValueError
    end
  else Ok r.

Definition _validate_hdf5 (h : h5file) (detailed_report : bool)
  : result report :=
  let r := Report true [] in
  let r := narrate detailed_report r (Line "Validating BIOM table..." []) in
  r <- check_required attrs_contains
         "Missing attribute: '%s'" detailed_report h required_attrs r ;;
  let r := check_present "Missing group: %s" detailed_report h
             required_groups r in
  let r := check_present "Missing dataset: %s" detailed_report h
             required_datasets r in
  shape_versus_ids h detailed_report r.

Definition required_keys (_format_version : string)
  : list (string * (pyval -> result line)) :=
  [("format", _valid_format _format_version);
   ("format_url", fun t => _valid_format_url (TJson t));
   ("type", fun t => _valid_type (TJson t));
   ("rows", _valid_rows);
   ("columns", _valid_columns);
   ("shape", fun t => _valid_shape (TJson t));
   ("data", _valid_data);
   ("matrix_type", _valid_matrix_type);
   ("matrix_element_type", _valid_matrix_element_type);
   ("generated_by", fun t => _valid_generated_by (TJson t));
   ("id", fun t => _valid_nullable_id (TJson t));
   ("date", _valid_datetime)].

(** [if key in table_json and len(table_json[key]) != table_json['shape'][i]:
    valid_table = False; report_lines.append(l)] *)
Definition cross_check (table_json : pyval) (key : string) (i : nat)
  (r : report) (l : line) : result report :=
  has <- py_contains table_json key ;;
  if has then
    xs <- py_getitem table_json key ;;
    n <- py_len xs ;;
    shape <- py_getitem table_json "shape" ;;
    s <- py_index shape i ;;
    if negb (eq_int s n) then Ok (append (fail r) l) else Ok r
  else Ok r.

(** The block [if 'shape' in table_json:] that ends [_validate_json]. *)
Definition shape_versus_rows (table_json : pyval) (detailed_report : bool)
  (r : report) : result report :=
  has_shape <- py_contains table_json "shape" ;;
  if has_shape then
    let r := narrate detailed_report r
               (Line "Validating 'shape' versus number of rows and columns..." []) in
    r <- cross_check table_json "rows" 0 r
           (Line "Number of rows in 'rows' is not equal to 'shape'" []) ;;
    cross_check table_json "columns" 1 r
      (Line "Number of columns in 'columns' is not equal to 'shape'" [])
  else Ok r.

Definition _validate_json (table_json : pyval) (format_version : string)
  (detailed_report : bool) : result report :=
  let r := Report true [] in
  let r := narrate detailed_report r (Line "Validating BIOM table..." []) in
  r <- check_required py_contains "Missing field: '%s'" detailed_report
         table_json (required_keys format_version) r ;;
  shape_versus_rows table_json detailed_report r.

(** ** Example documents *)

Definition null_record (id : string) : pyval :=
  PDict [("id", PUnicode id); ("metadata", PNone)].

(** The flat document of the specification's end-to-end example. *)
Definition example_table : dict :=
  [("format", PUnicode "1.0.0");
   ("format_url", PUnicode "http://biom-format.org");
   ("type", PUnicode "OTU table");
   ("shape", PList [PInt 2; PInt 1]);
   ("rows", PList [null_record "r1"; null_record "r2"]);
   ("columns", PList [null_record "c1"]);
   ("matrix_type", PUnicode "sparse");
   ("matrix_element_type", PUnicode "int");
   ("data", PList [PList [PInt 0; PInt 0; PInt 5]]);
   ("generated_by", PUnicode "test");
   ("id", PNone);
   ("date", PUnicode "2011-12-19T19:00:00")].

(** [d[k] = v] *)
Definition dict_set (k : string) (v : pyval) (d : dict) : dict :=
  (k, v) :: dict_remove k d.

(** A conformant hierarchical document of two observations and one
    sample. *)
Definition example_h5 : h5file :=
  H5File
    [("format-url", PStr "http://biom-format.org");
     ("format-version", PList [PInt 2; PInt 0]);
     ("type", PStr "OTU table");
     ("shape", PList [PInt 2; PInt 1]);
     ("nnz", PInt 1);
     ("generated-by", PStr "test");
     ("id", PNone);
     ("creation-date", PStr "2011-12-19T19:00:00")]
    [("observation", PDict []);
     ("sample", PDict []);
     ("observation/ids", PList [PStr "r1"; PStr "r2"]);
     ("observation/data", PList [PFloat 5]);
     ("observation/indices", PList [PInt 0]);
     ("observation/indptr", PList [PInt 0; PInt 1; PInt 1]);
     ("sample/ids", PList [PStr "c1"]);
     ("sample/data", PList [PFloat 5]);
     ("sample/indices", PList [PInt 0]);
     ("sample/indptr", PList [PInt 0; PInt 1])].

(** The example declared dense, of one row and no column, its data one
    empty row. *)
Definition dense_empty_row : dict :=
  dict_set "matrix_type" (PUnicode "dense")
    (dict_set "shape" (PList [PInt 1; PInt 0])
       (dict_set "rows" (PList [null_record "r1"])
          (dict_set "columns" (PList [])
             (dict_set "data" (PList [PList []]) example_table)))).

(** ** Predicates used by the statements *)

(** A required field that is present and whose rule returns no defect. *)
Definition passes {T : Type} (contains : T -> string -> result bool) (t : T)
  (km : string * (T -> result line)) : Prop :=
  contains t (fst km) = Ok true
  /\ exists l, snd km t = Ok l /\ len_pos l = false.


(** A sparse entry that goes through every check of the loop, for the
    declared [n_rows] and [n_cols]. *)
Definition entry_ok (dtype : pytype) (n_rows n_cols : Z) (coord : pyval)
  : bool :=
  match unpack 3 coord with
  | Ok [x; y; val] =>
      _is_int x && _is_int y && isinstance val dtype
      && (0 <=? int_val x) && (int_val x <=? n_rows - 1)
      && (0 <=? int_val y) && (int_val y <=? n_cols - 1)
  | _ => false
  end.


(** A dense row that goes through both checks of the loop. *)
Definition row_ok (dtype : pytype) (n_cols : pyval) (row : pyval) : bool :=
  match py_len row, py_iter row with
  | Ok n, Ok (v :: vs) =>
      eq_int n_cols n && forallb (fun v => isinstance v dtype) (v :: vs)
  | _, _ => false
  end.

(** An entry of [rows] or [columns] with a non-empty id and a metadata that
    is null or an object. *)
Definition record_ok (record : pyval) : bool :=
  match record with
  | PDict kvs =>
      match dict_lookup "id" kvs, dict_lookup "metadata" kvs with
      | Some id, Some md => truthy id && (is_none md || is_dict md)
      | _, _ => false
      end
  | _ => false
  end.

(** A rule that does not read the key [k]: it returns the same on a
    document and on the document with [k] removed by [del]. *)
Definition ignores {T : Type} (del : string -> T -> T)
  (method : T -> result line) (k : string) : Prop :=
  forall t, method (del k t) = method t.

(** The shape rule as the specification words it: a pair of two
    non-negative integers, both integer-typed. *)
Definition spec_shape_ok (shape : pyval) : bool :=
  match shape with
  | PList [a; b] =>
      _is_int a && _is_int b && (0 <=? int_val a) && (0 <=? int_val b)
  | _ => false
  end.

(** The keys of the flat encoding that no rule but their own reads. *)
Definition independent_keys : list string :=
  ["format"; "format_url"; "rows"; "columns"; "data"; "generated_by"; "id";
   "date"].

(** The datasets the shape cross-check does not read. *)
Definition unread_paths : list string :=
  ["observation/data"; "observation/indices"; "observation/indptr";
   "sample/data"; "sample/indices"; "sample/indptr"].

(** The flat document without the key [k]. *)
Definition without_key (k : string) (table_json : pyval) : pyval :=
  match table_json with
  | PDict kvs => PDict (dict_remove k kvs)
  | _ => table_json
  end.

Definition without_attr (k : string) (h : h5file) : h5file :=
  H5File (dict_remove k (attrs h)) (items h).

(** [q] is the path [p] or lies below it. *)
Definition below (p q : string) : bool :=
  String.eqb p q || String.prefix (String.append p "/") q.

(** [del table[p]]: the object at [p] goes, and with a group every group
    and dataset below it. *)
Definition without_item (p : string) (h : h5file) : h5file :=
  H5File (attrs h)
    (filter (fun kv => negb (below p (fst kv))) (items h)).

Definition is_text (v : pyval) (s : string) : Prop :=
  v = PStr s \/ v = PUnicode s.

(** Two runs that raise the same exception or return the same verdict. *)
Definition same_verdict (a b : result report) : Prop :=
  rmap valid_table a = rmap valid_table b.

(** ** The timestamps the date rule passes *)

Definition is_digit (c : ascii) : bool :=
  (Nat.leb 48 (nat_of_ascii c) && Nat.leb (nat_of_ascii c) 57)%bool.

Definition digit_value (c : ascii) : Z := Z.of_nat (nat_of_ascii c) - 48.

Fixpoint all_digits (s : string) : bool :=
  match s with
  | EmptyString => true
  | String c s' => is_digit c && all_digits s'
  end.

(** The number a text of digits writes. *)
Fixpoint number_from (acc : Z) (s : string) : Z :=
  match s with
  | EmptyString => acc
  | String c s' => number_from (10 * acc + digit_value c) s'
  end.

Definition number (s : string) : Z := number_from 0 s.

(** One or two digits that write a number from [lo] to [hi]. *)
Definition short_number (lo hi : Z) (txt : string) : bool :=
  all_digits txt
  && (Nat.eqb (String.length txt) 1 || Nat.eqb (String.length txt) 2)
  && (lo <=? number txt) && (number txt <=? hi).

(** A year: exactly four digits. *)
Definition year_text (txt : string) : bool :=
  all_digits txt && Nat.eqb (String.length txt) 4.

(** A day: one or two digits, or a blank and a digit. *)
Definition day_text (txt : string) : bool :=
  short_number 1 31 txt
  || match txt with
     | String b (String c EmptyString) =>
         Ascii.eqb b " " && is_digit c && (1 <=? digit_value c)
     | _ => false
     end.

Definition day_number (txt : string) : Z :=
  match txt with
  | String b txt' => if Ascii.eqb b " " then number txt' else number txt
  | EmptyString => 0
  end.

(** The fraction of a second: one to six digits. *)
Definition fraction_text (txt : string) : bool :=
  all_digits txt && Nat.leb 1 (String.length txt)
  && Nat.leb (String.length txt) 6.

Definition leap_year (y : Z) : bool :=
  (y mod 4 =? 0) && (negb (y mod 100 =? 0) || (y mod 400 =? 0)).

Definition month_length (y m : Z) : Z :=
  nth (Z.to_nat (m - 1))
    [31; if leap_year y then 29 else 28; 31; 30; 31; 30; 31; 31; 30; 31; 30; 31]
    0.

(** A calendar date written as year, month and day. *)
Definition spec_date (Y M D : string) : bool :=
  year_text Y && (1 <=? number Y)
  && short_number 1 12 M
  && day_text D && (day_number D <=? month_length (number Y) (number M)).

Definition spec_fraction (tail : string) : Prop :=
  tail = EmptyString
  \/ exists F, tail = String "." F /\ fraction_text F = true.

Definition spec_seconds (tail : string) : Prop :=
  tail = EmptyString
  \/ exists sec tail',
       tail = String ":" (sec ++ tail')%string
       /\ short_number 0 59 sec = true /\ spec_fraction tail'.

Definition spec_time (tail : string) : Prop :=
  tail = EmptyString
  \/ exists c h mi tail',
       tail = String c (h ++ String ":" (mi ++ tail'))%string
       /\ (c = "T"%char \/ c = "t"%char)
       /\ short_number 0 23 h = true /\ short_number 0 59 mi = true
       /\ spec_seconds tail'.

(** The texts the date rule passes: a date, then nothing or a time of hours
    and minutes, then nothing or seconds, then nothing or a fraction. *)
Definition spec_timestamp (s : string) : Prop :=
  exists Y M D tail,
    s = (Y ++ String "-" (M ++ String "-" (D ++ tail)))%string
    /\ spec_date Y M D = true /\ spec_time tail.

(** The four patterns read to the letter: each letter a digit, the other
    characters themselves. *)
Fixpoint matches_pattern (pat s : string) : bool :=
  match pat, s with
  | EmptyString, EmptyString => true
  | String p pat', String c s' =>
      (if (Ascii.eqb p "-" || Ascii.eqb p ":" || Ascii.eqb p "." || Ascii.eqb p "T")%bool
       then Ascii.eqb p c else is_digit c)
      && matches_pattern pat' s'
  | _, _ => false
  end.

Definition spec_patterns : list string :=
  ["YYYY-MM-DD"; "YYYY-MM-DDTHH:MM"; "YYYY-MM-DDTHH:MM:SS";
   "YYYY-MM-DDTHH:MM:SS.ffffff"].

Definition matches_a_pattern (s : string) : bool :=
  existsb (fun pat => matches_pattern pat s) spec_patterns.

(** The texts a group of the parser's expression takes. *)
Definition field_text (d : directive) (txt : string) : bool :=
  match d with
  | dY => year_text txt
  | dm => short_number 1 12 txt
  | dd => day_text txt
  | dH => short_number 0 23 txt
  | dM => short_number 0 59 txt
  | dS => short_number 0 61 txt
  | df => fraction_text txt
  end.

(** [parses its s fs]: the text [s] read from end to end as the items
    [its], the groups taking the texts [fs]. *)
Inductive parses : list item -> string -> list (directive * string) -> Prop :=
| parses_nil : parses [] EmptyString []
| parses_lit (c c' : ascii) (its : list item) (s : string)
    (fs : list (directive * string)) :
    lower_ascii c = lower_ascii c' -> parses its s fs ->
    parses (ILit c :: its) (String c' s) fs
| parses_group (d : directive) (its : list item) (txt s : string)
    (fs : list (directive * string)) :
    field_text d txt = true -> parses its s fs ->
    parses (IGroup d :: its) (txt ++ s)%string ((d, txt) :: fs).

Definition sep_char (c : ascii) : bool :=
  Ascii.eqb c "-" || Ascii.eqb c "T" || Ascii.eqb c ":" || Ascii.eqb c ".".

(** Every group of the format is followed by a separator or by nothing. *)
Fixpoint separated (its : list item) : bool :=
  match its with
  | [] => true
  | ILit _ :: its' => separated its'
  | IGroup _ :: its' =>
      match its' with
      | [] => true
      | ILit c :: _ => sep_char c
      | IGroup _ :: _ => false
      end && separated its'
  end.

Definition head_digit (s : string) : bool :=
  match s with
  | String c _ => is_digit c
  | EmptyString => false
  end.

(** The date and time the parser builds from the groups. *)
Definition datetime_of (fs : list (directive * string)) : datetime :=
  Datetime (group_int dY 1900 fs) (group_int dm 1 fs) (group_int dd 1 fs)
    (group_int dH 0 fs) (group_int dM 0 fs) (group_int dS 0 fs) (fraction fs).

(** ** Predicates used by the further properties *)

(** The cross-check of the flat driver holds for [key]: the length of
    [table_json[key]] equals [table_json['shape'][i]]. *)
Definition rows_match (table_json : pyval) (key : string) (i : nat) : Prop :=
  exists xs n shape s,
    py_getitem table_json key = Ok xs /\ py_len xs = Ok n
    /\ py_getitem table_json "shape" = Ok shape /\ py_index shape i = Ok s
    /\ eq_int s n = true.

(** The cross-check of the hierarchical driver holds: the shape unpacks
    into two numbers that equal the lengths of the two ids datasets. *)
Definition ids_match (h : h5file) : Prop :=
  exists shape n_obs n_samp k_obs k_samp,
    attrs_getitem h "shape" = Ok shape /\ unpack 2 shape = Ok [n_obs; n_samp]
    /\ py_len (h5_get h "observation/ids") = Ok k_obs
    /\ eq_int n_obs k_obs = true
    /\ py_len (h5_get h "sample/ids") = Ok k_samp
    /\ eq_int n_samp k_samp = true.

(** [if b: valid_table = False; report_lines.append(l)] *)
Definition flag (b : bool) (r : report) (l : line) : report :=
  if b then append (fail r) l else r.

(** [subseq xs ys]: [xs] is [ys] with some elements left out. *)
Inductive subseq {A : Type} : list A -> list A -> Prop :=
| subseq_nil : subseq [] []
| subseq_skip (y : A) (xs ys : list A) : subseq xs ys -> subseq xs (y :: ys)
| subseq_keep (x : A) (xs ys : list A) :
    subseq xs ys -> subseq (x :: xs) (x :: ys).

(** A narrated run against the quiet run: the same exception, or the same
    verdict with the quiet lines found in order among the narrated ones. *)
Definition narrates (loud quiet : result report) : Prop :=
  match loud, quiet with
  | Ok r1, Ok r2 =>
      valid_table r1 = valid_table r2
      /\ subseq (report_lines r2) (report_lines r1)
  | Raise e1, Raise e2 => e1 = e2
  | _, _ => False
  end.

(** [extends r r']: [r'] is [r] after more checks, its lines those of [r]
    followed by others, its verdict true only if that of [r] is. *)
Definition extends (r r' : report) : Prop :=
  (exists more, report_lines r' = report_lines r ++ more)
  /\ (valid_table r' = true -> valid_table r = true).

(** The least and the greatest number of characters the alternatives of a
    group take, and those of a whole format. *)
Fixpoint min_length (alts : list (list (ascii -> bool))) : nat :=
  match alts with
  | [] => 0
  | [alt] => List.length alt
  | alt :: alts' => Nat.min (List.length alt) (min_length alts')
  end.

Fixpoint max_length (alts : list (list (ascii -> bool))) : nat :=
  match alts with
  | [] => 0
  | alt :: alts' => Nat.max (List.length alt) (max_length alts')
  end.

Definition item_span (it : item) : nat * nat :=
  match it with
  | ILit _ => (1, 1)%nat
  | IGroup d => (min_length (directive_regex d), max_length (directive_regex d))
  end.

Fixpoint format_span (its : list item) : nat * nat :=
  match its with
  | [] => (0, 0)%nat
  | it :: its' =>
      (fst (item_span it) + fst (format_span its'),
       snd (item_span it) + snd (format_span its'))%nat
  end.

(** * Properties *)

(** ** Integer-typed checks and booleans *)

Lemma lookup_set_eq (k : string) (v : pyval) (d : dict) :
  dict_lookup k (dict_set k v d) = Some v.
Proof.
  unfold dict_set; simpl. now rewrite String.eqb_refl.
Qed.

Lemma int_gt_mk_int (x z : Z) : int_gt x (mk_int z) = (z <? x).
Proof.
  unfold mk_int. now destruct (_ && _)%bool.
Qed.

(** C10, as stated, fails in its third part: the boolean a hierarchical
    file holds reaches the rule as a [numpy.bool_], which is not an
    instance of [int]; the nnz rule gives it the defect "nnz is not an
    integer!", and the conformant example with such an [nnz] is reported
    invalid. *)
Lemma boolean_nnz_attribute_rejected :
  _is_int (PNpBool true) = false
  /\ _valid_nnz (H5File [("nnz", PNpBool true)] [])
     = Ok (Line "nnz is not an integer!" [])
  /\ _validate_hdf5
       (H5File (dict_set "nnz" (PNpBool true) (attrs example_h5))
          (items example_h5)) false
     = Ok (Report false [Line "nnz is not an integer!" []]).
Proof.
  repeat split; vm_compute; reflexivity.
Qed.

(** C10, amended: a boolean of the flat encoding goes through every
    integer-typed check.  A shape of two booleans passes the shape rule; a
    sparse entry whose row (or column) index is [True] passes the type
    check and is then subject to the bounds checks alone.  The nnz rule
    passes exactly the attributes that are instances of [int] and not
    negative; the boolean attribute of a hierarchical file, a
    [numpy.bool_], is not one and gets the defect "nnz is not an
    integer!". *)
Theorem booleans_and_integer_checks
  (d its : dict) (b1 b2 b : bool) (dtype : pytype) (n_rows n_cols : pyval)
  (idx : Z) (i val : pyval) (rest : list pyval)
  (Hi : _is_int i = true) (Hval : isinstance val dtype = true) :
  _valid_shape (TJson (PDict (dict_set "shape" (PList [PBool b1; PBool b2]) d)))
    = Ok no_defect
  /\ sparse_loop dtype n_rows n_cols idx (PList [PBool true; i; val] :: rest)
     = (if int_gt 1 n_rows
        then Line "x out of bounds at idx %d: %s"
               [FNum idx; FRepr (PList [PBool true; i; val])]
        else if (int_val i <? 0) || int_gt (int_val i) n_cols
        then Line "y out of bounds at idx %d: %s"
               [FNum idx; FRepr (PList [PBool true; i; val])]
        else sparse_loop dtype n_rows n_cols (idx + 1) rest)
  /\ sparse_loop dtype n_rows n_cols idx (PList [i; PBool true; val] :: rest)
     = (if (int_val i <? 0) || int_gt (int_val i) n_rows
        then Line "x out of bounds at idx %d: %s"
               [FNum idx; FRepr (PList [i; PBool true; val])]
        else if int_gt 1 n_cols
        then Line "y out of bounds at idx %d: %s"
               [FNum idx; FRepr (PList [i; PBool true; val])]
        else sparse_loop dtype n_rows n_cols (idx + 1) rest)
  /\ (forall nnz,
        _valid_nnz (H5File (dict_set "nnz" nnz d) its) = Ok no_defect
        <-> _is_int nnz = true /\ 0 <= int_val nnz)
  /\ _valid_nnz (H5File (dict_set "nnz" (PNpBool b) d) its)
     = Ok (Line "nnz is not an integer!" []).
Proof.
  split; [| split; [| split; [| split]]].
  - unfold _valid_shape, _json_or_hdf5_get, py_get.
    rewrite lookup_set_eq. reflexivity.
  - simpl. rewrite Hi, Hval. reflexivity.
  - simpl. rewrite Hi, Hval. reflexivity.
  - intro nnz. unfold _valid_nnz, attrs_getitem. simpl attrs.
    rewrite lookup_set_eq. cbn [bind].
    destruct (_is_int nnz); cbn [negb].
    + destruct (Z.ltb_spec (int_val nnz) 0); split;
        first [discriminate | intros [_ ?]; lia | intros _; split; [reflexivity | lia]
              | reflexivity ].
    + split; [discriminate | intros [? _]; discriminate].
  - unfold _valid_nnz, attrs_getitem. simpl attrs.
    rewrite lookup_set_eq. reflexivity.
Qed.

Lemma booleans_and_integer_checks_witness :
  sparse_loop Ty_int (PInt 1) (PInt 0) 0
    [PList [PBool true; PBool false; PInt 5]] = no_defect.
Proof.
  destruct (booleans_and_integer_checks [] [] true true true Ty_int
              (PInt 1) (PInt 0) 0 (PBool false) (PInt 5) []
              eq_refl eq_refl) as (_ & H & _).
  rewrite H. reflexivity.
Defined.

(** ** The matrix type: membership against dispatch *)

Lemma is_text_hashable (v : pyval) (s : string) :
  is_text v s -> hashable v = true.
Proof.
  now intros [-> | ->].
Qed.

Lemma is_text_lower (v : pyval) (s : string) :
  is_text v s ->
  exists w, py_lower v = Ok w /\ forall k, eq_str w k = String.eqb (lower_string s) k.
Proof.
  intros [-> | ->]; eexists; (split; [reflexivity | intro k; reflexivity]).
Qed.

Lemma is_text_eq_str (v : pyval) (s k : string) :
  is_text v s -> eq_str v k = String.eqb s k.
Proof.
  now intros [-> | ->].
Qed.

(** C9: when [matrix_type] is a spelling of "sparse" or "dense" that is not
    all lower case, the matrix_type rule reports it as unknown (its
    membership test compares the text as it is) while the data rule still
    runs the sparse or dense validation (it lowers the text first); the
    document of the example, spelt "Sparse" and with an entry out of
    bounds, gets both the defect of the data validation and the
    matrix_type defect. *)
Theorem matrix_type_case_mismatch (d mt : pyval) (s : string)
  (Hget : py_getitem d "matrix_type" = Ok mt) (Htext : is_text mt s)
  (Hns : s <> "sparse") (Hnd : s <> "dense") :
  _valid_matrix_type d = Ok (Line "Unknown 'matrix_type'" [])
  /\ (lower_string s = "sparse" -> _valid_data d = _valid_sparse_data d)
  /\ (lower_string s = "dense" -> _valid_data d = _valid_dense_data d)
  /\ _validate_json
       (PDict (dict_set "matrix_type" (PUnicode "Sparse")
                 (dict_set "data" (PList [PList [PInt 5; PInt 0; PInt 1]])
                    example_table))) "1.0.0" false
     = Ok (Report false
             [Line "x out of bounds at idx %d: %s"
                [FNum 0; FRepr (PList [PInt 5; PInt 0; PInt 1])];
              Line "Unknown 'matrix_type'" []]).
Proof.
  destruct (is_text_lower _ _ Htext) as (w & Hw & Heq).
  split; [| split; [| split]].
  - unfold _valid_matrix_type. rewrite Hget. cbn [bind].
    unfold in_names. rewrite (is_text_hashable _ _ Htext). cbn [bind].
    unfold MatrixTypes. cbn [existsb].
    rewrite !(is_text_eq_str _ _ _ Htext).
    apply String.eqb_neq in Hns, Hnd. now rewrite Hns, Hnd.
  - intro Hl. unfold _valid_data. rewrite Hget. cbn [bind].
    rewrite Hw. cbn [bind]. now rewrite Heq, Hl.
  - intro Hl. unfold _valid_data. rewrite Hget. cbn [bind].
    rewrite Hw. cbn [bind]. now rewrite !Heq, Hl.
  - vm_compute. reflexivity.
Qed.

Lemma matrix_type_case_mismatch_witness :
  _valid_matrix_type (PDict [("matrix_type", PUnicode "Dense")])
  = Ok (Line "Unknown 'matrix_type'" []).
Proof.
  refine (proj1 (matrix_type_case_mismatch
                   (PDict [("matrix_type", PUnicode "Dense")])
                   (PUnicode "Dense") "Dense" eq_refl (or_intror eq_refl)
                   _ _)); discriminate.
Defined.

(** ** The shape rule *)

(** C5, as stated, fails: a shape with a negative integer gets no defect
    from the shape rule, although it is not a pair of non-negative
    integers. *)
Lemma shape_rule_accepts_negative :
  _valid_shape (TJson (PDict [("shape", PList [PInt (-1); PInt 2])]))
  = Ok no_defect
  /\ spec_shape_ok (PList [PInt (-1); PInt 2]) = false.
Proof.
  split; reflexivity.
Qed.

(** C5, amended: the shape rule accepts a value iff it unpacks into exactly
    two objects that are both integer-typed ([int] or [bool]; not a [long],
    not an integer-valued [float]); their sign is not looked at, so any
    pair of [int]s passes. *)
Theorem shape_rule_accepts_iff (t : table) (shape : pyval)
  (Hget : _json_or_hdf5_get t "shape" = Ok shape) :
  (_valid_shape t = Ok no_defect
   <-> exists a b, py_iter shape = Ok [a; b]
                   /\ _is_int a = true /\ _is_int b = true)
  /\ (forall za zb, shape = PList [PInt za; PInt zb] ->
                    _valid_shape t = Ok no_defect)
  /\ (forall z f, shape = PList [PLong z; PInt 1] \/
                  shape = PList [PFloat f; PInt 1] ->
                  _valid_shape t
                  = Ok (Line "'shape' values do not appear to be integers" [])).
Proof.
  unfold _valid_shape. rewrite Hget. cbn [bind]. unfold unpack.
  split; [| split].
  - destruct (py_iter shape) as [xs | e]; cbn [bind].
    + destruct xs as [| a [| b [| c xs]]]; cbn.
      * split; [discriminate | intros (a & b & H & _); discriminate].
      * split; [discriminate | intros (a' & b & H & _); discriminate].
      * destruct (_is_int a) eqn:Ha, (_is_int b) eqn:Hb; cbn;
          (split; [ try discriminate; intros _; now exists a, b
                  | intros (a' & b' & H & Ha' & Hb'); try reflexivity;
                    injection H as <- <-; congruence ]).
      * split; [discriminate | intros (a' & b' & H & _); discriminate].
    + split; [discriminate | intros (a & b & H & _); discriminate].
  - intros za zb ->. reflexivity.
  - intros z f [-> | ->]; reflexivity.
Qed.

Lemma shape_rule_accepts_iff_witness :
  _valid_shape (TJson (PDict [("shape", PList [PInt (-1); PInt 2])]))
  = Ok no_defect.
Proof.
  exact (proj1 (proj2 (shape_rule_accepts_iff
                         (TJson (PDict [("shape", PList [PInt (-1); PInt 2])]))
                         (PList [PInt (-1); PInt 2]) eq_refl))
           (-1) 2 eq_refl).
Defined.

(** ** The date rule *)

Lemma valid_time_of_spec (val : pyval) (fmts : list string) :
  valid_time_of val fmts = true
  <-> exists pre fmt post t,
        fmts = pre ++ fmt :: post
        /\ strptime val fmt = Ok t
        /\ Forall (fun f => raises (strptime val f) = true) pre.
Proof.
  induction fmts as [| f fmts IH]; cbn [valid_time_of].
  - split; [discriminate |].
    intros (pre & fmt & post & t & H & _). now destruct pre.
  - destruct (strptime val f) as [t | e] eqn:Hf.
    + split; [intros _ | reflexivity].
      exists [], f, fmts, t. repeat split; [assumption | constructor].
    + rewrite IH. split.
      * intros (pre & fmt & post & t & -> & Ht & Hpre).
        exists (f :: pre), fmt, post, t. repeat split; [assumption |].
        constructor; [now rewrite Hf | assumption].
      * intros (pre & fmt & post & t & H & Ht & Hpre).
        destruct pre as [| f' pre]; cbn in H; injection H as -> ->.
        -- congruence.
        -- inversion Hpre; subst. now exists pre, fmt, post, t.
Qed.

(** *** Character classes as arithmetic *)

Lemma nat_of_ascii_inj (a c : ascii) :
  nat_of_ascii a = nat_of_ascii c -> a = c.
Proof.
  intro H. rewrite <- (ascii_nat_embedding a), <- (ascii_nat_embedding c).
  now rewrite H.
Qed.

Lemma chr_true (a c : ascii) :
  chr a c = true -> nat_of_ascii c = nat_of_ascii a.
Proof.
  unfold chr. intro H. apply Ascii.eqb_eq in H. now subst.
Qed.

Lemma chr_false (a c : ascii) :
  chr a c = false -> nat_of_ascii c <> nat_of_ascii a.
Proof.
  unfold chr. intros H E. apply nat_of_ascii_inj in E. subst.
  now rewrite Ascii.eqb_refl in H.
Qed.

Lemma digit_in_true (lo hi : nat) (c : ascii) :
  digit_in lo hi c = true ->
  (48 + lo <= nat_of_ascii c /\ nat_of_ascii c <= 48 + hi)%nat.
Proof.
  unfold digit_in. intro H. apply andb_prop in H as [H1 H2].
  apply Nat.leb_le in H1, H2. now split.
Qed.

Lemma digit_in_false (lo hi : nat) (c : ascii) :
  digit_in lo hi c = false ->
  (nat_of_ascii c < 48 + lo \/ 48 + hi < nat_of_ascii c)%nat.
Proof.
  unfold digit_in. intro H. apply andb_false_iff in H as [H | H];
    apply Nat.leb_gt in H; [now left | now right].
Qed.

Lemma is_digit_true (c : ascii) :
  is_digit c = true -> (48 <= nat_of_ascii c /\ nat_of_ascii c <= 57)%nat.
Proof.
  unfold is_digit. intro H. apply andb_prop in H as [H1 H2].
  apply Nat.leb_le in H1, H2. now split.
Qed.

Lemma is_digit_false (c : ascii) :
  is_digit c = false -> (nat_of_ascii c < 48 \/ 57 < nat_of_ascii c)%nat.
Proof.
  unfold is_digit. intro H. apply andb_false_iff in H as [H | H];
    apply Nat.leb_gt in H; [now left | now right].
Qed.

Lemma is_digit_intro (c : ascii) :
  (48 <= nat_of_ascii c <= 57)%nat -> is_digit c = true.
Proof.
  intros [H1 H2]. unfold is_digit.
  apply andb_true_intro. split; now apply Nat.leb_le.
Qed.

Lemma eqb_blank_true (c : ascii) :
  Ascii.eqb c " " = true -> nat_of_ascii c = 32%nat.
Proof.
  intro H. apply Ascii.eqb_eq in H. now subst.
Qed.

Lemma eqb_blank_false (c : ascii) :
  Ascii.eqb c " " = false -> nat_of_ascii c <> 32%nat.
Proof.
  intros H E. change 32%nat with (nat_of_ascii " ") in E.
  apply nat_of_ascii_inj in E. subst. discriminate H.
Qed.

(** Turn every test on a character into a fact about its code. *)
Ltac class_facts :=
  unfold any_digit in *;
  repeat match goal with
    | H : chr ?a ?c = true |- _ =>
        apply chr_true in H;
        let n := eval vm_compute in (nat_of_ascii a) in
        change (nat_of_ascii a) with n in H
    | H : chr ?a ?c = false |- _ =>
        apply chr_false in H;
        let n := eval vm_compute in (nat_of_ascii a) in
        change (nat_of_ascii a) with n in H
    | H : digit_in _ _ _ = true |- _ => apply digit_in_true in H
    | H : digit_in _ _ _ = false |- _ => apply digit_in_false in H
    | H : is_digit _ = true |- _ => apply is_digit_true in H
    | H : is_digit _ = false |- _ => apply is_digit_false in H
    | H : Ascii.eqb _ " " = true |- _ => apply eqb_blank_true in H
    | H : Ascii.eqb _ " " = false |- _ => apply eqb_blank_false in H
    end.

(** Split a boolean hypothesis into arithmetic. *)
Ltac bool_hyps :=
  repeat match goal with
    | H : (_ && _)%bool = true |- _ => apply andb_prop in H; destruct H
    | H : (_ || _)%bool = true |- _ => apply orb_prop in H; destruct H
    | H : (_ <=? _) = true |- _ => apply Z.leb_le in H
    | H : (_ <=? _) = false |- _ => apply Z.leb_gt in H
    | H : Nat.eqb _ _ = true |- _ => apply Nat.eqb_eq in H
    | H : Nat.leb _ _ = true |- _ => apply Nat.leb_le in H
    | H : false = true |- _ => discriminate H
    end.

Ltac bool_goal :=
  repeat match goal with
    | |- (_ && _)%bool = true => apply andb_true_intro; split
    | |- (_ <=? _) = true => apply Z.leb_le
    | |- is_digit _ = true => apply is_digit_intro
    | |- Nat.eqb _ _ = true => apply Nat.eqb_eq
    | |- Nat.leb _ _ = true => apply Nat.leb_le
    | |- true = true => reflexivity
    end.

(** *** The numbers of the parser and of the timestamps *)

Lemma int_of_text_digits (txt : string) :
  forall acc, all_digits txt = true ->
              int_of_text acc txt = number_from acc txt.
Proof.
  induction txt as [| c txt IH]; intros acc H; [reflexivity |].
  cbn [all_digits] in H. apply andb_prop in H as [Hc Ht].
  cbn [int_of_text number_from].
  assert (Hd : any_digit c = true).
  { unfold any_digit, digit_in. exact Hc. }
  rewrite Hd, IH by assumption. f_equal. unfold digit_value.
  apply is_digit_true in Hc. lia.
Qed.

Lemma int_of_text_day (txt : string) :
  day_text txt = true -> int_of_text 0 txt = day_number txt.
Proof.
  unfold day_text. intro H. apply orb_prop in H as [H | H].
  - unfold short_number in H. bool_hyps.
    all: destruct txt as [| c txt]; try discriminate.
    all: cbn [all_digits] in *; bool_hyps.
    all: unfold day_number.
    all: destruct (Ascii.eqb c " ") eqn:E; [class_facts; lia |].
    all: apply int_of_text_digits; cbn [all_digits];
      apply andb_true_intro; split; assumption.
  - destruct txt as [| b [| c [| x txt]]]; try discriminate.
    bool_hyps. unfold day_number. rewrite H.
    cbn [int_of_text].
    assert (Hb : any_digit b = false).
    { apply Ascii.eqb_eq in H. subst b. reflexivity. }
    assert (Hc : any_digit c = true) by exact H1.
    rewrite Hb, Hc. unfold number. cbn [number_from]. unfold digit_value.
    apply is_digit_true in H1. lia.
Qed.

(** *** The groups of the expression *)

Ltac inv_alt H :=
  cbn [match_alt] in H;
  repeat match type of H with
    | context [match ?s with EmptyString => _ | String _ _ => _ end] =>
        is_var s; destruct s; cbn [match_alt] in H; try discriminate H
    | context [if ?b then _ else _] =>
        destruct b eqn:?; cbn [match_alt] in H; try discriminate H
    end.

Lemma regex_sound (d : directive) (alt : list (ascii -> bool))
  (s txt rest : string) :
  In alt (directive_regex d) -> match_alt alt s = Some (txt, rest) ->
  field_text d txt = true /\ s = (txt ++ rest)%string.
Proof.
  intros Hin H.
  destruct d; cbn [directive_regex In repeat] in Hin;
    repeat (destruct Hin as [<- | Hin]; [| try contradiction]).
  all: inv_alt H; injection H as <- <-; (split; [| reflexivity]).
  all: unfold field_text, year_text, day_text, short_number, fraction_text,
         number;
       cbn [all_digits String.length number_from Nat.eqb Nat.leb orb andb].
  all: class_facts.
  all: try (bool_goal; unfold digit_value; lia).
  all: apply orb_true_iff;
    first [ left; bool_goal; unfold digit_value; lia
          | right; bool_goal; unfold digit_value; try lia;
            apply Ascii.eqb_eq, nat_of_ascii_inj; assumption ].
Qed.

Ltac split_ifs :=
  repeat match goal with
    | |- context [if ?b then _ else _] => destruct b eqn:?
    end.

Lemma regex_complete {A : Type} (d : directive) (txt rest : string)
  (k : string -> string -> option A) (r : A) :
  field_text d txt = true -> head_digit rest = false ->
  k txt rest = Some r ->
  first_alt (directive_regex d) (txt ++ rest)%string k = Some r.
Proof.
  intros Ht Hrest Hk.
  destruct d;
    unfold field_text, year_text, day_text, short_number, fraction_text in Ht;
    bool_hyps.
  all: repeat match goal with
         | H : String.length ?t = _ |- _ =>
             destruct t; cbn [String.length] in H;
             try discriminate H; try (apply Nat.succ_inj in H)
         | H : match ?t with EmptyString => _ | String _ _ => _ end = true
           |- _ => destruct t; try discriminate H
         | H : (1 <= String.length ?t)%nat, H' : (String.length ?t <= 6)%nat
           |- _ =>
             destruct t as [| ? [| ? [| ? [| ? [| ? [| ? [| ? ?]]]]]]];
             cbn [String.length] in H, H'; try lia; clear H H'
         end.
  all: cbn [all_digits] in *; unfold number in *; cbn [number_from] in *;
    bool_hyps.
  all: destruct rest as [| c rest]; cbn [head_digit] in Hrest.
  all: cbn [directive_regex first_alt match_alt String.append repeat].
  all: unfold any_digit.
  all: split_ifs.
  all: try (rewrite Hk; reflexivity).
  all: try (exfalso; class_facts; unfold digit_value in *; lia).
Qed.

Lemma first_alt_inv {A : Type} (alts : list (list (ascii -> bool)))
  (s : string) (k : string -> string -> option A) (r : A) :
  first_alt alts s k = Some r ->
  exists alt txt rest,
    In alt alts /\ match_alt alt s = Some (txt, rest) /\ k txt rest = Some r.
Proof.
  induction alts as [| alt alts IH]; cbn; [discriminate |].
  destruct (match_alt alt s) as [[txt rest] |] eqn:E.
  - destruct (k txt rest) as [r' |] eqn:Ek.
    + intros [= <-]. exists alt, txt, rest. auto.
    + intro H. destruct (IH H) as (a & t & q & Hin & Hm & Hk).
      exists a, t, q. auto.
  - intro H. destruct (IH H) as (a & t & q & Hin & Hm & Hk).
    exists a, t, q. auto.
Qed.

Lemma match_items_parses (its : list item) :
  forall s fs, match_items its s = Some (fs, EmptyString) -> parses its s fs.
Proof.
  induction its as [| [c | d] its IH]; intros s fs H; cbn [match_items] in H.
  - injection H as <- ->. constructor.
  - destruct s as [| c' s]; [discriminate |].
    destruct (Ascii.eqb (lower_ascii c) (lower_ascii c')) eqn:E;
      [| discriminate].
    apply Ascii.eqb_eq in E. constructor; auto.
  - apply first_alt_inv in H as (alt & txt & rest & Hin & Hm & Hk).
    destruct (match_items its rest) as [[fs' r'] |] eqn:Hr; [| discriminate].
    injection Hk as <- ->.
    destruct (regex_sound d alt s txt rest Hin Hm) as [Hf ->].
    constructor; auto.
Qed.

Lemma lower_sep (c c' : ascii) :
  sep_char c = true -> lower_ascii c = lower_ascii c' ->
  (c = "T"%char /\ (c' = "T"%char \/ c' = "t"%char))
  \/ (c <> "T"%char /\ c' = c).
Proof.
  unfold sep_char. intros Hs Hl.
  repeat (apply orb_prop in Hs as [Hs | Hs]); apply Ascii.eqb_eq in Hs;
    subst c;
    destruct c' as [[] [] [] [] [] [] [] []]; vm_compute in Hl;
    try discriminate Hl;
    first [ left; split; [reflexivity |]; first [now left | now right]
          | right; split; [discriminate | reflexivity] ].
Qed.

Lemma sep_not_digit (c c' : ascii) :
  sep_char c = true -> lower_ascii c = lower_ascii c' -> is_digit c' = false.
Proof.
  intros Hs Hl. pose proof Hs as Hs'. unfold sep_char in Hs'.
  destruct (lower_sep c c' Hs Hl) as [[-> [-> | ->]] | [_ ->]];
    try reflexivity.
  repeat (apply orb_prop in Hs' as [Hs' | Hs']); apply Ascii.eqb_eq in Hs';
    subst c; reflexivity.
Qed.

Lemma parses_match_items (its : list item) (s : string)
  (fs : list (directive * string)) :
  parses its s fs -> separated its = true ->
  match_items its s = Some (fs, EmptyString).
Proof.
  induction 1 as [| c c' its s fs Hl Hp IH | d its txt s fs Hf Hp IH];
    intro Hsep.
  - reflexivity.
  - cbn [match_items]. rewrite Hl, Ascii.eqb_refl. now apply IH.
  - cbn [separated] in Hsep. apply andb_prop in Hsep as [Hnext Hsep].
    cbn [match_items]. apply regex_complete; [assumption | |].
    + inversion Hp; subst; [reflexivity | | discriminate Hnext].
      cbn [head_digit]. eapply sep_not_digit; eassumption.
    + now rewrite IH.
Qed.

Lemma strptime_iff (s fmt : string) (its : list item) :
  parse_format fmt = Some its -> separated its = true ->
  forall t,
    strptime (PStr s) fmt = Ok t
    <-> exists fs, parses its s fs /\ datetime_ok (datetime_of fs) = true
                   /\ t = datetime_of fs.
Proof.
  intros Hfmt Hsep t. unfold strptime. cbn [data_string bind]. rewrite Hfmt.
  split.
  - destruct (match_items its s) as [[fs rest] |] eqn:Hm; [| discriminate].
    destruct rest as [| c rest]; cbn [String.eqb negb]; [| discriminate].
    fold (datetime_of fs).
    destruct (datetime_ok (datetime_of fs)) eqn:Hok; [| discriminate].
    intros [= <-]. exists fs. repeat split; auto.
    now apply match_items_parses.
  - intros (fs & Hp & Hok & ->).
    rewrite (parses_match_items its s fs Hp Hsep). cbn [String.eqb negb].
    fold (datetime_of fs). now rewrite Hok.
Qed.

(** *** The values of the fields *)

Lemma year_field (Y : string) :
  year_text Y = true ->
  int_of_text 0 Y = number Y /\ 0 <= number Y <= 9999.
Proof.
  unfold year_text. intro H. bool_hyps.
  split; [now apply int_of_text_digits |].
  destruct Y as [| a [| b [| c [| d [| e Y]]]]];
    cbn [String.length] in *; try discriminate.
  cbn [all_digits] in *. bool_hyps. class_facts.
  unfold number. cbn [number_from]. unfold digit_value. lia.
Qed.

Lemma short_field (lo hi : Z) (txt : string) :
  short_number lo hi txt = true ->
  int_of_text 0 txt = number txt /\ lo <= number txt <= hi
  /\ forall lo' hi', lo' <= number txt <= hi' ->
                     short_number lo' hi' txt = true.
Proof.
  unfold short_number. intro H.
  apply andb_prop in H as [H Hhi]. apply andb_prop in H as [H Hlo].
  apply andb_prop in H as [Hd Hlen].
  apply Z.leb_le in Hhi, Hlo.
  split; [now apply int_of_text_digits |]. split; [lia |].
  intros lo' hi' [H1 H2]. rewrite Hd, Hlen. cbn [andb].
  apply andb_true_intro. split; now apply Z.leb_le.
Qed.

Lemma day_field (D : string) :
  day_text D = true ->
  int_of_text 0 D = day_number D /\ 1 <= day_number D <= 31.
Proof.
  intro H. split; [now apply int_of_text_day |].
  unfold day_text in H. apply orb_prop in H as [H | H].
  - pose proof (short_field _ _ _ H) as (_ & Hr & _).
    unfold short_number in H. bool_hyps.
    all: destruct D as [| c D]; try discriminate.
    all: unfold day_number.
    all: destruct (Ascii.eqb c " ") eqn:E; [| exact Hr].
    all: cbn [all_digits] in *; bool_hyps; class_facts; lia.
  - destruct D as [| b [| c [| x D]]]; try discriminate.
    bool_hyps. unfold day_number. rewrite H.
    unfold number. cbn [number_from]. unfold digit_value in *.
    class_facts. lia.
Qed.

Lemma fraction_field (F : string) :
  fraction_text F = true ->
  0 <= int_of_text 0 F * 10 ^ (6 - Z.of_nat (String.length F)) <= 999999.
Proof.
  unfold fraction_text. intro H. bool_hyps.
  rewrite int_of_text_digits by assumption.
  destruct F as [| a [| b [| c [| d [| e [| f [| g F]]]]]]];
    cbn [String.length] in *; try lia.
  all: cbn [all_digits] in *; bool_hyps; class_facts.
  all: cbn [number_from]; unfold digit_value.
  all: match goal with
       | |- context [10 ^ ?e] =>
           let v := eval vm_compute in (10 ^ e) in change (10 ^ e) with v
       end.
  all: lia.
Qed.

Lemma month_length_eq (y m : Z) :
  1 <= m <= 12 -> days_in_month y m = month_length y m.
Proof.
  intro H.
  assert (Hm : m = 1 \/ m = 2 \/ m = 3 \/ m = 4 \/ m = 5 \/ m = 6 \/ m = 7
               \/ m = 8 \/ m = 9 \/ m = 10 \/ m = 11 \/ m = 12) by lia.
  unfold days_in_month, month_length, leap_year, is_leap.
  repeat (destruct Hm as [-> | Hm]; [reflexivity |]). subst. reflexivity.
Qed.

Lemma datetime_ok_iff (y m d h mi s f : Z) :
  datetime_ok (Datetime y m d h mi s f) = true
  <-> 1 <= y <= 9999 /\ 1 <= m <= 12 /\ 1 <= d <= days_in_month y m
      /\ 0 <= h <= 23 /\ 0 <= mi <= 59 /\ 0 <= s <= 59 /\ 0 <= f <= 999999.
Proof.
  unfold datetime_ok. cbn [year month day hour minute second microsecond].
  rewrite !andb_true_iff, !Z.leb_le. tauto.
Qed.

Lemma spec_date_iff (Y M D : string) :
  spec_date Y M D = true
  <-> field_text dY Y = true /\ field_text dm M = true
      /\ field_text dd D = true /\ 1 <= number Y
      /\ day_number D <= month_length (number Y) (number M).
Proof.
  unfold spec_date, field_text. rewrite !andb_true_iff, !Z.leb_le. tauto.
Qed.

(** *** The four formats *)

Lemma valid_time_of_true (val : pyval) (fmts : list string) :
  valid_time_of val fmts = true
  <-> exists fmt t, In fmt fmts /\ strptime val fmt = Ok t.
Proof.
  induction fmts as [| f fmts IH]; cbn [valid_time_of In].
  - split; [discriminate | now intros (? & ? & [] & _)].
  - destruct (strptime val f) as [t | e] eqn:Hf.
    + split; [intros _; exists f, t; auto | reflexivity].
    + rewrite IH. split.
      * intros (fmt & t & Hin & Ht). exists fmt, t. auto.
      * intros (fmt & t & [<- | Hin] & Ht); [congruence |].
        exists fmt, t. auto.
Qed.

Ltac inv_parses :=
  repeat match goal with
    | H : parses (_ :: _) _ _ |- _ => inversion H; subst; clear H
    | H : parses [] _ _ |- _ => inversion H; subst; clear H
    end.

Ltac sep_facts :=
  repeat match goal with
    | H : lower_ascii ?c = lower_ascii ?c' |- _ =>
        let Hc := fresh in
        let Hs := fresh "Hsep" in
        destruct (lower_sep c c' eq_refl H) as [[Hc Hs] | [Hc Hs]];
        clear H;
        [ first [discriminate Hc | clear Hc]
        | first [now contradiction Hc | clear Hc; subst c'] ]
    end.

Lemma append_empty (s : string) : (s ++ EmptyString)%string = s.
Proof.
  induction s as [| c s IH]; cbn; [reflexivity | now rewrite IH].
Qed.

Lemma date_part (Y M D : string) :
  field_text dY Y = true -> field_text dm M = true ->
  field_text dd D = true ->
  (1 <= int_of_text 0 Y <= 9999 /\ 1 <= int_of_text 0 M <= 12
   /\ 1 <= int_of_text 0 D
      <= days_in_month (int_of_text 0 Y) (int_of_text 0 M))
  <-> spec_date Y M D = true.
Proof.
  intros HY HM HD. rewrite spec_date_iff.
  destruct (year_field Y HY) as [-> Hy].
  destruct (short_field _ _ M HM) as (-> & Hm & _).
  destruct (day_field D HD) as [-> Hd].
  rewrite (month_length_eq (number Y) (number M) Hm).
  intuition lia.
Qed.

Lemma clock_part (hi : Z) (txt : string) :
  short_number 0 hi txt = true -> 0 <= int_of_text 0 txt <= hi.
Proof.
  intro H. now destruct (short_field _ _ txt H) as (-> & Hr & _).
Qed.

Lemma second_part (sec : string) :
  field_text dS sec = true ->
  0 <= int_of_text 0 sec <= 59 <-> short_number 0 59 sec = true.
Proof.
  intro H. cbn [field_text] in H.
  destruct (short_field _ _ sec H) as (-> & Hr & Hany).
  split; [intro; apply Hany; lia |].
  intro H'. now destruct (short_field _ _ sec H') as (_ & Hr' & _).
Qed.

Ltac fields_of H :=
  unfold datetime_of, group_int, fraction, group in H;
  cbn [find directive_eqb fst snd] in H.

Lemma timestamp_parsed (s : string) :
  (exists fmt t, In fmt valid_times /\ strptime (PStr s) fmt = Ok t)
  -> spec_timestamp s.
Proof.
  intros (fmt & t & Hin & Ht). unfold valid_times in Hin. cbn [In] in Hin.
  repeat (destruct Hin as [<- | Hin]); [| | | | contradiction].
  all: eapply strptime_iff in Ht; [| vm_compute; reflexivity | reflexivity];
    destruct Ht as (fs & Hp & Hok & _).
  all: inv_parses; sep_facts.
  all: fields_of Hok; apply datetime_ok_iff in Hok;
    destruct Hok as (Hy & Hm & Hd & Hh & Hmi & Hs & Hf).
  all: match goal with
       | HY : field_text dY ?Y = true, HM : field_text dm ?M = true,
         HD : field_text dd ?D = true |- _ =>
           pose proof (proj1 (date_part Y M D HY HM HD)
                         (conj Hy (conj Hm Hd))) as Hdate;
           exists Y, M, D
       end.
  all: eexists; split; [reflexivity |]; split; [exact Hdate |].
  - now left.
  - right. do 4 eexists. split; [reflexivity |].
    split; [assumption |]. split; [assumption |]. split; [assumption |].
    now left.
  - right. do 4 eexists. split; [reflexivity |].
    split; [assumption |]. split; [assumption |]. split; [assumption |].
    right. do 2 eexists. split; [reflexivity |].
    split; [now apply second_part |]. now left.
  - right. do 4 eexists. split; [reflexivity |].
    split; [assumption |]. split; [assumption |]. split; [assumption |].
    right. do 2 eexists. split; [reflexivity |].
    split; [now apply second_part |].
    right. eexists. rewrite append_empty. split; [reflexivity | assumption].
Qed.

Ltac build_parse :=
  repeat first
    [ apply parses_nil
    | apply parses_lit; [reflexivity |]
    | apply parses_group; [assumption |] ].

Lemma timestamp_parses (s : string) :
  spec_timestamp s ->
  exists fmt t, In fmt valid_times /\ strptime (PStr s) fmt = Ok t.
Proof.
  intros (Y & M & D & tail & -> & Hdate & Htime).
  pose proof (proj1 (spec_date_iff Y M D) Hdate) as (HY & HM & HD & _).
  assert (Hd3 := proj2 (date_part Y M D HY HM HD) Hdate).
  destruct Htime as [-> | (c & h & mi & tail2 & -> & Hc & Hh & Hmi & Hsec)].
  { exists "%Y-%m-%d". eexists. split; [cbn; tauto |].
    eapply strptime_iff; [vm_compute; reflexivity | reflexivity |].
    eexists. split; [build_parse |]. split; [| reflexivity].
    unfold datetime_of, group_int, fraction, group.
    cbn [find directive_eqb fst snd]. apply datetime_ok_iff.
    intuition lia. }
  assert (HfH : field_text dH h = true) by exact Hh.
  assert (HfM : field_text dM mi = true) by exact Hmi.
  pose proof (clock_part _ _ Hh) as Hh2.
  pose proof (clock_part _ _ Hmi) as Hmi2.
  destruct Hsec as [-> | (sec & tail3 & -> & Hs & Hfrac)].
  { exists "%Y-%m-%dT%H:%M". eexists. split; [cbn; tauto |].
    eapply strptime_iff; [vm_compute; reflexivity | reflexivity |].
    eexists. split; [destruct Hc as [-> | ->]; build_parse |].
    split; [| reflexivity].
    unfold datetime_of, group_int, fraction, group.
    cbn [find directive_eqb fst snd]. apply datetime_ok_iff.
    intuition lia. }
  assert (HfS : field_text dS sec = true).
  { destruct (short_field _ _ sec Hs) as (_ & Hr & Hany).
    apply Hany. lia. }
  pose proof (clock_part _ _ Hs) as Hs2.
  destruct Hfrac as [-> | (F & -> & HF)].
  { exists "%Y-%m-%dT%H:%M:%S". eexists. split; [cbn; tauto |].
    eapply strptime_iff; [vm_compute; reflexivity | reflexivity |].
    eexists. split; [destruct Hc as [-> | ->]; build_parse |].
    split; [| reflexivity].
    unfold datetime_of, group_int, fraction, group.
    cbn [find directive_eqb fst snd]. apply datetime_ok_iff.
    intuition lia. }
  assert (HfF : field_text df F = true) by exact HF.
  pose proof (fraction_field F HF) as HF2.
  replace (String "." F) with (String "." (F ++ EmptyString))
    by now rewrite append_empty.
  exists "%Y-%m-%dT%H:%M:%S.%f". eexists. split; [cbn; tauto |].
  eapply strptime_iff; [vm_compute; reflexivity | reflexivity |].
  eexists. split; [destruct Hc as [-> | ->]; build_parse |].
  split; [| reflexivity].
  unfold datetime_of, group_int, fraction, group.
  cbn [find directive_eqb fst snd]. apply datetime_ok_iff.
  intuition lia.
Qed.

(** *** Timestamps are ASCII *)

Lemma is_ascii_cons (c : ascii) (s : string) :
  is_ascii (String c s) = (Nat.ltb (nat_of_ascii c) 128 && is_ascii s)%bool.
Proof.
  reflexivity.
Qed.

Lemma is_ascii_app (a b : string) :
  is_ascii (a ++ b)%string = (is_ascii a && is_ascii b)%bool.
Proof.
  induction a as [| c a IH]; [reflexivity |].
  cbn [String.append]. rewrite !is_ascii_cons, IH. now rewrite andb_assoc.
Qed.

Lemma digits_ascii (s : string) : all_digits s = true -> is_ascii s = true.
Proof.
  induction s as [| c s IH]; [reflexivity |].
  cbn [all_digits]. intro H. apply andb_prop in H as [Hc Hs].
  rewrite is_ascii_cons, IH by assumption.
  apply is_digit_true in Hc. rewrite andb_true_r. apply Nat.ltb_lt. lia.
Qed.

Lemma field_ascii (d : directive) (txt : string) :
  field_text d txt = true -> is_ascii txt = true.
Proof.
  destruct d; cbn [field_text];
    unfold year_text, day_text, short_number, fraction_text; intro H;
    bool_hyps; try (now apply digits_ascii).
  destruct txt as [| b [| c [| x txt]]]; try discriminate.
  bool_hyps. apply Ascii.eqb_eq in H. subst b.
  rewrite !is_ascii_cons. apply is_digit_true in H1.
  cbn [is_ascii forallb list_ascii_of_string].
  rewrite andb_true_r. cbn [andb].
  replace (Nat.ltb (nat_of_ascii " ") 128) with true by reflexivity.
  apply Nat.ltb_lt. lia.
Qed.

Lemma timestamp_ascii (s : string) : spec_timestamp s -> is_ascii s = true.
Proof.
  intros (Y & M & D & tail & -> & Hdate & Htime).
  apply spec_date_iff in Hdate as (HY & HM & HD & _).
  assert (Htail : is_ascii tail = true).
  { destruct Htime as [-> | (c & h & mi & t2 & -> & Hc & Hh & Hmi & Hsec)];
      [reflexivity |].
    assert (Ht2 : is_ascii t2 = true).
    { destruct Hsec as [-> | (sec & t3 & -> & Hs & Hfrac)]; [reflexivity |].
      assert (Ht3 : is_ascii t3 = true).
      { destruct Hfrac as [-> | (F & -> & HF)]; [reflexivity |].
        rewrite is_ascii_cons, (field_ascii df F HF). reflexivity. }
      rewrite is_ascii_cons, is_ascii_app, Ht3.
      assert (HfS : field_text dS sec = true).
      { destruct (short_field _ _ sec Hs) as (_ & Hr & Hany).
        apply Hany. lia. }
      rewrite (field_ascii dS sec HfS). reflexivity. }
    rewrite is_ascii_cons, is_ascii_app, is_ascii_cons, is_ascii_app, Ht2.
    rewrite (field_ascii dH h Hh), (field_ascii dM mi Hmi).
    destruct Hc as [-> | ->]; reflexivity. }
  rewrite is_ascii_app, is_ascii_cons, is_ascii_app, is_ascii_cons,
    is_ascii_app, Htail.
  rewrite (field_ascii dY Y HY), (field_ascii dm M HM), (field_ascii dd D HD).
  reflexivity.
Qed.

Lemma strptime_text (val : pyval) (fmt : string) (t : datetime) :
  strptime val fmt = Ok t ->
  exists s, is_text val s /\ strptime (PStr s) fmt = Ok t.
Proof.
  destruct val; try discriminate; intro H.
  - exists s. split; [now left | assumption].
  - exists s. split; [now right |]. unfold strptime in H |- *.
    cbn [data_string] in H |- *.
    destruct (is_ascii s); [assumption | discriminate].
Qed.

Lemma strptime_of_text (val : pyval) (s fmt : string) (t : datetime) :
  is_text val s -> is_ascii s = true ->
  strptime (PStr s) fmt = Ok t -> strptime val fmt = Ok t.
Proof.
  intros [-> | ->] Ha H; [assumption |].
  unfold strptime in H |- *. cbn [data_string] in H |- *. now rewrite Ha.
Qed.

Lemma check_date_iff (val : pyval) :
  _check_date val = no_defect
  <-> exists s, is_text val s /\ spec_timestamp s.
Proof.
  unfold _check_date.
  destruct (valid_time_of val valid_times) eqn:E.
  - split; [intros _ | reflexivity].
    apply valid_time_of_true in E as (fmt & t & Hin & Ht).
    apply strptime_text in Ht as (s & Htext & Ht).
    exists s. split; [assumption |]. apply timestamp_parsed. eauto.
  - split; [discriminate |]. intros (s & Htext & Hspec). exfalso.
    pose proof (timestamp_ascii s Hspec) as Ha.
    apply timestamp_parses in Hspec as (fmt & t & Hin & Ht).
    apply (strptime_of_text val) in Ht; [| assumption | assumption].
    assert (Hv : valid_time_of val valid_times = true)
      by (apply valid_time_of_true; eauto).
    congruence.
Qed.

(** C6, as stated, fails: the rule does not pass exactly the texts of the
    four patterns.  It passes "2011-1-9", "2011-12- 9", "2011-12-19t9:5"
    and "2011-12-19T19:00:00.5", none of which has the shape of a pattern
    (a month, day, hour or minute of one digit, a blank before the day, a
    lower-case t, a fraction of one digit); and it gives the defect to
    "2011-02-29" and to "2011-12-19T19:00:60", which have the shape of a
    pattern but name a day that February 2011 does not have and a second
    beyond 59. *)
Lemma check_date_is_not_the_patterns :
  (forall s,
      In s ["2011-1-9"; "2011-12- 9"; "2011-12-19t9:5";
            "2011-12-19T19:00:00.5"] ->
      _check_date (PStr s) = no_defect /\ matches_a_pattern s = false)
  /\ (forall s,
        In s ["2011-02-29"; "2011-12-19T19:00:60"] ->
        _check_date (PStr s)
        = Line "Timestamp does not appear to be ISO 8601" []
        /\ matches_a_pattern s = true).
Proof.
  split; intros s Hs; cbn [In] in Hs;
    repeat (destruct Hs as [<- | Hs]; [split; vm_compute; reflexivity |]);
    contradiction.
Qed.

(** C6, amended: the date rule passes a value iff it is a text (a [str],
    or a [unicode]) that reads from end to end as: a year of exactly four
    digits, not 0000; "-"; a month of one or two digits, from 1 to 12;
    "-"; a day of one or two digits, or of a blank and one digit, that the
    month of that year has; then nothing, or "T" or "t", an hour of one or
    two digits up to 23, ":" and a minute of one or two digits up to 59;
    then nothing, or ":" and a second of one or two digits up to 59; then
    nothing, or "." and one to six digits.  Any other value gets the defect
    "Timestamp does not appear to be ISO 8601", and the rule never raises.
    The four timestamps of the specification pass, "19 Dec 2011" and
    "2011/12/19" get the defect.  The formats are tried in order, the first
    that parses ending the search. *)
Theorem check_date_accepts_timestamps :
  (forall val,
      _check_date val = no_defect
      <-> exists s, is_text val s /\ spec_timestamp s)
  /\ (forall val,
        _check_date val = no_defect
        \/ _check_date val = Line "Timestamp does not appear to be ISO 8601" [])
  /\ (forall s,
        In s ["2011-12-19"; "2011-12-19T19:00"; "2011-12-19T19:00:00";
              "2011-12-19T19:00:00.123456"] ->
        _check_date (PStr s) = no_defect
        /\ _check_date (PUnicode s) = no_defect
        /\ _valid_datetime (PDict [("date", PUnicode s)]) = Ok no_defect
        /\ _valid_creation_date (H5File [("creation-date", PStr s)] [])
           = Ok no_defect)
  /\ (forall s,
        In s ["19 Dec 2011"; "2011/12/19"] ->
        _check_date (PStr s)
        = Line "Timestamp does not appear to be ISO 8601" []
        /\ _check_date (PUnicode s)
           = Line "Timestamp does not appear to be ISO 8601" []
        /\ _valid_datetime (PDict [("date", PUnicode s)])
           = Ok (Line "Timestamp does not appear to be ISO 8601" []))
  /\ (forall val,
        _check_date val = no_defect
        <-> exists pre fmt post t,
              valid_times = pre ++ fmt :: post
              /\ strptime val fmt = Ok t
              /\ Forall (fun f => raises (strptime val f) = true) pre).
Proof.
  split; [| split; [| split; [| split]]].
  - exact check_date_iff.
  - intro val. unfold _check_date.
    destruct (valid_time_of val valid_times); [now left | now right].
  - intros s Hs. cbn [In] in Hs.
    repeat (destruct Hs as [<- | Hs]; [repeat split; vm_compute; reflexivity |]).
    contradiction.
  - intros s Hs. cbn [In] in Hs.
    repeat (destruct Hs as [<- | Hs]; [repeat split; vm_compute; reflexivity |]).
    contradiction.
  - intro val. rewrite <- valid_time_of_spec. unfold _check_date.
    destruct (valid_time_of val valid_times); split;
      (reflexivity || discriminate).
Qed.

(** ** Narrative mode and the verdict *)

Lemma same_verdict_bind (a b : result report) (k1 k2 : report -> result report) :
  same_verdict a b ->
  (forall r1 r2, valid_table r1 = valid_table r2 ->
                 same_verdict (k1 r1) (k2 r2)) ->
  same_verdict (bind a k1) (bind b k2).
Proof.
  unfold same_verdict. intros Hab Hk.
  destruct a as [r1 | e1], b as [r2 | e2]; cbn in *; try discriminate.
  - apply Hk. congruence.
  - assumption.
Qed.

Lemma narrate_verdict (dr : bool) (r : report) (l : line) :
  valid_table (narrate dr r l) = valid_table r.
Proof.
  now destruct dr.
Qed.

Lemma check_required_verdict {T : Type} (contains : T -> string -> result bool)
  (missing : string) (t : T) (required : list (string * (T -> result line))) :
  forall r1 r2, valid_table r1 = valid_table r2 ->
    same_verdict (check_required contains missing true t required r1)
                 (check_required contains missing false t required r2).
Proof.
  induction required as [| [key method] rest IH]; intros r1 r2 H.
  - unfold same_verdict. cbn. now f_equal.
  - cbn [check_required].
    destruct (contains t key) as [has | e]; cbn [bind]; [| reflexivity].
    destruct has; cbn [negb].
    + destruct (method t) as [msg | e]; cbn [bind]; [| reflexivity].
      destruct (len_pos msg); apply IH; cbn; first [assumption | reflexivity].
    + apply IH. reflexivity.
Qed.

Lemma check_present_verdict (missing : string) (h : h5file)
  (paths : list string) :
  forall r1 r2, valid_table r1 = valid_table r2 ->
    valid_table (check_present missing true h paths r1)
    = valid_table (check_present missing false h paths r2).
Proof.
  induction paths as [| p rest IH]; intros r1 r2 H; cbn [check_present].
  - assumption.
  - destruct (negb (dict_has p (items h))); apply IH; [reflexivity | assumption].
Qed.

Lemma cross_check_verdict (t : pyval) (key : string) (i : nat) (l : line) :
  forall r1 r2, valid_table r1 = valid_table r2 ->
    same_verdict (cross_check t key i r1 l) (cross_check t key i r2 l).
Proof.
  intros r1 r2 H. unfold same_verdict, cross_check.
  destruct (py_contains t key) as [[|] | e]; cbn; try congruence.
  destruct (py_getitem t key) as [xs | e]; cbn; [| reflexivity].
  destruct (py_len xs) as [n | e]; cbn; [| reflexivity].
  destruct (py_getitem t "shape") as [sh | e]; cbn; [| reflexivity].
  destruct (py_index sh i) as [s | e]; cbn; [| reflexivity].
  destruct (eq_int s n); cbn; congruence.
Qed.

Lemma flag_none_verdict (x : pyval) (l : line) (r1 r2 : report) :
  valid_table r1 = valid_table r2 ->
  valid_table (flag_none x r1 l) = valid_table (flag_none x r2 l).
Proof.
  unfold flag_none. now destruct (is_none x).
Qed.

Lemma flag_len_verdict (n ids : pyval) (l : line) (r1 r2 : report) :
  valid_table r1 = valid_table r2 ->
  same_verdict (flag_len n ids r1 l) (flag_len n ids r2 l).
Proof.
  intro H. unfold same_verdict, flag_len.
  destruct (py_len ids) as [k | e]; cbn; [| reflexivity].
  destruct (eq_int n k); cbn; congruence.
Qed.

(** C7: for every document and configuration, the run with the narrative
    on and the run with it off end alike: both raise the same exception, or
    both return, with the same verdict. *)
Theorem narrative_never_changes_verdict :
  (forall table_json format_version,
      same_verdict (_validate_json table_json format_version true)
                   (_validate_json table_json format_version false))
  /\ (forall h,
        same_verdict (_validate_hdf5 h true) (_validate_hdf5 h false)).
Proof.
  split.
  - intros t fv. unfold _validate_json.
    apply same_verdict_bind.
    + apply check_required_verdict. reflexivity.
    + intros r1 r2 H. unfold shape_versus_rows.
      destruct (py_contains t "shape") as [[|] | e]; cbn [bind].
      * apply same_verdict_bind.
        -- apply cross_check_verdict. now rewrite narrate_verdict.
        -- intros. now apply cross_check_verdict.
      * unfold same_verdict. cbn [rmap]. congruence.
      * reflexivity.
  - intro h. unfold _validate_hdf5.
    apply same_verdict_bind.
    + apply check_required_verdict. reflexivity.
    + intros r1 r2 H. unfold shape_versus_ids.
      destruct (dict_has "shape" (attrs h)).
      * destruct (attrs_getitem h "shape") as [sh | e]; cbn [bind];
          [| reflexivity].
        destruct (unpack 2 sh) as [ns | e]; cbn [bind]; [| reflexivity].
        destruct ns as [| a [| b [| c ns]]]; try reflexivity.
        apply same_verdict_bind.
        -- apply flag_len_verdict. do 2 apply flag_none_verdict.
           rewrite !narrate_verdict.
           do 2 (apply check_present_verdict). assumption.
        -- intros. now apply flag_len_verdict.
      * unfold same_verdict. cbn [rmap]. f_equal.
        do 2 (apply check_present_verdict). assumption.
Qed.

(** ** Sparse data *)

Lemma sparse_loop_skip (dtype : pytype) (r c : Z) (n_rows n_cols : pyval)
  (Hr : forall x, int_gt x n_rows = (r - 1 <? x))
  (Hc : forall x, int_gt x n_cols = (c - 1 <? x))
  (pre rest : list pyval) :
  forall idx,
    forallb (entry_ok dtype r c) pre = true ->
    sparse_loop dtype n_rows n_cols idx (pre ++ rest)
    = sparse_loop dtype n_rows n_cols (idx + Z.of_nat (List.length pre)) rest.
Proof.
  induction pre as [| coord pre IH]; intros idx Hpre.
  - cbn. now rewrite Z.add_0_r.
  - cbn [forallb] in Hpre. apply andb_prop in Hpre as [Hok Hpre].
    cbn [app sparse_loop]. unfold entry_ok in Hok.
    destruct (unpack 3 coord) as [[| x [| y [| val [| w ws]]]] | e];
      try discriminate.
    repeat (apply andb_prop in Hok as [Hok ?]).
    rewrite Hok, Hr, Hc. cbn [negb orb].
    replace (isinstance val dtype) with true by congruence.
    replace (_is_int y) with true by congruence. cbn [negb orb].
    replace (int_val x <? 0) with false by (symmetry; apply Z.ltb_ge; lia).
    replace (r - 1 <? int_val x) with false by (symmetry; apply Z.ltb_ge; lia).
    replace (int_val y <? 0) with false by (symmetry; apply Z.ltb_ge; lia).
    replace (c - 1 <? int_val y) with false by (symmetry; apply Z.ltb_ge; lia).
    cbn [orb]. rewrite IH by assumption. f_equal.
    rewrite length_cons. lia.
Qed.




(** ** Dense data *)

Lemma fold_left_andb (bs : list bool) :
  forall b, fold_left andb bs b = b && forallb (fun x => x) bs.
Proof.
  induction bs as [| c bs IH]; intro b; cbn.
  - now rewrite andb_true_r.
  - rewrite IH. now rewrite andb_assoc.
Qed.

Lemma reduce_and_cons {A : Type} (p : A -> bool) (v : A) (vs : list A) :
  reduce_and (map p (v :: vs)) = Ok (forallb p (v :: vs)).
Proof.
  cbn. rewrite fold_left_andb. do 2 f_equal.
  induction vs as [| w vs IH]; cbn; [reflexivity | now rewrite IH].
Qed.

Lemma dense_loop_skip (dtype : pytype) (n_cols : pyval) (pre rest : list pyval) :
  forallb (row_ok dtype n_cols) pre = true ->
  dense_loop dtype n_cols (pre ++ rest) = dense_loop dtype n_cols rest.
Proof.
  induction pre as [| row pre IH]; intro Hpre; [reflexivity |].
  cbn [forallb] in Hpre. apply andb_prop in Hpre as [Hok Hpre].
  cbn [app dense_loop]. unfold row_ok in Hok.
  destruct (py_len row) as [n | e]; [| discriminate].
  destruct (py_iter row) as [[| v vs] | e]; try discriminate.
  apply andb_prop in Hok as [Hn Hvs].
  cbn [bind]. rewrite Hn. cbn [negb]. rewrite reduce_and_cons, Hvs.
  cbn [bind negb]. now apply IH.
Qed.

Lemma dense_loop_inv (dtype : pytype) (n_cols : pyval) (rows : list pyval) :
  forall r,
    dense_loop dtype n_cols rows = Ok r ->
    match r with
    | None => forallb (row_ok dtype n_cols) rows = true
    | Some l =>
        exists pre row rest n,
          rows = pre ++ row :: rest
          /\ forallb (row_ok dtype n_cols) pre = true
          /\ py_len row = Ok n
          /\ ((eq_int n_cols n = false
               /\ l = Line "Incorrect number of cols: %s" [FRepr row])
              \/ (eq_int n_cols n = true
                  /\ exists v vs,
                       py_iter row = Ok (v :: vs)
                       /\ forallb (fun v => isinstance v dtype) (v :: vs)
                          = false
                       /\ l = Line "Bad datatype in row: %s" [FRepr row]))
    end.
Proof.
  induction rows as [| row rows IH]; intros r H; cbn [dense_loop] in H.
  - injection H as <-. reflexivity.
  - destruct (py_len row) as [n | e] eqn:Hn; cbn [bind] in H;
      [| discriminate].
    destruct (eq_int n_cols n) eqn:Hc; cbn [negb] in H.
    + destruct (py_iter row) as [[| v vs] | e] eqn:Hvs; cbn [bind] in H;
        try discriminate.
      rewrite reduce_and_cons in H. cbn [bind] in H.
      destruct (forallb (fun v => isinstance v dtype) (v :: vs)) eqn:Hok;
        cbn [negb] in H.
      * assert (Hrow : row_ok dtype n_cols row = true)
          by (unfold row_ok; now rewrite Hn, Hvs, Hc, Hok).
        specialize (IH r H). destruct r as [l |].
        -- destruct IH as (pre & row' & rest & n' & -> & Hpre & Hrest).
           exists (row :: pre), row', rest, n'.
           split; [reflexivity |]. split; [| exact Hrest].
           cbn [forallb]. now rewrite Hrow.
        -- cbn [forallb]. now rewrite Hrow.
      * injection H as <-. exists [], row, rows, n.
        split; [reflexivity |]. split; [reflexivity |]. split; [assumption |].
        right. split; [assumption |]. exists v, vs. now repeat split.
    + injection H as <-. exists [], row, rows, n.
      split; [reflexivity |]. split; [reflexivity |]. split; [assumption |].
      left. now split.
Qed.

(** C4, as stated, fails: in the document of the example declared dense,
    with the single row [1, 2] where the shape announces two rows of one
    column, the rule returns the defect of the row alone, and the report of
    the run has no line about the number of rows. *)
Lemma dense_row_count_skipped_after_bad_row :
  _valid_dense_data
    (PDict (dict_set "data" (PList [PList [PInt 1; PInt 2]]) example_table))
  = Ok (Line "Incorrect number of cols: %s" [FRepr (PList [PInt 1; PInt 2])])
  /\ _validate_json
       (PDict (dict_set "matrix_type" (PUnicode "dense")
                 (dict_set "data" (PList [PList [PInt 1; PInt 2]])
                    example_table))) "1.0.0" false
     = Ok (Report false
             [Line "Incorrect number of cols: %s"
                [FRepr (PList [PInt 1; PInt 2])]]).
Proof.
  split; vm_compute; reflexivity.
Qed.

(** C4, amended: the rows are checked in order.  A row passes when it is
    a sequence that is not empty, has as many entries as [n_cols] says, and
    whose entries all match the element type.  When the first row that
    does not pass is a sequence of another length than [n_cols], the rule
    returns "Incorrect number of cols" showing that row; when it is a
    non-empty sequence of the right length with an entry of another type,
    the rule returns "Bad datatype in row" showing that row; nothing more
    is checked.  Only when every row has passed is the number of rows
    compared with [n_rows], a mismatch giving the row-count defect;
    otherwise there is no defect.  Whenever the rule returns, it is in one
    of these ways.  Nothing is stated for a first failing row that is not
    a sequence, or that is empty where [n_cols] is 0: there the rule does
    not return. *)
Theorem dense_first_violation (d et : pyval) (dtype : pytype)
  (n_rows n_cols : pyval) (rows : list pyval)
  (Het : py_getitem d "matrix_element_type" = Ok et)
  (Hdt : ElementTypes_getitem et = Ok dtype)
  (Hshape : py_getitem d "shape" = Ok (PList [n_rows; n_cols]))
  (Hdata : py_getitem d "data" = Ok (PList rows)) :
  (forall pre row rest n,
      rows = pre ++ row :: rest ->
      forallb (row_ok dtype n_cols) pre = true ->
      py_len row = Ok n -> eq_int n_cols n = false ->
      _valid_dense_data d
      = Ok (Line "Incorrect number of cols: %s" [FRepr row]))
  /\ (forall pre row rest n v vs,
         rows = pre ++ row :: rest ->
         forallb (row_ok dtype n_cols) pre = true ->
         py_len row = Ok n -> eq_int n_cols n = true ->
         py_iter row = Ok (v :: vs) ->
         forallb (fun v => isinstance v dtype) (v :: vs) = false ->
         _valid_dense_data d
         = Ok (Line "Bad datatype in row: %s" [FRepr row]))
  /\ (forallb (row_ok dtype n_cols) rows = true ->
      eq_int n_rows (Z.of_nat (List.length rows)) = false ->
      _valid_dense_data d = Ok (Line "Incorrect number of rows in matrix" []))
  /\ (forallb (row_ok dtype n_cols) rows = true ->
      eq_int n_rows (Z.of_nat (List.length rows)) = true ->
      _valid_dense_data d = Ok no_defect)
  /\ (forall l,
        _valid_dense_data d = Ok l ->
        (exists pre row rest n,
            rows = pre ++ row :: rest
            /\ forallb (row_ok dtype n_cols) pre = true
            /\ py_len row = Ok n
            /\ ((eq_int n_cols n = false
                 /\ l = Line "Incorrect number of cols: %s" [FRepr row])
                \/ (eq_int n_cols n = true
                    /\ exists v vs,
                         py_iter row = Ok (v :: vs)
                         /\ forallb (fun v => isinstance v dtype) (v :: vs)
                            = false
                         /\ l = Line "Bad datatype in row: %s" [FRepr row])))
        \/ (forallb (row_ok dtype n_cols) rows = true
            /\ l = if eq_int n_rows (Z.of_nat (List.length rows))
                   then no_defect
                   else Line "Incorrect number of rows in matrix" [])).
Proof.
  assert (Hrun : _valid_dense_data d
                 = (r <- dense_loop dtype n_cols rows ;;
                    match r with
                    | Some defect => Ok defect
                    | None =>
                        if negb (eq_int n_rows (Z.of_nat (List.length rows)))
                        then Ok (Line "Incorrect number of rows in matrix" [])
                        else Ok no_defect
                    end)).
  { unfold _valid_dense_data. rewrite Het. cbn [bind]. rewrite Hdt.
    cbn [bind]. rewrite Hshape. cbn [bind unpack py_iter List.length Nat.eqb].
    rewrite Hdata. reflexivity. }
  rewrite Hrun. split; [| split; [| split; [| split]]].
  5:{ intros l Hl.
      destruct (dense_loop dtype n_cols rows) as [r | e] eqn:Hloop;
        cbn [bind] in Hl; [| discriminate].
      apply dense_loop_inv in Hloop. destruct r as [defect |].
      - injection Hl as <-. left. exact Hloop.
      - right. split; [exact Hloop |].
        destruct (eq_int n_rows (Z.of_nat (List.length rows)));
          cbn [negb] in Hl; now injection Hl as <-. }
  - intros pre row rest n -> Hpre Hn Hne.
    rewrite dense_loop_skip by assumption. cbn [dense_loop].
    rewrite Hn. cbn [bind]. rewrite Hne. reflexivity.
  - intros pre row rest n v vs -> Hpre Hn Heq Hvs Hbad.
    rewrite dense_loop_skip by assumption. cbn [dense_loop].
    rewrite Hn. cbn [bind]. rewrite Heq. cbn [negb]. rewrite Hvs. cbn [bind].
    rewrite reduce_and_cons, Hbad. reflexivity.
  - intros Hall Hne.
    rewrite <- (app_nil_r rows) at 1. rewrite dense_loop_skip by assumption.
    cbn [dense_loop bind]. now rewrite Hne.
  - intros Hall Heq.
    rewrite <- (app_nil_r rows) at 1. rewrite dense_loop_skip by assumption.
    cbn [dense_loop bind]. now rewrite Heq.
Qed.

Lemma dense_first_violation_witness :
  _valid_dense_data
    (PDict (dict_set "data" (PList [PList [PInt 1]]) example_table))
  = Ok (Line "Incorrect number of rows in matrix" []).
Proof.
  exact (proj1 (proj2 (proj2 (dense_first_violation
                                (PDict (dict_set "data" (PList [PList [PInt 1]])
                                          example_table))
                                (PUnicode "int") Ty_int (PInt 2) (PInt 1)
                                [PList [PInt 1]]
                                eq_refl eq_refl eq_refl eq_refl)))
           eq_refl eq_refl).
Defined.

(** ** Rows and columns *)

Lemma check_record_ok (missing : string) (idx : Z) (record : pyval) :
  record_ok record = true ->
  check_record missing idx record record_keys = Ok None.
Proof.
  unfold record_ok. destruct record as [| | | | | | | | kvs |]; try discriminate.
  destruct (dict_lookup "id" kvs) as [id |] eqn:Hid; [| discriminate].
  destruct (dict_lookup "metadata" kvs) as [md |] eqn:Hmd; [| discriminate].
  intro H. apply andb_prop in H as [Ht Hm].
  unfold record_keys. cbn [check_record py_contains bind].
  unfold dict_has, _valid_id, _valid_metadata, py_getitem.
  rewrite Hid, Hmd. cbn [bind negb]. rewrite Ht. cbn [negb len_pos no_defect].
  cbn [String.eqb negb bind].
  destruct (is_none md); [reflexivity |].
  cbn [orb] in Hm. rewrite Hm. reflexivity.
Qed.

Lemma records_loop_skip (missing : string) (pre rest : list pyval) :
  forall idx,
    forallb record_ok pre = true ->
    records_loop missing idx (pre ++ rest)
    = records_loop missing (idx + Z.of_nat (List.length pre)) rest.
Proof.
  induction pre as [| record pre IH]; intros idx Hpre.
  - cbn. now rewrite Z.add_0_r.
  - cbn [forallb] in Hpre. apply andb_prop in Hpre as [Hok Hpre].
    cbn [app records_loop]. rewrite check_record_ok by assumption.
    cbn [bind]. rewrite IH by assumption. f_equal.
    rewrite length_cons. lia.
Qed.




(** ** Runs that do not complete *)

Lemma flag_len_none (n : pyval) (r : report) (l : line) :
  flag_len n PNone r l = Raise TypeError.
Proof.
  reflexivity.
Qed.

(** C2 does not hold of the code: validation, once started, can end in an
    exception instead of a report.  Every hierarchical document that has a
    "shape" attribute and no "observation/ids" raises, in either mode (for
    the example, [TypeError] from [len(None)]); a [type] that is not text
    raises [AttributeError]; a [shape] that is not a pair raises
    [ValueError] (one element) or [TypeError] (a number); an empty row of a
    dense table without columns raises [TypeError]. *)
Theorem validation_may_raise :
  (forall h detailed_report,
      dict_has "shape" (attrs h) = true ->
      h5_get h "observation/ids" = PNone ->
      raises (_validate_hdf5 h detailed_report) = true)
  /\ _validate_hdf5 (without_item "observation/ids" example_h5) false
     = Raise TypeError
  /\ _validate_hdf5 (without_item "observation/ids" example_h5) true
     = Raise TypeError
  /\ _validate_json (PDict (dict_set "type" (PInt 5) example_table))
       "1.0.0" false = Raise AttributeError
  /\ _validate_json (PDict (dict_set "shape" (PList [PInt 2]) example_table))
       "1.0.0" false = Raise ValueError
  /\ _valid_shape (TJson (PDict (dict_set "shape" (PInt 2) example_table)))
     = Raise TypeError
  /\ _validate_json (PDict dense_empty_row) "1.0.0" false = Raise TypeError.
Proof.
  split; [| repeat split; vm_compute; reflexivity].
  intros h dr Hshape Hids. unfold _validate_hdf5.
  destruct (check_required _ _ _ _ _ _) as [r | e]; cbn [bind];
    [| reflexivity].
  unfold shape_versus_ids. rewrite Hshape.
  destruct (attrs_getitem h "shape") as [sh | e]; cbn [bind]; [| reflexivity].
  destruct (unpack 2 sh) as [[| a [| b [| c ns]]] | e]; cbn [bind];
    try reflexivity.
  rewrite Hids, flag_len_none. reflexivity.
Qed.

(** ** One required field missing *)

Lemma lookup_remove_eq (k : string) (d : dict) :
  dict_lookup k (dict_remove k d) = None.
Proof.
  induction d as [| [k' v] d IH]; cbn; [reflexivity |].
  destruct (String.eqb k k') eqn:E; [assumption |].
  cbn. now rewrite E.
Qed.

Lemma lookup_remove_ne (k k' : string) (d : dict) :
  k <> k' -> dict_lookup k' (dict_remove k d) = dict_lookup k' d.
Proof.
  intro Hne. induction d as [| [k'' v] d IH]; cbn; [reflexivity |].
  destruct (String.eqb k k'') eqn:E.
  - apply String.eqb_eq in E. subst k''.
    replace (String.eqb k' k) with false; [assumption |].
    symmetry. apply String.eqb_neq. congruence.
  - cbn. now rewrite IH.
Qed.

Lemma getitem_remove_ne (k k' : string) (d : dict) :
  k <> k' ->
  py_getitem (PDict (dict_remove k d)) k' = py_getitem (PDict d) k'.
Proof.
  intro H. cbn. now rewrite lookup_remove_ne.
Qed.

Lemma get_remove_ne (k k' : string) (d : dict) :
  k <> k' -> py_get (PDict (dict_remove k d)) k' = py_get (PDict d) k'.
Proof.
  intro H. cbn. now rewrite lookup_remove_ne.
Qed.

Lemma contains_remove_ne (k k' : string) (d : dict) :
  k <> k' ->
  py_contains (PDict (dict_remove k d)) k' = py_contains (PDict d) k'.
Proof.
  intro H. cbn. unfold dict_has. now rewrite lookup_remove_ne.
Qed.

Lemma contains_remove_eq (k : string) (d : dict) :
  py_contains (PDict (dict_remove k d)) k = Ok false.
Proof.
  cbn. unfold dict_has. now rewrite lookup_remove_eq.
Qed.

Section RequiredLoop.

Context {T : Type}.
Variable contains : T -> string -> result bool.
Variable missing : string.

Lemma check_required_all_pass (t : T)
  (required : list (string * (T -> result line))) :
  Forall (passes contains t) required ->
  forall r, check_required contains missing false t required r = Ok r.
Proof.
  induction 1 as [| [key method] rest [Hc (l & Hm & Hl)] _ IH]; intro r.
  - reflexivity.
  - cbn [check_required]. cbn [fst snd] in Hc, Hm.
    rewrite Hc. cbn [bind negb]. rewrite Hm. cbn [bind]. rewrite Hl.
    apply IH.
Qed.

Lemma check_required_verdict_mono (dr : bool) (t : T)
  (required : list (string * (T -> result line))) :
  forall r r',
    check_required contains missing dr t required r = Ok r' ->
    valid_table r' = true -> valid_table r = true.
Proof.
  induction required as [| [key method] rest IH]; intros r r' Hrun Hv.
  - cbn in Hrun. congruence.
  - cbn [check_required] in Hrun.
    destruct (contains t key) as [[|] | e]; cbn [bind negb] in Hrun;
      try discriminate.
    + destruct (method t) as [msg | e]; cbn [bind] in Hrun;
        try discriminate.
      destruct (len_pos msg).
      * now apply IH in Hrun.
      * apply IH in Hrun; [| assumption]. now rewrite narrate_verdict in Hrun.
    + now apply IH in Hrun.
Qed.

Lemma check_required_valid_inv (t : T)
  (required : list (string * (T -> result line))) :
  forall r r',
    check_required contains missing false t required r = Ok r' ->
    valid_table r' = true ->
    r' = r /\ Forall (passes contains t) required.
Proof.
  induction required as [| [key method] rest IH]; intros r r' Hrun Hv.
  - cbn in Hrun. split; [congruence | constructor].
  - cbn [check_required] in Hrun.
    destruct (contains t key) as [[|] | e] eqn:Hc; cbn [bind negb] in Hrun;
      try discriminate.
    + destruct (method t) as [msg | e] eqn:Hm; cbn [bind] in Hrun;
        try discriminate.
      destruct (len_pos msg) eqn:Hl.
      * now apply check_required_verdict_mono in Hrun.
      * apply IH in Hrun as [-> Hrest]; [| assumption].
        split; [reflexivity |]. constructor; [| assumption].
        split; [assumption | now exists msg].
    + now apply check_required_verdict_mono in Hrun.
Qed.

(** Removing a key from a document that has keys ([dom]): [del k t] no
    longer has [k] and has every other key [t] has. *)
Variable del : string -> T -> T.
Variable dom : T -> Prop.
Hypothesis contains_del_eq :
  forall k t, dom t -> contains (del k t) k = Ok false.
Hypothesis contains_del_ne :
  forall k k' t, dom t -> k <> k' -> contains (del k t) k' = contains t k'.

Lemma passes_del (k : string) (t : T) (km : string * (T -> result line)) :
  dom t -> fst km <> k -> ignores del (snd km) k ->
  passes contains t km -> passes contains (del k t) km.
Proof.
  intros Hdom Hne Hig [Hc (l & Hm & Hl)]. split.
  - rewrite contains_del_ne; [assumption | assumption | congruence].
  - exists l. now rewrite Hig.
Qed.

Lemma passes_del_all (k : string) (t : T)
  (required : list (string * (T -> result line))) :
  dom t ->
  Forall (passes contains t) required ->
  Forall (fun km => fst km <> k -> ignores del (snd km) k) required ->
  ~ In k (map fst required) ->
  Forall (passes contains (del k t)) required.
Proof.
  intro Hdom.
  induction 1 as [| km rest Hkm _ IH]; intros Hig Hnotin; constructor;
    inversion Hig as [| ? ? Hig1 Hig2]; subst; cbn [map] in Hnotin.
  - assert (Hne : fst km <> k) by (intro E; apply Hnotin; now left).
    apply passes_del; auto.
  - apply IH; [assumption |]. intro Hin. apply Hnotin. now right.
Qed.

Lemma check_required_one_missing (k : string) (t : T)
  (required : list (string * (T -> result line))) :
  dom t ->
  Forall (passes contains t) required ->
  Forall (fun km => fst km <> k -> ignores del (snd km) k) required ->
  NoDup (map fst required) ->
  In k (map fst required) ->
  forall r,
    check_required contains missing false (del k t) required r
    = Ok (append (fail r) (Line missing [FText k])).
Proof.
  intros Hdom Hpass. induction Hpass as [| [key method] rest Hkm Hrest IH];
    intros Hig Hnd Hin r.
  - destruct Hin.
  - inversion Hig as [| ? ? Hig1 Hig2]; subst.
    inversion Hnd as [| ? ? Hnotin Hnd']; subst.
    cbn [map fst snd] in *. cbn [check_required].
    destruct (string_dec key k) as [-> | Hne].
    + rewrite contains_del_eq by assumption. cbn [bind negb].
      apply check_required_all_pass. now apply passes_del_all.
    + destruct (passes_del k t (key, method) Hdom Hne (Hig1 Hne) Hkm)
        as [Hc (l & Hm & Hl)].
      cbn [fst snd] in Hc, Hm. rewrite Hc. cbn [bind negb].
      rewrite Hm. cbn [bind]. rewrite Hl.
      apply IH; try assumption.
      destruct Hin as [-> | Hin]; [contradiction | assumption].
Qed.

End RequiredLoop.

(** *** The flat encoding *)

Ltac frame_json :=
  intros [| | | | | | | | kvs |]; try reflexivity; cbn [without_key];
  unfold _valid_format, _valid_format_url, _valid_type, _valid_rows,
    _valid_columns, _valid_shape, _valid_data, _valid_sparse_data,
    _valid_dense_data, _valid_matrix_type, _valid_matrix_element_type,
    _valid_generated_by, _valid_nullable_id, _valid_datetime, cross_check;
  cbn [_json_or_hdf5_get _json_or_hdf5_key];
  rewrite ?getitem_remove_ne, ?get_remove_ne, ?contains_remove_ne
    by assumption;
  reflexivity.

Lemma valid_format_ignores (fv k : string) :
  k <> "format" -> ignores without_key (_valid_format fv) k.
Proof. intro. frame_json. Qed.

Lemma valid_format_url_ignores (k : string) :
  k <> "format_url" ->
  ignores without_key (fun t => _valid_format_url (TJson t)) k.
Proof. intro. frame_json. Qed.

Lemma valid_type_ignores (k : string) :
  k <> "type" -> ignores without_key (fun t => _valid_type (TJson t)) k.
Proof. intro. frame_json. Qed.

Lemma valid_rows_ignores (k : string) :
  k <> "type" -> k <> "rows" -> ignores without_key _valid_rows k.
Proof. intros. frame_json. Qed.

Lemma valid_columns_ignores (k : string) :
  k <> "type" -> k <> "columns" -> ignores without_key _valid_columns k.
Proof. intros. frame_json. Qed.

Lemma valid_shape_ignores (k : string) :
  k <> "shape" -> ignores without_key (fun t => _valid_shape (TJson t)) k.
Proof. intro. frame_json. Qed.

Lemma valid_data_ignores (k : string) :
  k <> "matrix_type" -> k <> "matrix_element_type" -> k <> "shape" ->
  k <> "data" -> ignores without_key _valid_data k.
Proof. intros. frame_json. Qed.

Lemma valid_matrix_type_ignores (k : string) :
  k <> "matrix_type" -> ignores without_key _valid_matrix_type k.
Proof. intro. frame_json. Qed.

Lemma valid_matrix_element_type_ignores (k : string) :
  k <> "matrix_element_type" ->
  ignores without_key _valid_matrix_element_type k.
Proof. intro. frame_json. Qed.

Lemma valid_generated_by_ignores (k : string) :
  k <> "generated_by" ->
  ignores without_key (fun t => _valid_generated_by (TJson t)) k.
Proof. intro. frame_json. Qed.

Lemma valid_nullable_id_ignores (k : string) :
  ignores without_key (fun t => _valid_nullable_id (TJson t)) k.
Proof. frame_json. Qed.

Lemma valid_datetime_ignores (k : string) :
  k <> "date" -> ignores without_key _valid_datetime k.
Proof. intro. frame_json. Qed.

Lemma required_keys_ignore (fv k : string) :
  In k independent_keys ->
  Forall (fun km => fst km <> k -> ignores without_key (snd km) k)
    (required_keys fv).
Proof.
  intro Hk. unfold independent_keys in Hk. cbn [In] in Hk.
  unfold required_keys.
  repeat (destruct Hk as [<- | Hk];
          [ repeat (constructor; cbn [fst snd]);
            intro Hne;
            first [ now contradiction Hne
                  | apply valid_format_ignores
                  | apply valid_format_url_ignores
                  | apply valid_type_ignores
                  | apply valid_rows_ignores
                  | apply valid_columns_ignores
                  | apply valid_shape_ignores
                  | apply valid_data_ignores
                  | apply valid_matrix_type_ignores
                  | apply valid_matrix_element_type_ignores
                  | apply valid_generated_by_ignores
                  | apply valid_nullable_id_ignores
                  | apply valid_datetime_ignores ];
            discriminate
          | ]).
  contradiction.
Qed.

Lemma fail_not_valid (r : report) (l : line) :
  valid_table (append (fail r) l) = true -> False.
Proof.
  discriminate.
Qed.

Lemma cross_check_inv (t : pyval) (key : string) (i : nat) (l : line)
  (r r' : report) :
  cross_check t key i r l = Ok r' -> valid_table r' = true ->
  r' = r /\ forall r2, cross_check t key i r2 l = Ok r2.
Proof.
  unfold cross_check.
  destruct (py_contains t key) as [[|] | e]; cbn [bind]; try discriminate.
  - destruct (py_getitem t key) as [xs | e]; cbn [bind]; try discriminate.
    destruct (py_len xs) as [n | e]; cbn [bind]; try discriminate.
    destruct (py_getitem t "shape") as [sh | e]; cbn [bind]; try discriminate.
    destruct (py_index sh i) as [s | e]; cbn [bind]; try discriminate.
    destruct (eq_int s n); cbn [negb]; intros [= <-] Hv.
    + now split.
    + now apply fail_not_valid in Hv.
  - intros [= <-] _. now split.
Qed.

Lemma cross_check_ignores (k key : string) (i : nat) (l : line) (r : report)
  (kvs : dict) :
  k <> key -> k <> "shape" ->
  cross_check (PDict (dict_remove k kvs)) key i r l
  = cross_check (PDict kvs) key i r l.
Proof.
  intros. unfold cross_check.
  rewrite ?getitem_remove_ne, ?contains_remove_ne by assumption.
  reflexivity.
Qed.

Lemma cross_check_absent (key : string) (i : nat) (l : line) (r : report)
  (kvs : dict) :
  cross_check (PDict (dict_remove key kvs)) key i r l = Ok r.
Proof.
  unfold cross_check. now rewrite contains_remove_eq.
Qed.

Lemma required_keys_nodup (fv : string) : NoDup (map fst (required_keys fv)).
Proof.
  cbn. repeat (constructor; [cbn; intuition discriminate |]). constructor.
Qed.

Lemma independent_keys_required (fv k : string) :
  In k independent_keys -> In k (map fst (required_keys fv)).
Proof.
  cbn. intuition.
Qed.

Lemma validate_json_valid_inv (t : pyval) (fv : string) :
  _validate_json t fv false = Ok (Report true []) ->
  Forall (passes py_contains t) (required_keys fv)
  /\ (forall r, cross_check t "rows" 0 r
                  (Line "Number of rows in 'rows' is not equal to 'shape'" [])
                = Ok r)
  /\ (forall r, cross_check t "columns" 1 r
                  (Line "Number of columns in 'columns' is not equal to 'shape'" [])
                = Ok r).
Proof.
  unfold _validate_json. cbn [narrate].
  destruct (check_required py_contains "Missing field: '%s'" false t
              (required_keys fv) (Report true [])) as [r1 | e] eqn:Hreq;
    cbn [bind]; [| discriminate].
  unfold shape_versus_rows.
  destruct (py_contains t "shape") as [[|] | e] eqn:Hs; cbn [bind narrate];
    try discriminate.
  - destruct (cross_check t "rows" 0 r1 _) as [r2 | e] eqn:H1; cbn [bind];
      [| discriminate].
    intro H2.
    apply cross_check_inv in H2 as [<- H2]; [| reflexivity].
    apply cross_check_inv in H1 as [<- H1]; [| reflexivity].
    apply check_required_valid_inv in Hreq as [_ Hall]; [| reflexivity].
    auto.
  - intros [= ->].
    apply check_required_valid_inv in Hreq as [_ Hall]; [| reflexivity].
    exfalso. unfold required_keys in Hall.
    do 5 (apply Forall_inv_tail in Hall). apply Forall_inv in Hall.
    destruct Hall as [Hc _]. cbn [fst] in Hc. congruence.
Qed.

Lemma flat_missing_key (kvs : dict) (fv k : string) :
  _validate_json (PDict kvs) fv false = Ok (Report true []) ->
  In k independent_keys ->
  _validate_json (PDict (dict_remove k kvs)) fv false
  = Ok (Report false [Line "Missing field: '%s'" [FText k]]).
Proof.
  intros Hvalid Hk.
  apply validate_json_valid_inv in Hvalid as (Hall & Hrows & Hcols).
  unfold _validate_json. cbn [narrate].
  change (PDict (dict_remove k kvs)) with (without_key k (PDict kvs)).
  rewrite (check_required_one_missing py_contains "Missing field: '%s'"
             without_key (fun t => is_dict t = true)) with (k := k);
    try assumption.
  - cbn [bind append fail report_lines valid_table app without_key].
    assert (Hshape : py_contains (PDict kvs) "shape" = Ok true).
    { unfold required_keys in Hall.
      do 5 (apply Forall_inv_tail in Hall). apply Forall_inv in Hall.
      now destruct Hall. }
    assert (Hne : k <> "shape")
      by (unfold independent_keys in Hk; cbn [In] in Hk;
          intuition (subst; discriminate)).
    unfold shape_versus_rows.
    rewrite contains_remove_ne, Hshape by assumption. cbn [bind narrate].
    assert (H1 : forall r, cross_check (PDict (dict_remove k kvs)) "rows" 0 r
                             (Line "Number of rows in 'rows' is not equal to 'shape'" [])
                           = Ok r).
    { intro r. destruct (string_dec k "rows") as [-> | Hr].
      - apply cross_check_absent.
      - rewrite cross_check_ignores by assumption. apply Hrows. }
    assert (H2 : forall r, cross_check (PDict (dict_remove k kvs)) "columns" 1 r
                             (Line "Number of columns in 'columns' is not equal to 'shape'" [])
                           = Ok r).
    { intro r. destruct (string_dec k "columns") as [-> | Hc].
      - apply cross_check_absent.
      - rewrite cross_check_ignores by assumption. apply Hcols. }
    rewrite H1. cbn [bind]. now rewrite H2.
  - intros k0 [| | | | | | | | d |] Hd; try discriminate.
    apply contains_remove_eq.
  - intros k0 k' [| | | | | | | | d |] Hd Hne; try discriminate.
    now apply contains_remove_ne.
  - reflexivity.
  - now apply required_keys_ignore.
  - apply required_keys_nodup.
  - now apply independent_keys_required.
Qed.

(** *** The hierarchical encoding *)

Ltac frame_attrs :=
  intros [a i]; cbn [without_attr attrs items];
  unfold _valid_format_url, _valid_hdf5_format_version, _valid_type,
    _valid_shape, _valid_nnz, _valid_generated_by, _valid_nullable_id,
    _valid_creation_date, attrs_getitem;
  cbn [_json_or_hdf5_get _json_or_hdf5_key without_attr attrs];
  repeat match goal with
         | |- context [replace_char ?a ?b ?s] =>
             let s' := eval vm_compute in (replace_char a b s) in
             change (replace_char a b s) with s'
         end;
  rewrite ?lookup_remove_ne by congruence;
  reflexivity.

Lemma required_attrs_ignore (k : string) :
  Forall (fun km => fst km <> k -> ignores without_attr (snd km) k)
    required_attrs.
Proof.
  unfold required_attrs.
  repeat (constructor; cbn [fst snd]; [intro Hne; frame_attrs |]).
  constructor.
Qed.

Lemma required_attrs_nodup : NoDup (map fst required_attrs).
Proof.
  cbn. repeat (constructor; [cbn; intuition discriminate |]). constructor.
Qed.

Lemma check_present_closed (missing : string) (h : h5file)
  (paths : list string) :
  forall r,
    check_present missing false h paths r
    = Report (valid_table r && forallb (fun p => dict_has p (items h)) paths)
        (report_lines r).
Proof.
  induction paths as [| p rest IH]; intros [v ls]; cbn [check_present forallb].
  - cbn. now rewrite andb_true_r.
  - destruct (dict_has p (items h)); cbn [negb narrate]; rewrite IH; cbn.
    + reflexivity.
    + now rewrite andb_false_r.
Qed.

Lemma flag_len_inv (n ids : pyval) (l : line) (r r' : report) :
  flag_len n ids r l = Ok r' -> valid_table r' = true ->
  r' = r /\ forall r2, flag_len n ids r2 l = Ok r2.
Proof.
  unfold flag_len.
  destruct (py_len ids) as [k | e]; cbn [bind]; [| discriminate].
  destruct (eq_int n k); cbn [negb]; intros [= <-] Hv.
  - now split.
  - now apply fail_not_valid in Hv.
Qed.

Lemma shape_versus_ids_inv (h : h5file) (r r' : report) :
  shape_versus_ids h false r = Ok r' -> valid_table r' = true ->
  r' = r /\ forall r2, shape_versus_ids h false r2 = Ok r2.
Proof.
  unfold shape_versus_ids.
  destruct (dict_has "shape" (attrs h)); [| intros [= <-] _; now split].
  cbn [narrate].
  destruct (attrs_getitem h "shape") as [sh | e]; cbn [bind]; [| discriminate].
  destruct (unpack 2 sh) as [[| n_obs [| n_samp [| x xs]]] | e]; cbn [bind];
    try discriminate.
  unfold flag_none.
  destruct (is_none (h5_get h "observation/ids")) eqn:Ho.
  { destruct (h5_get h "observation/ids"); try discriminate Ho.
    destruct (is_none (h5_get h "sample/ids")); cbn; discriminate. }
  destruct (is_none (h5_get h "sample/ids")) eqn:Hs.
  { destruct (h5_get h "sample/ids"); try discriminate Hs.
    destruct (flag_len n_obs _ _ _); cbn; discriminate. }
  destruct (flag_len n_obs _ r _) as [r1 | e] eqn:H1; cbn [bind];
    [| discriminate].
  intros H2 Hv.
  apply flag_len_inv in H2 as [-> H2]; [| assumption].
  apply flag_len_inv in H1 as [-> H1]; [| assumption].
  split; [reflexivity |]. intro r2. rewrite H1. cbn [bind]. apply H2.
Qed.

Lemma validate_hdf5_valid_inv (h : h5file) :
  _validate_hdf5 h false = Ok (Report true []) ->
  Forall (passes attrs_contains h) required_attrs
  /\ forallb (fun p => dict_has p (items h)) required_groups = true
  /\ forallb (fun p => dict_has p (items h)) required_datasets = true
  /\ forall r, shape_versus_ids h false r = Ok r.
Proof.
  unfold _validate_hdf5. cbn [narrate].
  destruct (check_required attrs_contains "Missing attribute: '%s'" false h
              required_attrs (Report true [])) as [r1 | e] eqn:Hreq;
    cbn [bind]; [| discriminate].
  rewrite !check_present_closed. cbn [valid_table report_lines].
  intro Hrun. apply shape_versus_ids_inv in Hrun as [Heq Hany];
    [| reflexivity].
  injection Heq as Hv Hl.
  symmetry in Hv. apply andb_prop in Hv as [Hv Hd].
  apply andb_prop in Hv as [Hv Hg].
  apply check_required_valid_inv in Hreq as [_ Hall]; [| assumption].
  auto.
Qed.

Lemma hier_missing_attr (h : h5file) (k : string) :
  _validate_hdf5 h false = Ok (Report true []) ->
  In k (map fst required_attrs) ->
  _validate_hdf5 (without_attr k h) false
  = Ok (Report false [Line "Missing attribute: '%s'" [FText k]]).
Proof.
  intros Hvalid Hk.
  apply validate_hdf5_valid_inv in Hvalid as (Hall & Hg & Hd & Hshape).
  unfold _validate_hdf5. cbn [narrate].
  rewrite (check_required_one_missing attrs_contains
             "Missing attribute: '%s'" without_attr (fun _ => True))
    with (k := k); try assumption.
  - cbn [bind]. rewrite !check_present_closed.
    cbn [without_attr items append fail valid_table report_lines app andb].
    assert (Hsv : shape_versus_ids (without_attr k h) false
                    (Report false [Line "Missing attribute: '%s'" [FText k]])
                  = Ok (Report false [Line "Missing attribute: '%s'" [FText k]])).
    { destruct (string_dec k "shape") as [-> | Hne].
      - unfold shape_versus_ids, dict_has. cbn [without_attr attrs].
        now rewrite lookup_remove_eq.
      - etransitivity; [| apply Hshape].
        unfold shape_versus_ids, dict_has, attrs_getitem, h5_get.
        cbn [without_attr attrs items].
        now rewrite !lookup_remove_ne by assumption. }
    exact Hsv.
  - intros k0 t _. unfold attrs_contains, dict_has. cbn [without_attr attrs].
    now rewrite lookup_remove_eq.
  - intros k0 k' t _ Hne. unfold attrs_contains, dict_has.
    cbn [without_attr attrs]. now rewrite lookup_remove_ne.
  - exact I.
  - apply required_attrs_ignore.
  - apply required_attrs_nodup.
Qed.

Lemma check_required_ext {T : Type} (contains : T -> string -> result bool)
  (missing : string) (dr : bool) (t t' : T)
  (required : list (string * (T -> result line))) :
  Forall (fun km => contains t' (fst km) = contains t (fst km)
                    /\ snd km t' = snd km t) required ->
  forall r, check_required contains missing dr t' required r
            = check_required contains missing dr t required r.
Proof.
  induction 1 as [| [key method] rest [Hc Hm] _ IH]; intro r;
    [reflexivity |].
  cbn [check_required]. cbn [fst snd] in Hc, Hm. rewrite Hc, Hm.
  destruct (contains t key) as [[|] | e]; cbn [bind negb]; try reflexivity.
  - destruct (method t) as [msg | e]; cbn [bind]; [| reflexivity].
    destruct (len_pos msg); apply IH.
  - apply IH.
Qed.

Lemma lookup_without (p q : string) (d : dict) :
  dict_lookup q (filter (fun kv => negb (below p (fst kv))) d)
  = if below p q then None else dict_lookup q d.
Proof.
  induction d as [| [k v] d IH]; cbn [filter dict_lookup fst].
  - now destruct (below p q).
  - destruct (below p k) eqn:Hk; cbn [negb dict_lookup].
    + rewrite IH. destruct (String.eqb q k) eqn:E; [| reflexivity].
      apply String.eqb_eq in E. subst k. now rewrite Hk.
    + rewrite IH. destruct (String.eqb q k) eqn:E; [| reflexivity].
      apply String.eqb_eq in E. subst k. now rewrite Hk.
Qed.

Ltac eval_below :=
  repeat match goal with
         | |- context [below ?p ?q] =>
             let b := eval vm_compute in (below p q) in
             change (below p q) with b
         end;
  cbv iota.

Lemma hier_missing_item (h : h5file) (p : string) :
  _validate_hdf5 h false = Ok (Report true []) ->
  In p unread_paths ->
  _validate_hdf5 (without_item p h) false = Ok (Report false []).
Proof.
  intros Hvalid Hp.
  pose proof Hvalid as Hinv.
  apply validate_hdf5_valid_inv in Hinv as (Hall & Hg & Hd & Hshape).
  unfold _validate_hdf5. cbn [narrate].
  rewrite (check_required_ext attrs_contains _ false h (without_item p h))
    by (unfold required_attrs; repeat constructor).
  rewrite (check_required_all_pass attrs_contains _ h required_attrs Hall).
  cbn [bind]. rewrite !check_present_closed. cbn [valid_table report_lines andb].
  assert (Hmiss : forallb (fun q => dict_has q (items (without_item p h)))
                    required_groups
                  && forallb (fun q => dict_has q (items (without_item p h)))
                       required_datasets = false).
  { unfold unread_paths in Hp. cbn [In] in Hp.
    cbn [without_item items forallb required_groups required_datasets].
    unfold dict_has. rewrite !lookup_without.
    repeat (destruct Hp as [<- | Hp];
            [ eval_below; repeat (destruct (dict_lookup _ _)); reflexivity | ]).
    contradiction. }
  rewrite Hmiss.
  etransitivity; [| apply Hshape].
  unfold shape_versus_ids, h5_get. cbn [without_item attrs items].
  rewrite !lookup_without.
  unfold unread_paths in Hp. cbn [In] in Hp.
  repeat (destruct Hp as [<- | Hp]; [eval_below; reflexivity |]).
  contradiction.
Qed.

(** C1, as stated, fails.  The conformant hierarchical example without the
    dataset "sample/data" gets verdict false but, the narrative being off,
    an empty report: no line names the dataset.  Without the group
    "observation", which takes the dataset "observation/ids" with it, it
    gets no report at all: the shape cross-check raises [TypeError].  The
    conformant flat example without "matrix_type" gets no report either:
    the data rule, which reads that key, raises [KeyError]. *)
Lemma missing_field_without_its_line :
  _validate_hdf5 example_h5 false = Ok (Report true [])
  /\ _validate_hdf5 (without_item "sample/data" example_h5) false
     = Ok (Report false [])
  /\ _validate_hdf5 (without_item "observation" example_h5) false
     = Raise TypeError
  /\ _validate_json (PDict example_table) "1.0.0" false = Ok (Report true [])
  /\ _validate_json (PDict (dict_remove "matrix_type" example_table))
       "1.0.0" false = Raise KeyError.
Proof.
  repeat split; vm_compute; reflexivity.
Qed.

(** C1, amended: with the narrative off, take a document that validates
    with verdict true and no line, and remove one required item.  Flat
    encoding, one of the keys no other rule reads (format, format_url, rows,
    columns, data, generated_by, id, date): verdict false and a report of
    exactly the line "Missing field: '<key>'".  Hierarchical encoding, any
    one of the eight required attributes: verdict false and exactly the
    line "Missing attribute: '<attr>'".  Hierarchical encoding, one of the
    six required datasets other than the two ids datasets
    (observation/data, observation/indices, observation/indptr,
    sample/data, sample/indices, sample/indptr): verdict false and an
    empty report, the line for a missing dataset being written in
    narrative mode only.  Nothing is stated for a missing group, which
    takes its ids dataset with it, nor for a missing ids dataset. *)
Theorem one_missing_field (kvs : dict) (format_version : string)
  (h : h5file) (k a p : string)
  (Hflat : _validate_json (PDict kvs) format_version false
           = Ok (Report true []))
  (Hhier : _validate_hdf5 h false = Ok (Report true []))
  (Hk : In k independent_keys)
  (Ha : In a (map fst required_attrs))
  (Hp : In p unread_paths) :
  _validate_json (PDict (dict_remove k kvs)) format_version false
  = Ok (Report false [Line "Missing field: '%s'" [FText k]])
  /\ _validate_hdf5 (without_attr a h) false
     = Ok (Report false [Line "Missing attribute: '%s'" [FText a]])
  /\ _validate_hdf5 (without_item p h) false = Ok (Report false []).
Proof.
  split; [| split].
  - now apply flat_missing_key.
  - now apply hier_missing_attr.
  - now apply hier_missing_item.
Qed.

Lemma one_missing_field_witness :
  _validate_json (PDict (dict_remove "rows" example_table)) "1.0.0" false
  = Ok (Report false [Line "Missing field: '%s'" [FText "rows"]])
  /\ _validate_hdf5 (without_attr "shape" example_h5) false
     = Ok (Report false [Line "Missing attribute: '%s'" [FText "shape"]])
  /\ _validate_hdf5 (without_item "observation/indptr" example_h5) false
     = Ok (Report false []).
Proof.
  apply (one_missing_field example_table "1.0.0" example_h5
           "rows" "shape" "observation/indptr").
  - vm_compute. reflexivity.
  - vm_compute. reflexivity.
  - simpl. tauto.
  - simpl. tauto.
  - simpl. tauto.
Defined.

(** * Further properties *)

(** ** When a document is valid *)

Lemma cross_check_passes_iff (t : pyval) (key : string) (i : nat) (l : line) :
  py_contains t key = Ok true ->
  (forall r, cross_check t key i r l = Ok r) <-> rows_match t key i.
Proof.
  intro Hc. unfold cross_check, rows_match. rewrite Hc. cbn [bind]. split.
  - intro H. specialize (H (Report true [])).
    destruct (py_getitem t key) as [xs | e]; cbn [bind] in H; [| discriminate].
    destruct (py_len xs) as [n | e] eqn:Hn; cbn [bind] in H; [| discriminate].
    destruct (py_getitem t "shape") as [sh | e]; cbn [bind] in H;
      [| discriminate].
    destruct (py_index sh i) as [s | e] eqn:Hs; cbn [bind] in H;
      [| discriminate].
    destruct (eq_int s n) eqn:He; [| discriminate].
    now exists xs, n, sh, s.
  - intros (xs & n & sh & s & -> & Hn & -> & Hs & He) r. cbn [bind].
    rewrite Hn. cbn [bind]. rewrite Hs. cbn [bind]. now rewrite He.
Qed.

Lemma passes_nth {T : Type} (contains : T -> string -> result bool) (t : T)
  (required : list (string * (T -> result line))) (k : string) :
  Forall (passes contains t) required -> In k (map fst required) ->
  contains t k = Ok true.
Proof.
  intros Hall Hin. apply in_map_iff in Hin as ([k' m] & <- & Hin).
  rewrite Forall_forall in Hall. now destruct (Hall _ Hin).
Qed.

(** X1: with the narrative off the flat driver returns verdict true and an
    empty report exactly when every required key is present with a rule
    that returns no defect and the lengths of [rows] and [columns] equal
    the two numbers of [shape]. *)
Theorem json_valid_iff (table_json : pyval) (format_version : string) :
  _validate_json table_json format_version false = Ok (Report true [])
  <-> Forall (passes py_contains table_json) (required_keys format_version)
      /\ rows_match table_json "rows" 0
      /\ rows_match table_json "columns" 1.
Proof.
  split.
  - intro H. apply validate_json_valid_inv in H as (Hall & Hr & Hc).
    split; [assumption |]. split.
    + eapply cross_check_passes_iff; [| exact Hr].
      apply (passes_nth _ _ _ _ Hall). cbn. tauto.
    + eapply cross_check_passes_iff; [| exact Hc].
      apply (passes_nth _ _ _ _ Hall). cbn. tauto.
  - intros (Hall & Hr & Hc). unfold _validate_json. cbn [narrate].
    rewrite (check_required_all_pass _ _ _ _ Hall). cbn [bind].
    unfold shape_versus_rows.
    rewrite (passes_nth _ _ _ "shape" Hall) by (cbn; tauto).
    cbn [bind narrate].
    rewrite (proj2 (cross_check_passes_iff _ "rows" 0 _
                      (passes_nth _ _ _ "rows" Hall ltac:(cbn; tauto))) Hr).
    cbn [bind].
    now rewrite (proj2 (cross_check_passes_iff _ "columns" 1 _
                          (passes_nth _ _ _ "columns" Hall ltac:(cbn; tauto)))
                   Hc).
Qed.

Lemma shape_versus_ids_passes_iff (h : h5file) :
  dict_has "shape" (attrs h) = true ->
  (forall r, shape_versus_ids h false r = Ok r) <-> ids_match h.
Proof.
  intro Hs. unfold shape_versus_ids, ids_match, flag_none, flag_len.
  rewrite Hs. cbn [narrate]. split.
  - intro H. specialize (H (Report true [])).
    destruct (attrs_getitem h "shape") as [sh | e]; cbn [bind] in H;
      [| discriminate].
    destruct (unpack 2 sh) as [[| a [| b [| c ns]]] | e] eqn:Hu;
      cbn [bind] in H; try discriminate.
    destruct (py_len (h5_get h "observation/ids")) as [ko | e] eqn:Ho.
    2:{ destruct (is_none _), (is_none _); cbn [bind] in H; discriminate. }
    destruct (py_len (h5_get h "sample/ids")) as [ks | e] eqn:Hk.
    2:{ destruct (is_none _), (is_none _); cbn [bind] in H;
        destruct (negb _); cbn [bind] in H; discriminate. }
    assert (Hno : is_none (h5_get h "observation/ids") = false)
      by (destruct (h5_get h "observation/ids"); (reflexivity || discriminate)).
    assert (Hns : is_none (h5_get h "sample/ids") = false)
      by (destruct (h5_get h "sample/ids"); (reflexivity || discriminate)).
    rewrite Hno, Hns in H. cbn [bind] in H.
    destruct (eq_int a ko) eqn:Ea; cbn [negb bind] in H.
    + destruct (eq_int b ks) eqn:Eb; cbn [negb] in H; [| discriminate].
      now exists sh, a, b, ko, ks.
    + destruct (eq_int b ks); discriminate.
  - intros (sh & a & b & ko & ks & -> & Hu & Ho & Ea & Hk & Eb) r.
    cbn [bind]. rewrite Hu. cbn [bind].
    assert (Hno : is_none (h5_get h "observation/ids") = false)
      by (destruct (h5_get h "observation/ids"); (reflexivity || discriminate)).
    assert (Hns : is_none (h5_get h "sample/ids") = false)
      by (destruct (h5_get h "sample/ids"); (reflexivity || discriminate)).
    rewrite Hno, Hns, Ho. cbn [bind]. rewrite Ea. cbn [negb bind].
    rewrite Hk. cbn [bind]. now rewrite Eb.
Qed.

(** X2: with the narrative off the hierarchical driver returns verdict true
    and an empty report exactly when every required attribute is present
    with a rule that returns no defect, every required group and dataset
    exists, and the two numbers of [shape] equal the lengths of
    "observation/ids" and "sample/ids". *)
Theorem hdf5_valid_iff (h : h5file) :
  _validate_hdf5 h false = Ok (Report true [])
  <-> Forall (passes attrs_contains h) required_attrs
      /\ (forall p, In p (required_groups ++ required_datasets) ->
                    dict_has p (items h) = true)
      /\ ids_match h.
Proof.
  split.
  - intro H. apply validate_hdf5_valid_inv in H as (Hall & Hg & Hd & Hs).
    split; [assumption |]. split.
    + intros p Hp. apply in_app_or in Hp as [Hp | Hp].
      * rewrite forallb_forall in Hg. now apply Hg.
      * rewrite forallb_forall in Hd. now apply Hd.
    + apply shape_versus_ids_passes_iff; [| assumption].
      pose proof (passes_nth attrs_contains h _ "shape" Hall) as Hc.
      unfold attrs_contains in Hc. injection Hc; [auto | cbn; tauto].
  - intros (Hall & Hp & Hm). unfold _validate_hdf5. cbn [narrate].
    rewrite (check_required_all_pass _ _ _ _ Hall). cbn [bind].
    rewrite !check_present_closed. cbn [valid_table report_lines andb].
    replace (forallb _ required_groups) with true.
    2:{ symmetry. apply forallb_forall. intros p Hin. apply Hp.
        apply in_or_app. now left. }
    replace (forallb _ required_datasets) with true.
    2:{ symmetry. apply forallb_forall. intros p Hin. apply Hp.
        apply in_or_app. now right. }
    cbn [andb]. apply shape_versus_ids_passes_iff; [| assumption].
    pose proof (passes_nth attrs_contains h _ "shape" Hall) as Hc.
    unfold attrs_contains in Hc. injection Hc; [auto | cbn; tauto].
Qed.

(** ** What a report holds *)

Lemma bind_ok {A B : Type} (a : result A) (k : A -> result B) (b : B) :
  bind a k = Ok b -> exists x, a = Ok x /\ k x = Ok b.
Proof.
  destruct a as [x | e]; cbn; [| discriminate]. intro H. now exists x.
Qed.

Lemma validate_json_eq (table_json : pyval) (format_version : string)
  (dr : bool) :
  _validate_json table_json format_version dr
  = bind (check_required py_contains "Missing field: '%s'" dr table_json
            (required_keys format_version)
            (narrate dr (Report true []) (Line "Validating BIOM table..." [])))
      (shape_versus_rows table_json dr).
Proof.
  reflexivity.
Qed.

Lemma validate_hdf5_eq (h : h5file) (dr : bool) :
  _validate_hdf5 h dr
  = bind (check_required attrs_contains "Missing attribute: '%s'" dr h
            required_attrs
            (narrate dr (Report true []) (Line "Validating BIOM table..." [])))
      (fun r =>
         shape_versus_ids h dr
           (check_present "Missing dataset: %s" dr h required_datasets
              (check_present "Missing group: %s" dr h required_groups r))).
Proof.
  reflexivity.
Qed.

Lemma extends_refl (r : report) : extends r r.
Proof.
  split; [exists []; now rewrite app_nil_r | auto].
Qed.

Lemma extends_trans (r1 r2 r3 : report) :
  extends r1 r2 -> extends r2 r3 -> extends r1 r3.
Proof.
  intros [(m1 & H1) V1] [(m2 & H2) V2]. split; [| auto].
  exists (m1 ++ m2). now rewrite H2, H1, app_assoc.
Qed.

Lemma extends_append_fail (r : report) (l : line) :
  extends r (append (fail r) l).
Proof.
  split; [now exists [l] | discriminate].
Qed.

Lemma extends_narrate (dr : bool) (r : report) (l : line) :
  extends r (narrate dr r l).
Proof.
  destruct dr; [| apply extends_refl]. split; [now exists [l] | auto].
Qed.

Lemma extends_fail (r : report) : extends r (fail r).
Proof.
  split; [exists []; cbn; now rewrite app_nil_r | discriminate].
Qed.

Lemma extends_in (r r' : report) (l : line) :
  extends r r' -> In l (report_lines r) -> In l (report_lines r').
Proof.
  intros [(more & ->) _] Hin. apply in_or_app. now left.
Qed.

Lemma extends_invalid (r r' : report) :
  extends r r' -> valid_table r = false -> valid_table r' = false.
Proof.
  intros [_ V] Hf. destruct (valid_table r'); [| reflexivity].
  rewrite V in Hf; [discriminate | reflexivity].
Qed.

Lemma check_required_extends {T : Type}
  (contains : T -> string -> result bool) (missing : string) (dr : bool)
  (t : T) (required : list (string * (T -> result line))) :
  forall r r',
    check_required contains missing dr t required r = Ok r' -> extends r r'.
Proof.
  induction required as [| [key method] rest IH]; intros r r' Hrun.
  - cbn in Hrun. injection Hrun as <-. apply extends_refl.
  - cbn [check_required] in Hrun.
    destruct (contains t key) as [[|] | e]; cbn [bind negb] in Hrun;
      try discriminate.
    + destruct (method t) as [msg | e]; cbn [bind] in Hrun; try discriminate.
      destruct (len_pos msg); apply IH in Hrun;
        (eapply extends_trans; [| exact Hrun]).
      * eapply extends_trans;
          [apply extends_narrate | apply extends_append_fail].
      * apply extends_narrate.
    + apply IH in Hrun. eapply extends_trans; [| exact Hrun].
      apply extends_append_fail.
Qed.

Lemma check_present_extends (missing : string) (dr : bool) (h : h5file)
  (paths : list string) :
  forall r, extends r (check_present missing dr h paths r).
Proof.
  induction paths as [| p rest IH]; intro r; cbn [check_present].
  - apply extends_refl.
  - destruct (negb (dict_has p (items h))); [| apply IH].
    eapply extends_trans; [| apply IH].
    eapply extends_trans; [apply extends_fail | apply extends_narrate].
Qed.

Lemma cross_check_extends (t : pyval) (key : string) (i : nat) (l : line)
  (r r' : report) :
  cross_check t key i r l = Ok r' -> extends r r'.
Proof.
  unfold cross_check.
  destruct (py_contains t key) as [[|] | e]; cbn [bind]; try discriminate.
  - destruct (py_getitem t key) as [xs | e]; cbn [bind]; try discriminate.
    destruct (py_len xs) as [n | e]; cbn [bind]; try discriminate.
    destruct (py_getitem t "shape") as [sh | e]; cbn [bind]; try discriminate.
    destruct (py_index sh i) as [s | e]; cbn [bind]; try discriminate.
    destruct (eq_int s n); cbn [negb]; intros [= <-].
    + apply extends_refl.
    + apply extends_append_fail.
  - intros [= <-]. apply extends_refl.
Qed.

Lemma shape_versus_rows_extends (t : pyval) (dr : bool) (r r' : report) :
  shape_versus_rows t dr r = Ok r' -> extends r r'.
Proof.
  unfold shape_versus_rows.
  destruct (py_contains t "shape") as [[|] | e]; cbn [bind]; try discriminate.
  - destruct (cross_check t "rows" 0 _ _) as [r1 | e] eqn:H1; cbn [bind];
      [| discriminate].
    intro H2. apply cross_check_extends in H1, H2.
    eapply extends_trans; [apply extends_narrate |].
    eapply extends_trans; eassumption.
  - intros [= <-]. apply extends_refl.
Qed.

Lemma flag_none_extends (x : pyval) (r : report) (l : line) :
  extends r (flag_none x r l).
Proof.
  unfold flag_none. destruct (is_none x);
    [apply extends_append_fail | apply extends_refl].
Qed.

Lemma flag_len_extends (n ids : pyval) (l : line) (r r' : report) :
  flag_len n ids r l = Ok r' -> extends r r'.
Proof.
  unfold flag_len. destruct (py_len ids) as [k | e]; cbn [bind];
    [| discriminate].
  destruct (eq_int n k); cbn [negb]; intros [= <-];
    [apply extends_refl | apply extends_append_fail].
Qed.

Lemma shape_versus_ids_extends (h : h5file) (dr : bool) (r r' : report) :
  shape_versus_ids h dr r = Ok r' -> extends r r'.
Proof.
  unfold shape_versus_ids.
  destruct (dict_has "shape" (attrs h));
    [| intros [= <-]; apply extends_refl].
  destruct (attrs_getitem h "shape") as [sh | e]; cbn [bind]; [| discriminate].
  destruct (unpack 2 sh) as [[| a [| b [| c ns]]] | e]; cbn [bind];
    try discriminate.
  destruct (flag_len a _ _ _) as [r1 | e] eqn:H1; cbn [bind]; [| discriminate].
  intro H2. apply flag_len_extends in H1, H2.
  eapply extends_trans; [apply extends_narrate |].
  eapply extends_trans; [apply flag_none_extends |].
  eapply extends_trans; [apply flag_none_extends |].
  eapply extends_trans; eassumption.
Qed.

Lemma check_required_reports {T : Type}
  (contains : T -> string -> result bool) (missing : string) (dr : bool)
  (t : T) (required : list (string * (T -> result line)))
  (k : string) (m : T -> result line) :
  forall r r',
    check_required contains missing dr t required r = Ok r' ->
    In (k, m) required ->
    (contains t k = Ok false ->
     valid_table r' = false /\ In (Line missing [FText k]) (report_lines r'))
    /\ (forall msg, contains t k = Ok true -> m t = Ok msg ->
                    len_pos msg = true ->
                    valid_table r' = false /\ In msg (report_lines r')).
Proof.
  induction required as [| [key method] rest IH]; intros r r' Hrun Hin.
  - destruct Hin.
  - destruct Hin as [[= -> ->] | Hin].
    + cbn [check_required] in Hrun. split.
      * intro Hc. rewrite Hc in Hrun. cbn [bind negb] in Hrun.
        apply check_required_extends in Hrun. split.
        -- now apply (extends_invalid _ _ Hrun).
        -- apply (extends_in _ _ _ Hrun). cbn. apply in_or_app. right.
           now left.
      * intros msg Hc Hm Hl. rewrite Hc in Hrun. cbn [bind negb] in Hrun.
        rewrite Hm in Hrun. cbn [bind] in Hrun. rewrite Hl in Hrun.
        apply check_required_extends in Hrun. split.
        -- now apply (extends_invalid _ _ Hrun).
        -- apply (extends_in _ _ _ Hrun). cbn. apply in_or_app. right.
           now left.
    + cbn [check_required] in Hrun.
      destruct (contains t key) as [[|] | e]; cbn [bind negb] in Hrun;
        try discriminate.
      * destruct (method t) as [msg | e]; cbn [bind] in Hrun;
          try discriminate.
        destruct (len_pos msg); now apply IH in Hrun.
      * now apply IH in Hrun.
Qed.

(** X3: in both drivers and in both modes, when the run returns and a
    required key (attribute) is absent, the verdict is false and the report
    holds the line that names it as missing, whatever else is wrong with the
    document. *)
Theorem missing_key_is_reported (table_json : pyval) (format_version : string)
  (h : h5file) (dr : bool) (rj rh : report) (k a : string)
  (Hj : _validate_json table_json format_version dr = Ok rj)
  (Hh : _validate_hdf5 h dr = Ok rh)
  (Hk : In k (map fst (required_keys format_version)))
  (Hkm : py_contains table_json k = Ok false)
  (Ha : In a (map fst required_attrs))
  (Ham : dict_has a (attrs h) = false) :
  (valid_table rj = false
   /\ In (Line "Missing field: '%s'" [FText k]) (report_lines rj))
  /\ (valid_table rh = false
      /\ In (Line "Missing attribute: '%s'" [FText a]) (report_lines rh)).
Proof.
  split.
  - rewrite validate_json_eq in Hj. apply bind_ok in Hj as (r1 & Hreq & Hj).
    apply shape_versus_rows_extends in Hj.
    apply in_map_iff in Hk as ([k' m] & <- & Hin).
    destruct (proj1 (check_required_reports _ _ _ _ _ _ _ _ _ Hreq Hin) Hkm)
      as [Hv Hl].
    split; [now apply (extends_invalid _ _ Hj) | now apply (extends_in _ _ _ Hj)].
  - rewrite validate_hdf5_eq in Hh. apply bind_ok in Hh as (r1 & Hreq & Hh).
    apply shape_versus_ids_extends in Hh.
    apply in_map_iff in Ha as ([a' m] & <- & Hin).
    assert (Hc : attrs_contains h a' = Ok false)
      by (unfold attrs_contains; cbn [fst] in Ham; now rewrite Ham).
    destruct (proj1 (check_required_reports _ _ _ _ _ _ _ _ _ Hreq Hin) Hc)
      as [Hv Hl].
    assert (He : extends r1 rh).
    { eapply extends_trans; [| exact Hh].
      eapply extends_trans; apply check_present_extends. }
    split; [now apply (extends_invalid _ _ He) | now apply (extends_in _ _ _ He)].
Qed.

Lemma missing_key_is_reported_witness :
  (valid_table (Report false [Line "Missing field: '%s'" [FText "rows"]])
   = false
   /\ In (Line "Missing field: '%s'" [FText "rows"])
        (report_lines (Report false [Line "Missing field: '%s'" [FText "rows"]])))
  /\ (valid_table (Report false [Line "Missing attribute: '%s'" [FText "nnz"]])
      = false
      /\ In (Line "Missing attribute: '%s'" [FText "nnz"])
           (report_lines
              (Report false [Line "Missing attribute: '%s'" [FText "nnz"]]))).
Proof.
  apply (missing_key_is_reported
           (PDict (dict_remove "rows" example_table)) "1.0.0"
           (without_attr "nnz" example_h5) false
           (Report false [Line "Missing field: '%s'" [FText "rows"]])
           (Report false [Line "Missing attribute: '%s'" [FText "nnz"]])
           "rows" "nnz").
  - vm_compute. reflexivity.
  - vm_compute. reflexivity.
  - simpl. tauto.
  - vm_compute. reflexivity.
  - simpl. tauto.
  - vm_compute. reflexivity.
Defined.

(** X4: in both drivers and in both modes, when the run returns and the
    rule of a present required key (attribute) has returned a defect, the
    verdict is false and the report holds that defect: the drivers collect
    every defect and none is lost to a later check. *)
Theorem rule_defect_is_reported (table_json : pyval) (format_version : string)
  (h : h5file) (dr : bool) (rj rh : report)
  (k : string) (m : pyval -> result line) (msg : line)
  (a : string) (n : h5file -> result line) (msg' : line)
  (Hj : _validate_json table_json format_version dr = Ok rj)
  (Hh : _validate_hdf5 h dr = Ok rh)
  (Hk : In (k, m) (required_keys format_version))
  (Hkc : py_contains table_json k = Ok true)
  (Hm : m table_json = Ok msg) (Hmsg : len_pos msg = true)
  (Ha : In (a, n) required_attrs)
  (Hac : dict_has a (attrs h) = true)
  (Hn : n h = Ok msg') (Hmsg' : len_pos msg' = true) :
  (valid_table rj = false /\ In msg (report_lines rj))
  /\ (valid_table rh = false /\ In msg' (report_lines rh)).
Proof.
  split.
  - rewrite validate_json_eq in Hj. apply bind_ok in Hj as (r1 & Hreq & Hj).
    apply shape_versus_rows_extends in Hj.
    destruct (proj2 (check_required_reports _ _ _ _ _ _ _ _ _ Hreq Hk)
                msg Hkc Hm Hmsg) as [Hv Hl].
    split; [now apply (extends_invalid _ _ Hj) | now apply (extends_in _ _ _ Hj)].
  - rewrite validate_hdf5_eq in Hh. apply bind_ok in Hh as (r1 & Hreq & Hh).
    apply shape_versus_ids_extends in Hh.
    assert (Hc : attrs_contains h a = Ok true)
      by (unfold attrs_contains; now rewrite Hac).
    destruct (proj2 (check_required_reports _ _ _ _ _ _ _ _ _ Hreq Ha)
                msg' Hc Hn Hmsg') as [Hv Hl].
    assert (He : extends r1 rh).
    { eapply extends_trans; [| exact Hh].
      eapply extends_trans; apply check_present_extends. }
    split; [now apply (extends_invalid _ _ He) | now apply (extends_in _ _ _ He)].
Qed.

Lemma rule_defect_is_reported_witness :
  (valid_table
     (Report false [Line "Invalid format '%s', must be '%s'"
                      [FStr (PUnicode "0.9"); FText "1.0.0"]]) = false
   /\ In (Line "Invalid format '%s', must be '%s'"
           [FStr (PUnicode "0.9"); FText "1.0.0"])
        (report_lines
           (Report false [Line "Invalid format '%s', must be '%s'"
                            [FStr (PUnicode "0.9"); FText "1.0.0"]])))
  /\ (valid_table (Report false [Line "nnz is negative!" []]) = false
      /\ In (Line "nnz is negative!" [])
           (report_lines (Report false [Line "nnz is negative!" []]))).
Proof.
  apply (rule_defect_is_reported
           (PDict (dict_set "format" (PUnicode "0.9") example_table)) "1.0.0"
           (H5File (dict_set "nnz" (PInt (-1)) (attrs example_h5))
              (items example_h5))
           false
           (Report false [Line "Invalid format '%s', must be '%s'"
                            [FStr (PUnicode "0.9"); FText "1.0.0"]])
           (Report false [Line "nnz is negative!" []])
           "format" (_valid_format "1.0.0")
           (Line "Invalid format '%s', must be '%s'"
              [FStr (PUnicode "0.9"); FText "1.0.0"])
           "nnz" _valid_nnz (Line "nnz is negative!" [])).
  - vm_compute. reflexivity.
  - vm_compute. reflexivity.
  - simpl. tauto.
  - vm_compute. reflexivity.
  - vm_compute. reflexivity.
  - vm_compute. reflexivity.
  - simpl. tauto.
  - vm_compute. reflexivity.
  - vm_compute. reflexivity.
  - vm_compute. reflexivity.
Defined.

(** ** The quiet report and the narrated report *)

Lemma append_fail_tidy (r : report) (l : line) :
  valid_table (append (fail r) l) = true
  <-> report_lines (append (fail r) l) = [].
Proof.
  cbn. split; [discriminate |].
  intro H. apply app_eq_nil in H as [_ H]. discriminate.
Qed.

Lemma check_required_tidy {T : Type} (contains : T -> string -> result bool)
  (missing : string) (t : T) (required : list (string * (T -> result line))) :
  forall r r',
    check_required contains missing false t required r = Ok r' ->
    (valid_table r = true <-> report_lines r = []) ->
    (valid_table r' = true <-> report_lines r' = []).
Proof.
  induction required as [| [key method] rest IH]; intros r r' Hrun Hr.
  - cbn in Hrun. now injection Hrun as <-.
  - cbn [check_required] in Hrun.
    destruct (contains t key) as [[|] | e]; cbn [bind negb narrate] in Hrun;
      try discriminate.
    + destruct (method t) as [msg | e]; cbn [bind] in Hrun; try discriminate.
      destruct (len_pos msg); apply IH in Hrun; auto using append_fail_tidy.
    + apply IH in Hrun; auto using append_fail_tidy.
Qed.

Lemma cross_check_tidy (t : pyval) (key : string) (i : nat) (l : line)
  (r r' : report) :
  cross_check t key i r l = Ok r' ->
  (valid_table r = true <-> report_lines r = []) ->
  (valid_table r' = true <-> report_lines r' = []).
Proof.
  unfold cross_check.
  destruct (py_contains t key) as [[|] | e]; cbn [bind]; try discriminate.
  - destruct (py_getitem t key) as [xs | e]; cbn [bind]; try discriminate.
    destruct (py_len xs) as [n | e]; cbn [bind]; try discriminate.
    destruct (py_getitem t "shape") as [sh | e]; cbn [bind]; try discriminate.
    destruct (py_index sh i) as [s | e]; cbn [bind]; try discriminate.
    destruct (eq_int s n); cbn [negb]; intros [= <-];
      auto using append_fail_tidy.
  - now intros [= <-].
Qed.

(** X5: with the narrative off, a report the flat driver returns has
    verdict true exactly when it has no line; a report the hierarchical
    driver returns with verdict true has no line, while the converse fails
    there (a missing dataset gives verdict false and no line). *)
Theorem quiet_verdict_and_lines (table_json : pyval) (format_version : string)
  (h : h5file) (rj rh : report)
  (Hj : _validate_json table_json format_version false = Ok rj)
  (Hh : _validate_hdf5 h false = Ok rh) :
  (valid_table rj = true <-> report_lines rj = [])
  /\ (valid_table rh = true -> report_lines rh = [])
  /\ (exists h' : h5file, _validate_hdf5 h' false = Ok (Report false [])).
Proof.
  split; [| split].
  - rewrite validate_json_eq in Hj. apply bind_ok in Hj as (r1 & Hreq & Hj).
    apply check_required_tidy in Hreq; [| cbn; tauto].
    unfold shape_versus_rows in Hj.
    apply bind_ok in Hj as (has & _ & Hj). destruct has.
    + cbn [narrate] in Hj. apply bind_ok in Hj as (r2 & H1 & Hj).
      apply cross_check_tidy in H1; [| assumption].
      now apply cross_check_tidy in Hj.
    + now injection Hj as <-.
  - intro Hv. rewrite validate_hdf5_eq in Hh.
    apply bind_ok in Hh as (r1 & Hreq & Hh).
    rewrite !check_present_closed in Hh. cbn [valid_table report_lines] in Hh.
    apply shape_versus_ids_inv in Hh as [-> _]; [| assumption].
    cbn [valid_table report_lines] in *.
    apply andb_prop in Hv as [Hv _]. apply andb_prop in Hv as [Hv _].
    apply check_required_tidy in Hreq; [| cbn; tauto].
    now apply Hreq.
  - exists (without_item "sample/data" example_h5). vm_compute. reflexivity.
Qed.

Lemma quiet_verdict_and_lines_witness :
  (valid_table (Report false [Line "Missing field: '%s'" [FText "rows"]]) = true
   <-> report_lines (Report false [Line "Missing field: '%s'" [FText "rows"]])
       = [])
  /\ (valid_table (Report true []) = true -> report_lines (Report true []) = [])
  /\ (exists h' : h5file, _validate_hdf5 h' false = Ok (Report false [])).
Proof.
  apply (quiet_verdict_and_lines
           (PDict (dict_remove "rows" example_table)) "1.0.0" example_h5).
  - vm_compute. reflexivity.
  - vm_compute. reflexivity.
Defined.

Lemma subseq_refl {A : Type} (xs : list A) : subseq xs xs.
Proof.
  induction xs; constructor; assumption.
Qed.

Lemma subseq_snoc_skip {A : Type} (xs ys : list A) (y : A) :
  subseq xs ys -> subseq xs (ys ++ [y]).
Proof.
  induction 1; cbn; repeat constructor; assumption.
Qed.

Lemma subseq_snoc_keep {A : Type} (xs ys : list A) (y : A) :
  subseq xs ys -> subseq (xs ++ [y]) (ys ++ [y]).
Proof.
  induction 1; cbn; repeat constructor; assumption.
Qed.

Lemma narrates_bind (a b : result report) (k1 k2 : report -> result report) :
  narrates a b ->
  (forall r1 r2, valid_table r1 = valid_table r2 ->
                 subseq (report_lines r2) (report_lines r1) ->
                 narrates (k1 r1) (k2 r2)) ->
  narrates (bind a k1) (bind b k2).
Proof.
  intros Hab Hk.
  destruct a as [r1 | e1], b as [r2 | e2]; cbn in *; try contradiction.
  - destruct Hab. now apply Hk.
  - assumption.
Qed.

Lemma check_required_narrates {T : Type}
  (contains : T -> string -> result bool) (missing : string) (t : T)
  (required : list (string * (T -> result line))) :
  forall r1 r2,
    valid_table r1 = valid_table r2 ->
    subseq (report_lines r2) (report_lines r1) ->
    narrates (check_required contains missing true t required r1)
             (check_required contains missing false t required r2).
Proof.
  induction required as [| [key method] rest IH]; intros r1 r2 Hv Hs.
  - cbn. now split.
  - cbn [check_required].
    destruct (contains t key) as [[|] | e]; cbn [bind negb]; [| | reflexivity].
    + destruct (method t) as [msg | e]; cbn [bind]; [| reflexivity].
      destruct (len_pos msg); apply IH; cbn;
        auto using subseq_snoc_skip, subseq_snoc_keep.
    + apply IH; cbn; auto using subseq_snoc_keep.
Qed.

Lemma check_present_narrates (missing : string) (h : h5file)
  (paths : list string) :
  forall r1 r2,
    valid_table r1 = valid_table r2 ->
    subseq (report_lines r2) (report_lines r1) ->
    valid_table (check_present missing true h paths r1)
    = valid_table (check_present missing false h paths r2)
    /\ subseq (report_lines (check_present missing false h paths r2))
         (report_lines (check_present missing true h paths r1)).
Proof.
  induction paths as [| p rest IH]; intros r1 r2 Hv Hs; cbn [check_present].
  - now split.
  - destruct (negb (dict_has p (items h))); apply IH; cbn;
      auto using subseq_snoc_skip.
Qed.

Lemma cross_check_narrates (t : pyval) (key : string) (i : nat) (l : line)
  (r1 r2 : report) :
  valid_table r1 = valid_table r2 ->
  subseq (report_lines r2) (report_lines r1) ->
  narrates (cross_check t key i r1 l) (cross_check t key i r2 l).
Proof.
  intros Hv Hs. unfold cross_check.
  destruct (py_contains t key) as [[|] | e]; cbn [bind];
    [| now split | reflexivity].
  destruct (py_getitem t key) as [xs | e]; cbn [bind]; [| reflexivity].
  destruct (py_len xs) as [n | e]; cbn [bind]; [| reflexivity].
  destruct (py_getitem t "shape") as [sh | e]; cbn [bind]; [| reflexivity].
  destruct (py_index sh i) as [s | e]; cbn [bind]; [| reflexivity].
  destruct (eq_int s n); cbn; auto using subseq_snoc_keep.
Qed.

Lemma flag_len_narrates (n ids : pyval) (l : line) (r1 r2 : report) :
  valid_table r1 = valid_table r2 ->
  subseq (report_lines r2) (report_lines r1) ->
  narrates (flag_len n ids r1 l) (flag_len n ids r2 l).
Proof.
  intros Hv Hs. unfold flag_len.
  destruct (py_len ids) as [k | e]; cbn [bind]; [| reflexivity].
  destruct (eq_int n k); cbn; auto using subseq_snoc_keep.
Qed.

(** X6: for every document and configuration the narrated run and the
    quiet run raise the same exception or return the same verdict, and then
    every line of the quiet report is found, in the same order, in the
    narrated report: the narrative only adds lines. *)
Theorem narrative_only_adds_lines :
  (forall table_json format_version,
      narrates (_validate_json table_json format_version true)
               (_validate_json table_json format_version false))
  /\ (forall h, narrates (_validate_hdf5 h true) (_validate_hdf5 h false)).
Proof.
  split.
  - intros t fv. unfold _validate_json. apply narrates_bind.
    + apply check_required_narrates; cbn; [reflexivity |].
      repeat constructor.
    + intros r1 r2 Hv Hs. unfold shape_versus_rows.
      destruct (py_contains t "shape") as [[|] | e]; cbn [bind];
        [| now split | reflexivity].
      apply narrates_bind.
      * apply cross_check_narrates; cbn; auto using subseq_snoc_skip.
      * intros. now apply cross_check_narrates.
  - intro h. unfold _validate_hdf5. apply narrates_bind.
    + apply check_required_narrates; cbn; [reflexivity |].
      repeat constructor.
    + intros r1 r2 Hv Hs.
      destruct (check_present_narrates "Missing group: %s" h required_groups
                  r1 r2 Hv Hs) as [Hv1 Hs1].
      destruct (check_present_narrates "Missing dataset: %s" h
                  required_datasets _ _ Hv1 Hs1) as [Hv2 Hs2].
      unfold shape_versus_ids.
      destruct (dict_has "shape" (attrs h)); [| now split].
      destruct (attrs_getitem h "shape") as [sh | e]; cbn [bind];
        [| reflexivity].
      destruct (unpack 2 sh) as [[| a [| b [| c ns]]] | e]; cbn [bind];
        try reflexivity.
      apply narrates_bind.
      * apply flag_len_narrates; unfold flag_none;
          destruct (is_none _), (is_none _); cbn;
          auto using subseq_snoc_skip, subseq_snoc_keep.
      * intros. now apply flag_len_narrates.
Qed.

(** ** The shape cross-checks *)

Lemma cross_check_flag (t : pyval) (key : string) (i : nat) (l : line)
  (r : report) (xs shape s : pyval) (n : Z) :
  py_getitem t key = Ok xs -> py_len xs = Ok n ->
  py_getitem t "shape" = Ok shape -> py_index shape i = Ok s ->
  cross_check t key i r l = Ok (flag (negb (eq_int s n)) r l).
Proof.
  intros Hx Hn Hs Hi. unfold cross_check.
  assert (Hc : py_contains t key = Ok true).
  { destruct t; try discriminate Hx. cbn in *. unfold dict_has.
    now destruct (dict_lookup key kvs). }
  rewrite Hc. cbn [bind]. rewrite Hx. cbn [bind]. rewrite Hn. cbn [bind].
  rewrite Hs. cbn [bind]. rewrite Hi. cbn [bind].
  unfold flag. now destruct (eq_int s n).
Qed.

(** X7: for a flat document whose twelve required fields are present and
    pass their rules, the quiet report holds exactly the lines of the shape
    cross-check: the line about rows iff the length of [rows] differs from
    [shape[0]], then the line about columns iff the length of [columns]
    differs from [shape[1]], each independently of the other; the verdict
    is true iff both lengths agree. *)
Theorem json_shape_cross_check (table_json : pyval) (format_version : string)
  (shape a b rows cols : pyval) (n m : Z)
  (Hall : Forall (passes py_contains table_json) (required_keys format_version))
  (Hshape : py_getitem table_json "shape" = Ok shape)
  (Ha : py_index shape 0 = Ok a) (Hb : py_index shape 1 = Ok b)
  (Hrows : py_getitem table_json "rows" = Ok rows) (Hn : py_len rows = Ok n)
  (Hcols : py_getitem table_json "columns" = Ok cols)
  (Hm : py_len cols = Ok m) :
  _validate_json table_json format_version false
  = Ok (flag (negb (eq_int b m))
          (flag (negb (eq_int a n)) (Report true [])
             (Line "Number of rows in 'rows' is not equal to 'shape'" []))
          (Line "Number of columns in 'columns' is not equal to 'shape'" [])).
Proof.
  unfold _validate_json. cbn [narrate].
  rewrite (check_required_all_pass _ _ _ _ Hall). cbn [bind].
  unfold shape_versus_rows.
  rewrite (passes_nth _ _ _ "shape" Hall) by (cbn; tauto).
  cbn [bind narrate].
  rewrite (cross_check_flag _ _ _ _ _ _ _ _ _ Hrows Hn Hshape Ha). cbn [bind].
  now rewrite (cross_check_flag _ _ _ _ _ _ _ _ _ Hcols Hm Hshape Hb).
Qed.

Lemma json_shape_cross_check_witness :
  _validate_json
    (PDict (dict_set "shape" (PList [PInt 3; PInt 1]) example_table))
    "1.0.0" false
  = Ok (Report false
          [Line "Number of rows in 'rows' is not equal to 'shape'" []]).
Proof.
  refine (json_shape_cross_check
            (PDict (dict_set "shape" (PList [PInt 3; PInt 1]) example_table))
            "1.0.0" (PList [PInt 3; PInt 1]) (PInt 3) (PInt 1)
            (PList [null_record "r1"; null_record "r2"])
            (PList [null_record "c1"]) 2 1 _ eq_refl eq_refl eq_refl eq_refl
            eq_refl eq_refl eq_refl).
  unfold required_keys.
  repeat (constructor;
          [split; [vm_compute; reflexivity
                  | eexists; split; vm_compute; reflexivity] |]).
  constructor.
Defined.

(** X8: for a hierarchical document whose eight required attributes are
    present and pass their rules and whose required groups and datasets all
    exist, the quiet report holds exactly the lines of the shape
    cross-check: the line about observation IDs iff the first number of
    [shape] differs from the length of "observation/ids", then the line
    about sample IDs iff the second differs from the length of
    "sample/ids", each independently of the other. *)
Theorem hdf5_shape_cross_check (h : h5file) (shape a b : pyval) (n m : Z)
  (Hall : Forall (passes attrs_contains h) required_attrs)
  (Hpresent : forall p, In p (required_groups ++ required_datasets) ->
                        dict_has p (items h) = true)
  (Hshape : attrs_getitem h "shape" = Ok shape)
  (Hab : unpack 2 shape = Ok [a; b])
  (Hn : py_len (h5_get h "observation/ids") = Ok n)
  (Hm : py_len (h5_get h "sample/ids") = Ok m) :
  _validate_hdf5 h false
  = Ok (flag (negb (eq_int b m))
          (flag (negb (eq_int a n)) (Report true [])
             (Line "Number of observation IDs is not equal to the described shape" []))
          (Line "Number of sample IDs is not equal to the described shape" [])).
Proof.
  unfold _validate_hdf5. cbn [narrate].
  rewrite (check_required_all_pass _ _ _ _ Hall). cbn [bind].
  rewrite !check_present_closed. cbn [valid_table report_lines andb].
  replace (forallb _ required_groups) with true.
  2:{ symmetry. apply forallb_forall. intros p Hin. apply Hpresent.
      apply in_or_app. now left. }
  replace (forallb _ required_datasets) with true.
  2:{ symmetry. apply forallb_forall. intros p Hin. apply Hpresent.
      apply in_or_app. now right. }
  cbn [andb]. unfold shape_versus_ids.
  pose proof (passes_nth attrs_contains h _ "shape" Hall) as Hc.
  unfold attrs_contains in Hc.
  assert (Hs : dict_has "shape" (attrs h) = true)
    by (injection Hc; [auto | cbn; tauto]).
  rewrite Hs, Hshape. cbn [bind narrate]. rewrite Hab. cbn [bind].
  assert (Hno : is_none (h5_get h "observation/ids") = false)
    by (destruct (h5_get h "observation/ids"); (reflexivity || discriminate)).
  assert (Hns : is_none (h5_get h "sample/ids") = false)
    by (destruct (h5_get h "sample/ids"); (reflexivity || discriminate)).
  unfold flag_none, flag_len, flag. rewrite Hno, Hns, Hn. cbn [bind].
  rewrite Hm. destruct (eq_int a n); cbn [negb bind];
    destruct (eq_int b m); reflexivity.
Qed.

Lemma hdf5_shape_cross_check_witness :
  _validate_hdf5
    (H5File (dict_set "shape" (PList [PInt 2; PInt 4]) (attrs example_h5))
       (items example_h5)) false
  = Ok (Report false
          [Line "Number of sample IDs is not equal to the described shape" []]).
Proof.
  refine (hdf5_shape_cross_check
            (H5File (dict_set "shape" (PList [PInt 2; PInt 4])
                       (attrs example_h5)) (items example_h5))
            (PList [PInt 2; PInt 4]) (PInt 2) (PInt 4) 2 1
            _ _ eq_refl eq_refl eq_refl eq_refl).
  - unfold required_attrs.
    repeat (constructor;
            [split; [vm_compute; reflexivity
                    | eexists; split; vm_compute; reflexivity] |]).
    constructor.
  - intros p Hp. simpl in Hp.
    repeat (destruct Hp as [<- | Hp]; [vm_compute; reflexivity |]).
    contradiction.
Defined.

(** ** Header rules and the data rule *)

Lemma in_names_find (v : pyval) :
  in_names v (map fst ElementTypes) = Ok true ->
  exists dtype, ElementTypes_getitem v = Ok dtype.
Proof.
  unfold in_names, ElementTypes_getitem.
  destruct (hashable v); [| discriminate].
  unfold ElementTypes. cbn [map fst existsb find snd].
  intros [= H].
  destruct (eq_str v "int"); [now eexists |].
  destruct (eq_str v "str"); [now eexists |].
  destruct (eq_str v "float"); [now eexists |].
  destruct (eq_str v "unicode"); [now eexists | discriminate].
Qed.

Lemma py_sub1_int (a : pyval) :
  _is_int a = true -> py_sub1 a = Ok (mk_int (int_val a - 1)).
Proof.
  destruct a; try discriminate; intros _; cbn; [| reflexivity].
  now destruct b.
Qed.

(** X9: when the matrix_element_type rule and the shape rule return no
    defect and [data] can be iterated, the sparse validation does not
    raise: the element type is one the class knows, both numbers of the
    shape are integer-typed, and the result is the defect (or none) of the
    loop over the entries with the bounds [shape[0]-1] and [shape[1]-1]. *)
Theorem sparse_returns_after_header (d data : pyval) (coords : list pyval)
  (Het : _valid_matrix_element_type d = Ok no_defect)
  (Hshape : _valid_shape (TJson d) = Ok no_defect)
  (Hdata : py_getitem d "data" = Ok data)
  (Hiter : py_iter data = Ok coords) :
  exists et dtype shape a b,
    py_getitem d "matrix_element_type" = Ok et
    /\ ElementTypes_getitem et = Ok dtype
    /\ py_getitem d "shape" = Ok shape
    /\ py_iter shape = Ok [a; b]
    /\ _is_int a = true /\ _is_int b = true
    /\ _valid_sparse_data d
       = Ok (sparse_loop dtype (mk_int (int_val a - 1))
               (mk_int (int_val b - 1)) 0 coords).
Proof.
  unfold _valid_matrix_element_type in Het.
  destruct (py_getitem d "matrix_element_type") as [et | e] eqn:Hg;
    cbn [bind] in Het; [| discriminate].
  destruct (in_names et (map fst ElementTypes)) as [[|] | e] eqn:Hin;
    cbn [bind negb] in Het; try discriminate.
  destruct (in_names_find _ Hin) as (dtype & Hdt).
  destruct d as [| | | | | | | | kvs |]; try discriminate Hg.
  unfold _valid_shape in Hshape. cbn [_json_or_hdf5_get py_get] in Hshape.
  destruct (dict_lookup "shape" kvs) as [shape |] eqn:Hs;
    cbn [bind] in Hshape; [| discriminate].
  destruct (unpack 2 shape) as [[| a [| b [| c ns]]] | e] eqn:Hu;
    cbn [bind] in Hshape; try discriminate.
  destruct (_is_int a) eqn:Ha; [| discriminate].
  destruct (_is_int b) eqn:Hb; [| discriminate].
  assert (Hit : py_iter shape = Ok [a; b]).
  { unfold unpack in Hu. destruct (py_iter shape) as [xs | e];
      cbn [bind] in Hu; [| discriminate].
    destruct (Nat.eqb (List.length xs) 2); [congruence | discriminate]. }
  exists et, dtype, shape, a, b.
  split; [reflexivity |]. split; [assumption |].
  split; [cbn; now rewrite Hs |]. split; [assumption |].
  split; [assumption |]. split; [assumption |].
  unfold _valid_sparse_data. rewrite Hg. cbn [bind]. rewrite Hdt. cbn [bind].
  cbn [py_getitem]. rewrite Hs. cbn [bind]. rewrite Hu. cbn [bind].
  rewrite !py_sub1_int by assumption. cbn [bind].
  cbn [py_getitem] in Hdata. rewrite Hdata. cbn [bind]. now rewrite Hiter.
Qed.

Lemma sparse_returns_after_header_witness :
  exists et dtype shape a b,
    py_getitem (PDict example_table) "matrix_element_type" = Ok et
    /\ ElementTypes_getitem et = Ok dtype
    /\ py_getitem (PDict example_table) "shape" = Ok shape
    /\ py_iter shape = Ok [a; b]
    /\ _is_int a = true /\ _is_int b = true
    /\ _valid_sparse_data (PDict example_table)
       = Ok (sparse_loop dtype (mk_int (int_val a - 1))
               (mk_int (int_val b - 1)) 0 [PList [PInt 0; PInt 0; PInt 5]]).
Proof.
  apply (sparse_returns_after_header (PDict example_table)
           (PList [PList [PInt 0; PInt 0; PInt 5]])
           [PList [PInt 0; PInt 0; PInt 5]]).
  - vm_compute. reflexivity.
  - vm_compute. reflexivity.
  - vm_compute. reflexivity.
  - reflexivity.
Defined.

Lemma lower_string_neq (s k : string) :
  lower_string k = k -> lower_string s <> k -> s <> k.
Proof.
  intros Hk Hne ->. contradiction.
Qed.

(** X10: the data rule follows the matrix type.  When the matrix_type rule
    returns no defect, the data rule is the sparse validation for "sparse"
    and the dense validation for "dense"; when the matrix type is a text
    that is neither word in any casing, the data rule returns "Unknown
    matrix type" and the matrix_type rule its own defect; when it is not a
    text, the data rule raises [AttributeError]. *)
Theorem data_rule_dispatch (d mt : pyval)
  (Hget : py_getitem d "matrix_type" = Ok mt) :
  (_valid_matrix_type d = Ok no_defect ->
   (eq_str mt "sparse" = true /\ _valid_data d = _valid_sparse_data d)
   \/ (eq_str mt "dense" = true /\ _valid_data d = _valid_dense_data d))
  /\ (forall s, is_text mt s ->
                lower_string s <> "sparse" -> lower_string s <> "dense" ->
                _valid_data d = Ok (Line "Unknown matrix type" [])
                /\ _valid_matrix_type d = Ok (Line "Unknown 'matrix_type'" []))
  /\ ((forall s, ~ is_text mt s) -> _valid_data d = Raise AttributeError).
Proof.
  split; [| split].
  - unfold _valid_matrix_type, _valid_data. rewrite Hget. cbn [bind].
    unfold in_names. destruct (hashable mt); cbn [bind]; [| discriminate].
    unfold MatrixTypes. cbn [existsb].
    destruct mt as [| | | | | s | s | | |]; cbn [eq_str orb negb];
      try discriminate;
      (destruct (String.eqb s "sparse") eqn:Es;
       [ apply String.eqb_eq in Es; subst s; intros _; left; now split
       | destruct (String.eqb s "dense") eqn:Ed;
         [ apply String.eqb_eq in Ed; subst s; intros _; right; now split
         | discriminate ] ]).
  - intros s Htext Hs Hd.
    destruct (is_text_lower _ _ Htext) as (w & Hw & Heq). split.
    + unfold _valid_data. rewrite Hget. cbn [bind]. rewrite Hw. cbn [bind].
      rewrite !Heq. apply String.eqb_neq in Hs, Hd. now rewrite Hs, Hd.
    + unfold _valid_matrix_type. rewrite Hget. cbn [bind]. unfold in_names.
      rewrite (is_text_hashable _ _ Htext). cbn [bind].
      unfold MatrixTypes. cbn [existsb].
      rewrite !(is_text_eq_str _ _ _ Htext).
      apply lower_string_neq in Hs, Hd; try reflexivity.
      apply String.eqb_neq in Hs, Hd. now rewrite Hs, Hd.
  - intro Hnt. unfold _valid_data. rewrite Hget. cbn [bind].
    destruct mt; try reflexivity; exfalso; eapply Hnt;
      [left | right]; reflexivity.
Qed.

Lemma data_rule_dispatch_witness :
  _valid_data (PDict [("matrix_type", PUnicode "Triangular")])
  = Ok (Line "Unknown matrix type" [])
  /\ _valid_matrix_type (PDict [("matrix_type", PUnicode "Triangular")])
     = Ok (Line "Unknown 'matrix_type'" []).
Proof.
  refine (proj1 (proj2 (data_rule_dispatch
                          (PDict [("matrix_type", PUnicode "Triangular")])
                          (PUnicode "Triangular") eq_refl))
            "Triangular" (or_intror eq_refl) _ _); vm_compute; discriminate.
Defined.

(** ** The type rule *)

Lemma key_type (t : table) : _json_or_hdf5_key t "type" = "type".
Proof.
  now destruct t.
Qed.

(** X11: the type rule compares without regard to case.  For a text value
    it returns no defect exactly when the lowered text is one of the seven
    table types, and otherwise the defect that shows the value as written;
    so two spellings that lower to the same text are treated alike.  For a
    value that is not a text (a number, null, or the null the accessor
    returns for an absent key) it raises [AttributeError].  This holds in
    both encodings. *)
Theorem type_rule_case_insensitive (t : table) (value : pyval)
  (Hget : _json_or_hdf5_get t "type" = Ok value) :
  (forall s, is_text value s ->
             _valid_type t
             = Ok (if existsb (String.eqb (lower_string s)) TableTypes
                   then no_defect
                   else Line "Unknown BIOM type: %s" [FStr value]))
  /\ ((forall s, ~ is_text value s) -> _valid_type t = Raise AttributeError).
Proof.
  unfold _valid_type. rewrite key_type, Hget. cbn [bind]. split.
  - intros s Htext.
    destruct (is_text_lower _ _ Htext) as (w & Hw & Heq).
    rewrite Hw. cbn [bind]. unfold in_names.
    assert (Hh : hashable w = true)
      by (destruct Htext as [-> | ->]; cbn in Hw; injection Hw as <-;
          reflexivity).
    rewrite Hh. cbn [bind].
    replace (existsb (eq_str w) TableTypes)
      with (existsb (String.eqb (lower_string s)) TableTypes).
    + now destruct (existsb _ TableTypes).
    + unfold TableTypes. cbn [existsb]. now rewrite !Heq.
  - intro Hnt. destruct value; try reflexivity; exfalso; eapply Hnt;
      [left | right]; reflexivity.
Qed.

Lemma type_rule_case_insensitive_witness :
  _valid_type (THdf5 (H5File [("type", PStr "Taxon TABLE")] []))
  = Ok no_defect.
Proof.
  exact (proj1 (type_rule_case_insensitive
                  (THdf5 (H5File [("type", PStr "Taxon TABLE")] []))
                  (PStr "Taxon TABLE") eq_refl)
           "Taxon TABLE" (or_introl eq_refl)).
Defined.

(** ** Rules that cannot raise *)

(** X12: on a flat document that is an object the format_url and
    generated_by rules never raise, whatever the value and even without the
    key: the accessor returns null for an absent key, and the rule then
    returns its defect, which for format_url names the key in the spelling
    of the encoding ("format_url" against "format-url"); a hierarchical
    document without the attribute gets the same defects.  The date rule
    never raises once its key is present, nor do the nnz and creation-date
    rules once their attribute is.  The format rule never raises on a
    present key when the expected version is ASCII; against a version that
    is not, a [unicode] field raises [ValueError] (the decoding error of
    the message) while any other field gets the defect. *)
Theorem safe_rules_never_raise (kvs its : dict) (format_version : string) :
  raises (_valid_format_url (TJson (PDict kvs))) = false
  /\ raises (_valid_generated_by (TJson (PDict kvs))) = false
  /\ (dict_lookup "format_url" kvs = None ->
      _valid_format_url (TJson (PDict kvs))
      = Ok (Line "Invalid '%s'" [FText "format_url"]))
  /\ (dict_lookup "format-url" kvs = None ->
      _valid_format_url (THdf5 (H5File kvs its))
      = Ok (Line "Invalid '%s'" [FText "format-url"]))
  /\ (dict_lookup "generated_by" kvs = None ->
      _valid_generated_by (TJson (PDict kvs))
      = Ok (Line "'generated_by' is not populated" []))
  /\ (dict_lookup "generated-by" kvs = None ->
      _valid_generated_by (THdf5 (H5File kvs its))
      = Ok (Line "'generated_by' is not populated" []))
  /\ (dict_has "format" kvs = true -> is_ascii format_version = true ->
      raises (_valid_format format_version (PDict kvs)) = false)
  /\ (forall f, dict_lookup "format" kvs = Some f ->
                is_ascii format_version = false ->
                _valid_format format_version (PDict kvs)
                = if is_unicode f then Raise ValueError
                  else if eq_str f format_version then Ok no_defect
                  else Ok (Line "Invalid format '%s', must be '%s'"
                             [FStr f; FText format_version]))
  /\ (dict_has "date" kvs = true ->
      raises (_valid_datetime (PDict kvs)) = false)
  /\ (dict_has "nnz" kvs = true ->
      raises (_valid_nnz (H5File kvs its)) = false)
  /\ (dict_has "creation-date" kvs = true ->
      raises (_valid_creation_date (H5File kvs its)) = false).
Proof.
  unfold _valid_format_url, _valid_generated_by, _valid_format,
    _valid_datetime, _valid_nnz, _valid_creation_date, attrs_getitem,
    dict_has.
  cbn [_json_or_hdf5_get _json_or_hdf5_key py_get py_getitem attrs].
  change (replace_char "_" "-" "format_url") with "format-url".
  change (replace_char "_" "-" "generated_by") with "generated-by".
  repeat split.
  - destruct (dict_lookup "format_url" kvs) as [v |]; cbn [bind];
      [destruct (eq_str v FormatURL) |]; reflexivity.
  - destruct (dict_lookup "generated_by" kvs) as [v |]; cbn [bind];
      [destruct (truthy v) |]; reflexivity.
  - now intros ->.
  - now intros ->.
  - now intros ->.
  - now intros ->.
  - destruct (dict_lookup "format" kvs) as [v |]; [| discriminate].
    intros _ ->. cbn [bind negb]. rewrite andb_false_r.
    now destruct (eq_str v format_version).
  - intros f -> ->. cbn [bind negb]. rewrite andb_true_r.
    destruct (is_unicode f); [reflexivity |].
    now destruct (eq_str f format_version).
  - destruct (dict_lookup "date" kvs) as [v |]; [| discriminate].
    reflexivity.
  - destruct (dict_lookup "nnz" kvs) as [v |]; [| discriminate].
    intros _. cbn [bind]. destruct (_is_int v); [| reflexivity].
    now destruct (int_val v <? 0).
  - destruct (dict_lookup "creation-date" kvs) as [v |]; [| discriminate].
    reflexivity.
Qed.

Lemma safe_rules_never_raise_witness :
  _valid_format_url (THdf5 (H5File [] []))
  = Ok (Line "Invalid '%s'" [FText "format-url"]).
Proof.
  exact (proj1 (proj2 (proj2 (proj2
           (safe_rules_never_raise [] [] "1.0.0")))) eq_refl).
Defined.

(** ** The version of the hierarchical format *)

(** X13: the format-version rule turns the attribute into a tuple and
    looks it up among the accepted versions.  A sequence of two integers
    passes exactly when they are 2 and 0 (as does [2.0, 0.0], numbers being
    compared by value); a sequence of hashable objects that has not two
    elements gets the defect, which shows the attribute, unless the
    attribute is a [unicode] text that is not ASCII: showing it raises
    [ValueError] (the encoding error of [str]), whatever its length; an
    attribute that cannot be iterated raises the error of the iteration,
    and a sequence with an entry that cannot be hashed raises
    [TypeError]. *)
Theorem hdf5_format_version_rule (h : h5file) (ver : pyval)
  (Hget : attrs_getitem h "format-version" = Ok ver) :
  (forall a b, ver = PList [PInt a; PInt b] ->
               (_valid_hdf5_format_version h = Ok no_defect
                <-> a = 2 /\ b = 0)
               /\ (_valid_hdf5_format_version h = Ok no_defect
                   \/ _valid_hdf5_format_version h
                      = Ok (Line "Invalid format version '%s'" [FStr ver])))
  /\ (ver = PList [PFloat 2; PFloat 0] ->
      _valid_hdf5_format_version h = Ok no_defect)
  /\ (forall elems, py_iter ver = Ok elems ->
                    forallb hashable elems = true ->
                    List.length elems <> 2%nat ->
                    str_ok ver = true ->
                    _valid_hdf5_format_version h
                    = Ok (Line "Invalid format version '%s'" [FStr ver]))
  /\ (forall s, ver = PUnicode s -> is_ascii s = false ->
                _valid_hdf5_format_version h = Raise ValueError)
  /\ (forall e, py_iter ver = Raise e ->
                _valid_hdf5_format_version h = Raise e)
  /\ (forall elems, py_iter ver = Ok elems ->
                    forallb hashable elems = false ->
                    _valid_hdf5_format_version h = Raise TypeError).
Proof.
  unfold _valid_hdf5_format_version. rewrite Hget. cbn [bind].
  split; [| split; [| split; [| split; [| split]]]].
  - intros a b ->. cbn [bind py_iter forallb hashable andb str_ok].
    unfold HDF5FormatVersions. cbn [existsb fst snd eq_int orb].
    destruct (Z.eqb_spec a 2), (Z.eqb_spec b 0); cbn [andb orb negb];
      (split;
       [ split;
         [ intro H; first [discriminate H | split; assumption]
         | intros [? ?]; first [reflexivity | contradiction] ]
       | first [now left | now right] ]).
  - intros ->. vm_compute. reflexivity.
  - intros elems -> Hh Hlen ->. cbn [bind]. rewrite Hh.
    unfold HDF5FormatVersions. cbn [existsb].
    destruct elems as [| a [| b [| c ns]]]; cbn; try reflexivity.
    now contradiction Hlen.
  - intros s -> Hs. cbn [bind py_iter str_ok]. rewrite Hs.
    assert (Hh : forallb hashable (map PUnicode (chars_of s)) = true).
    { induction (chars_of s) as [| c cs IH]; [reflexivity |].
      cbn [map forallb hashable]. exact IH. }
    rewrite Hh. unfold HDF5FormatVersions. cbn [existsb].
    destruct (chars_of s) as [| a [| b [| c cs]]]; reflexivity.
  - intros e ->. reflexivity.
  - intros elems -> Hh. cbn [bind]. now rewrite Hh.
Qed.

Lemma hdf5_format_version_rule_witness :
  _valid_hdf5_format_version
    (H5File [("format-version", PList [PInt 2; PInt 0])] [])
  = Ok no_defect.
Proof.
  destruct (hdf5_format_version_rule
              (H5File [("format-version", PList [PInt 2; PInt 0])] [])
              (PList [PInt 2; PInt 0]) eq_refl) as [H _].
  destruct (H 2 0 eq_refl) as [[_ H'] _].
  apply H'. split; reflexivity.
Defined.

(** ** Edges of the matrix rules *)

(** X14: the dense validation raises [TypeError] at the first empty row of
    a table declared without columns: the row has the declared length, and
    [reduce] is then applied to an empty list without an initial value.
    The rows before it must have passed; what follows is not looked at. *)
Theorem dense_empty_row_raises (d et : pyval) (dtype : pytype)
  (n_rows n_cols row : pyval) (pre rest : list pyval)
  (Het : py_getitem d "matrix_element_type" = Ok et)
  (Hdt : ElementTypes_getitem et = Ok dtype)
  (Hshape : py_getitem d "shape" = Ok (PList [n_rows; n_cols]))
  (Hdata : py_getitem d "data" = Ok (PList (pre ++ row :: rest)))
  (Hpre : forallb (row_ok dtype n_cols) pre = true)
  (Hlen : py_len row = Ok 0) (Hiter : py_iter row = Ok [])
  (Hcols : eq_int n_cols 0 = true) :
  _valid_dense_data d = Raise TypeError.
Proof.
  unfold _valid_dense_data. rewrite Het. cbn [bind]. rewrite Hdt.
  cbn [bind]. rewrite Hshape. cbn [bind unpack py_iter List.length Nat.eqb].
  rewrite Hdata. cbn [bind py_iter].
  rewrite dense_loop_skip by assumption. cbn [dense_loop].
  rewrite Hlen. cbn [bind]. rewrite Hcols. cbn [negb]. rewrite Hiter.
  reflexivity.
Qed.

Lemma dense_empty_row_raises_witness :
  _valid_dense_data (PDict dense_empty_row) = Raise TypeError.
Proof.
  exact (dense_empty_row_raises (PDict dense_empty_row) (PUnicode "int")
           Ty_int (PInt 1) (PInt 0) (PList []) [] []
           eq_refl eq_refl eq_refl eq_refl eq_refl eq_refl eq_refl eq_refl).
Defined.

(** X15: in the sparse validation, the first entry that fails a check and
    cannot be unpacked into three objects (it is not a sequence, or has
    another number of elements) gives the defect "Bad matrix entry", the
    error of the unpacking being swallowed; one that unpacks but has an
    index that is not integer-typed (a float such as 1.0, a long, a text)
    gives "Bad x or y type", before its value or the bounds are looked at.
    Both carry the index and the content of the entry. *)
Theorem sparse_malformed_entry (d et : pyval) (dtype : pytype) (r c : Z)
  (pre rest : list pyval) (coord : pyval)
  (Het : py_getitem d "matrix_element_type" = Ok et)
  (Hdt : ElementTypes_getitem et = Ok dtype)
  (Hshape : py_getitem d "shape" = Ok (PList [PInt r; PInt c]))
  (Hdata : py_getitem d "data" = Ok (PList (pre ++ coord :: rest)))
  (Hpre : forallb (entry_ok dtype r c) pre = true) :
  let idx := Z.of_nat (List.length pre) in
  (forall e, unpack 3 coord = Raise e ->
             _valid_sparse_data d
             = Ok (Line "Bad matrix entry idx %d: %s" [FNum idx; FRepr coord]))
  /\ (forall x y val, unpack 3 coord = Ok [x; y; val] ->
                      _is_int x && _is_int y = false ->
                      _valid_sparse_data d
                      = Ok (Line "Bad x or y type at idx %d: %s"
                              [FNum idx; FRepr coord])).
Proof.
  intro idx.
  assert (Hrun : _valid_sparse_data d
                 = Ok (sparse_loop dtype (mk_int (r - 1)) (mk_int (c - 1)) idx
                         (coord :: rest))).
  { unfold _valid_sparse_data. rewrite Het. cbn [bind]. rewrite Hdt.
    cbn [bind]. rewrite Hshape. cbn [bind unpack py_iter List.length Nat.eqb].
    cbn [py_sub1 bind]. rewrite Hdata. cbn [bind py_iter]. f_equal.
    rewrite (sparse_loop_skip dtype r c)
      by (assumption || (intro; apply int_gt_mk_int)).
    reflexivity. }
  rewrite Hrun. cbn [sparse_loop]. split.
  - intros e ->. reflexivity.
  - intros x y val -> Hxy.
    destruct (_is_int x), (_is_int y); try discriminate; reflexivity.
Qed.

Lemma sparse_malformed_entry_witness :
  _valid_sparse_data
    (PDict (dict_set "data"
              (PList [PList [PInt 0; PInt 0; PInt 5];
                      PList [PFloat 1; PInt 0; PInt 1]]) example_table))
  = Ok (Line "Bad x or y type at idx %d: %s"
          [FNum 1; FRepr (PList [PFloat 1; PInt 0; PInt 1])]).
Proof.
  exact (proj2 (sparse_malformed_entry
                  (PDict (dict_set "data"
                            (PList [PList [PInt 0; PInt 0; PInt 5];
                                    PList [PFloat 1; PInt 0; PInt 1]])
                            example_table))
                  (PUnicode "int") Ty_int 2 1
                  [PList [PInt 0; PInt 0; PInt 5]] []
                  (PList [PFloat 1; PInt 0; PInt 1])
                  eq_refl eq_refl eq_refl eq_refl eq_refl)
           (PFloat 1) (PInt 0) (PInt 1) eq_refl eq_refl).
Defined.

(** ** A flat document without [type] *)

Lemma rows_rule_needs_type (kvs : dict) :
  dict_lookup "type" kvs = None ->
  _valid_rows (PDict kvs) = Raise KeyError
  /\ _valid_columns (PDict kvs) = Raise KeyError.
Proof.
  intro H. unfold _valid_rows, _valid_columns. cbn [py_getitem].
  now rewrite H.
Qed.

Lemma check_required_raises_at {T : Type}
  (contains : T -> string -> result bool) (missing : string) (dr : bool)
  (t : T) (key : string) (method : T -> result line)
  (rest : list (string * (T -> result line))) (e : pyexn) (r : report) :
  contains t key = Ok true -> method t = Raise e ->
  check_required contains missing dr t ((key, method) :: rest) r = Raise e.
Proof.
  intros Hc Hm. cbn [check_required]. rewrite Hc. cbn [bind negb].
  now rewrite Hm.
Qed.

Lemma check_required_skip_missing {T : Type}
  (contains : T -> string -> result bool) (missing : string) (dr : bool)
  (t : T) (key : string) (method : T -> result line)
  (rest : list (string * (T -> result line))) (r : report) :
  contains t key = Ok false ->
  check_required contains missing dr t ((key, method) :: rest) r
  = check_required contains missing dr t rest
      (append (fail r) (Line missing [FText key])).
Proof.
  intro Hc. cbn [check_required]. now rewrite Hc.
Qed.

Lemma check_required_prefix_raises {T : Type}
  (contains : T -> string -> result bool) (missing : string) (dr : bool)
  (t : T) (pre tail : list (string * (T -> result line))) (e : pyexn) :
  Forall (fun km => exists b, contains t (fst km) = Ok b
                              /\ (b = true -> exists l, snd km t = Ok l)) pre ->
  (forall r, check_required contains missing dr t tail r = Raise e) ->
  forall r, check_required contains missing dr t (pre ++ tail) r = Raise e.
Proof.
  intros Hpre Htail.
  induction Hpre as [| [key method] pre (b & Hc & Hm) _ IH]; intro r;
    [apply Htail |].
  cbn [app check_required]. cbn [fst snd] in Hc, Hm. rewrite Hc.
  cbn [bind]. destruct b; cbn [negb]; [| apply IH].
  destruct (Hm eq_refl) as (l & ->). cbn [bind].
  destruct (len_pos l); apply IH.
Qed.

(** X16: a flat document that has no "type" but has "rows" or "columns"
    cannot be validated.  When the expected format version is ASCII the
    driver raises [KeyError] in either mode, whatever the other fields
    hold, because the rows and columns rules read [table_json['type']]
    before anything else.  When the version is not ASCII and the "format"
    field is a [unicode] text, the format rule, which runs first, raises
    [ValueError] instead. *)
Theorem missing_type_raises (kvs : dict) (format_version : string)
  (detailed_report : bool)
  (Htype : dict_lookup "type" kvs = None)
  (Hrc : dict_has "rows" kvs = true \/ dict_has "columns" kvs = true) :
  (is_ascii format_version = true ->
   _validate_json (PDict kvs) format_version detailed_report = Raise KeyError)
  /\ (forall s, is_ascii format_version = false ->
                dict_lookup "format" kvs = Some (PUnicode s) ->
                _validate_json (PDict kvs) format_version detailed_report
                = Raise ValueError).
Proof.
  destruct (rows_rule_needs_type kvs Htype) as [Hrows Hcols].
  rewrite validate_json_eq.
  split.
  2:{ intros s Hver Hf.
      change (required_keys format_version)
        with (("format", _valid_format format_version)
                :: skipn 1 (required_keys format_version)).
      rewrite check_required_raises_at with (e := ValueError);
        [reflexivity | |].
      - cbn [py_contains]. unfold dict_has. now rewrite Hf.
      - unfold _valid_format. cbn [py_getitem]. rewrite Hf. cbn [bind].
        cbn [is_unicode]. now rewrite Hver. }
  intro Hver.
  change (required_keys format_version)
    with ([("format", _valid_format format_version);
           ("format_url", fun t => _valid_format_url (TJson t));
           ("type", fun t => _valid_type (TJson t))]
            ++ ("rows", _valid_rows) :: ("columns", _valid_columns)
               :: skipn 5 (required_keys format_version)).
  rewrite check_required_prefix_raises with (e := KeyError); [reflexivity | |].
  - repeat constructor; cbn [fst snd py_contains].
    + exists (dict_has "format" kvs). split; [reflexivity |].
      unfold dict_has, _valid_format. cbn [py_getitem].
      destruct (dict_lookup "format" kvs) as [f |]; [| discriminate].
      intros _. cbn [bind]. rewrite Hver. cbn [negb]. rewrite andb_false_r.
      destruct (eq_str f format_version); now eexists.
    + exists (dict_has "format_url" kvs). split; [reflexivity |].
      intros _. unfold _valid_format_url.
      cbn [_json_or_hdf5_get _json_or_hdf5_key py_get].
      destruct (dict_lookup "format_url" kvs) as [u |]; cbn [bind];
        [destruct (eq_str u FormatURL) |]; now eexists.
    + exists false. split; [| discriminate].
      unfold dict_has. now rewrite Htype.
  - intro r. destruct (dict_has "rows" kvs) eqn:Hr.
    + apply check_required_raises_at; [cbn; now rewrite Hr | exact Hrows].
    + rewrite check_required_skip_missing by (cbn; now rewrite Hr).
      destruct Hrc as [Hr' | Hc]; [discriminate |].
      apply check_required_raises_at; [cbn; now rewrite Hc | exact Hcols].
Qed.

Lemma missing_type_raises_witness :
  _validate_json (PDict (dict_remove "type" example_table)) "1.0.0" true
  = Raise KeyError.
Proof.
  apply (proj1 (missing_type_raises (dict_remove "type" example_table)
                  "1.0.0" true eq_refl (or_introl eq_refl))).
  reflexivity.
Defined.

(** ** The length of a timestamp *)

Lemma match_alt_length (alt : list (ascii -> bool)) :
  forall s txt rest,
    match_alt alt s = Some (txt, rest) ->
    String.length s = (List.length alt + String.length rest)%nat.
Proof.
  induction alt as [| p alt IH]; intros s txt rest H; cbn in H.
  - now injection H as _ <-.
  - destruct s as [| c s]; [discriminate |].
    destruct (p c); [| discriminate].
    destruct (match_alt alt s) as [[txt' rest'] |] eqn:E; [| discriminate].
    injection H as _ <-. apply IH in E. cbn. lia.
Qed.

Lemma in_min_max_length (alts : list (list (ascii -> bool)))
  (alt : list (ascii -> bool)) :
  In alt alts ->
  (min_length alts <= List.length alt <= max_length alts)%nat.
Proof.
  induction alts as [| a alts IH]; [contradiction |].
  intros [-> | Hin].
  - cbn [max_length]. destruct alts; cbn [min_length]; lia.
  - specialize (IH Hin). cbn [max_length].
    destruct alts as [| b alts]; [contradiction |].
    change (min_length (a :: b :: alts))
      with (Nat.min (List.length a) (min_length (b :: alts))).
    lia.
Qed.

Lemma match_items_length (its : list item) :
  forall s fs rest,
    match_items its s = Some (fs, rest) ->
    (fst (format_span its) + String.length rest <= String.length s
     <= snd (format_span its) + String.length rest)%nat.
Proof.
  induction its as [| it its IH]; intros s fs rest H.
  - cbn in H. injection H as _ <-. cbn. lia.
  - destruct it as [c | d]; cbn [match_items] in H.
    + destruct s as [| c' s]; [discriminate |].
      destruct (Ascii.eqb _ _); [| discriminate].
      apply IH in H. cbn [format_span item_span fst snd String.length]. lia.
    + apply first_alt_inv in H as (alt & txt & q & Hin & Hm & Hk).
      destruct (match_items its q) as [[fs' r'] |] eqn:E; [| discriminate].
      injection Hk as _ <-. apply IH in E.
      apply match_alt_length in Hm. apply in_min_max_length in Hin.
      cbn [format_span item_span fst snd]. lia.
Qed.

Lemma strptime_length (val : pyval) (fmt : string) (its : list item)
  (t : datetime) :
  parse_format fmt = Some its -> strptime val fmt = Ok t ->
  exists s, is_text val s
            /\ (fst (format_span its) <= String.length s
                <= snd (format_span its))%nat.
Proof.
  intros Hp H. unfold strptime in H. rewrite Hp in H.
  destruct (data_string val) as [s | e] eqn:Hs; cbn [bind] in H;
    [| discriminate].
  destruct (match_items its s) as [[fs rest] |] eqn:Hm; [| discriminate].
  destruct (String.eqb rest EmptyString) eqn:Hr; cbn [negb] in H;
    [| discriminate].
  apply String.eqb_eq in Hr. subst rest. apply match_items_length in Hm.
  cbn [String.length] in Hm. exists s. split; [| lia].
  destruct val; try discriminate Hs; cbn in Hs.
  - left. congruence.
  - right. destruct (is_ascii s0); [congruence | discriminate].
Qed.

(** X17: a value that passes the date rule is a text of at least 8 and at
    most 26 characters: the shortest the four formats accept is a date with
    a one-digit month and day, the longest a date and time with six digits
    of microseconds, and no format leaves characters unread. *)
Theorem date_text_length (val : pyval)
  (Hpass : _check_date val = no_defect) :
  exists s, is_text val s /\ (8 <= String.length s <= 26)%nat.
Proof.
  unfold _check_date in Hpass.
  destruct (valid_time_of val valid_times) eqn:Hv; [| discriminate].
  unfold valid_times in Hv. cbn [valid_time_of] in Hv.
  destruct (strptime val "%Y-%m-%d") as [t | e] eqn:H1.
  { edestruct (strptime_length val "%Y-%m-%d") as (s & Hs & Hl);
      [vm_compute; reflexivity | exact H1 |].
    exists s. split; [assumption |]. cbn in Hl. lia. }
  destruct (strptime val "%Y-%m-%dT%H:%M") as [t | e2] eqn:H2.
  { edestruct (strptime_length val "%Y-%m-%dT%H:%M") as (s & Hs & Hl);
      [vm_compute; reflexivity | exact H2 |].
    exists s. split; [assumption |]. cbn in Hl. lia. }
  destruct (strptime val "%Y-%m-%dT%H:%M:%S") as [t | e3] eqn:H3.
  { edestruct (strptime_length val "%Y-%m-%dT%H:%M:%S") as (s & Hs & Hl);
      [vm_compute; reflexivity | exact H3 |].
    exists s. split; [assumption |]. cbn in Hl. lia. }
  destruct (strptime val "%Y-%m-%dT%H:%M:%S.%f") as [t | e4] eqn:H4;
    [| discriminate].
  edestruct (strptime_length val "%Y-%m-%dT%H:%M:%S.%f") as (s & Hs & Hl);
    [vm_compute; reflexivity | exact H4 |].
  exists s. split; [assumption |]. cbn in Hl. lia.
Qed.

Lemma date_text_length_witness :
  exists s, is_text (PUnicode "2011-1-9") s
            /\ (8 <= String.length s <= 26)%nat.
Proof.
  apply date_text_length. vm_compute. reflexivity.
Defined.

(** ** Entries of rows that are not objects *)

(** X18: in the rows and columns rules, the first entry that is not an
    object is not reported as a defect of the usual kind.  A number, a
    boolean or null raises [TypeError] (the test [key in row] fails); an
    array that holds the text "id" raises [TypeError] as well (the test
    succeeds and [row['id']] fails); an array that does not hold it is
    reported as an entry missing "id", with its index. *)
Theorem non_object_record (d ty : pyval) (s : string) (pre rest : list pyval)
  (record : pyval)
  (Hty : py_getitem d "type" = Ok ty) (Htext : is_text ty s)
  (Hpre : forallb record_ok pre = true) :
  let idx := Z.of_nat (List.length pre) in
  forall rule field missing,
    (rule, field, missing)
    = (_valid_rows, "rows", "ROW IDX %d MISSING '%s' FIELD")
    \/ (rule, field, missing)
       = (_valid_columns, "columns", "COL IDX %d MISSING '%s' FIELD") ->
    py_getitem d field = Ok (PList (pre ++ record :: rest)) ->
    (py_iter record = Raise TypeError -> rule d = Raise TypeError)
    /\ (forall l, record = PList l ->
                  existsb (fun x => eq_str x "id") l = true ->
                  rule d = Raise TypeError)
    /\ (forall l, record = PList l ->
                  existsb (fun x => eq_str x "id") l = false ->
                  rule d = Ok (Line missing [FNum idx; FText "id"])).
Proof.
  intros idx rule field missing Hrule Hget.
  assert (Hrun : rule d = records_loop missing idx (record :: rest)).
  { destruct (is_text_lower _ _ Htext) as (w & Hw & _).
    destruct Hrule as [Heq | Heq]; injection Heq as -> -> ->;
      [unfold _valid_rows | unfold _valid_columns];
      rewrite Hty; cbn [bind]; rewrite Hw; cbn [bind]; rewrite Hget;
      cbn [bind py_iter]; now rewrite records_loop_skip by assumption. }
  rewrite Hrun. cbn [records_loop record_keys check_record].
  split; [| split].
  - intro Hit. destruct record; try discriminate Hit; reflexivity.
  - intros l -> Hex. cbn [py_contains bind]. rewrite Hex. reflexivity.
  - intros l -> Hex. cbn [py_contains bind]. rewrite Hex. reflexivity.
Qed.

Lemma non_object_record_witness :
  _valid_rows
    (PDict [("type", PUnicode "OTU table");
            ("rows", PList [null_record "r1"; PInt 7])])
  = Raise TypeError.
Proof.
  exact (proj1 (non_object_record
                  (PDict [("type", PUnicode "OTU table");
                          ("rows", PList [null_record "r1"; PInt 7])])
                  (PUnicode "OTU table") "OTU table" [null_record "r1"] []
                  (PInt 7) eq_refl (or_intror eq_refl) eq_refl
                  _valid_rows "rows" "ROW IDX %d MISSING '%s' FIELD"
                  (or_introl eq_refl) eq_refl)
           eq_refl).
Defined.

(** ** The size of a report *)

Lemma check_required_length {T : Type}
  (contains : T -> string -> result bool) (missing : string) (dr : bool)
  (t : T) (required : list (string * (T -> result line))) :
  forall r r',
    check_required contains missing dr t required r = Ok r' ->
    (List.length (report_lines r')
     <= List.length (report_lines r)
        + (if dr then 2 else 1) * List.length required)%nat.
Proof.
  induction required as [| [key method] rest IH]; intros r r' Hrun.
  - cbn in Hrun. injection Hrun as <-. lia.
  - cbn [check_required] in Hrun.
    destruct (contains t key) as [[|] | e]; cbn [bind negb] in Hrun;
      try discriminate.
    + destruct (method t) as [msg | e]; cbn [bind] in Hrun; try discriminate.
      destruct (len_pos msg); apply IH in Hrun; destruct dr;
        cbn [narrate append fail report_lines List.length] in *;
        rewrite ?length_app in Hrun; cbn [List.length] in Hrun; lia.
    + apply IH in Hrun. cbn [append fail report_lines] in Hrun.
      rewrite length_app in Hrun. cbn [List.length] in *.
      destruct dr; lia.
Qed.

Lemma check_present_length (missing : string) (dr : bool) (h : h5file)
  (paths : list string) :
  forall r,
    (List.length (report_lines (check_present missing dr h paths r))
     <= List.length (report_lines r)
        + (if dr then 1 else 0) * List.length paths)%nat.
Proof.
  induction paths as [| p rest IH]; intro r; cbn [check_present].
  - lia.
  - destruct (negb (dict_has p (items h))).
    + specialize (IH (narrate dr (fail r) (Line missing [FText p]))).
      destruct dr; cbn [narrate append fail report_lines List.length] in *;
        rewrite ?length_app in IH; cbn [List.length] in IH; lia.
    + specialize (IH r). cbn [List.length]. destruct dr; lia.
Qed.

Lemma cross_check_length (t : pyval) (key : string) (i : nat) (l : line)
  (r r' : report) :
  cross_check t key i r l = Ok r' ->
  (List.length (report_lines r') <= List.length (report_lines r) + 1)%nat.
Proof.
  unfold cross_check.
  destruct (py_contains t key) as [[|] | e]; cbn [bind]; try discriminate.
  - destruct (py_getitem t key) as [xs | e]; cbn [bind]; try discriminate.
    destruct (py_len xs) as [n | e]; cbn [bind]; try discriminate.
    destruct (py_getitem t "shape") as [sh | e]; cbn [bind]; try discriminate.
    destruct (py_index sh i) as [s | e]; cbn [bind]; try discriminate.
    destruct (eq_int s n); cbn [negb]; intros [= <-]; cbn;
      rewrite ?length_app; cbn; lia.
  - intros [= <-]. lia.
Qed.

Lemma flag_len_length (n ids : pyval) (l : line) (r r' : report) :
  flag_len n ids r l = Ok r' ->
  (List.length (report_lines r') <= List.length (report_lines r) + 1)%nat.
Proof.
  unfold flag_len. destruct (py_len ids) as [k | e]; cbn [bind];
    [| discriminate].
  destruct (eq_int n k); cbn [negb]; intros [= <-]; cbn;
    rewrite ?length_app; cbn; lia.
Qed.

Lemma flag_len_not_none (n ids : pyval) (l : line) (r r' : report) :
  flag_len n ids r l = Ok r' -> is_none ids = false.
Proof.
  unfold flag_len. now destruct ids.
Qed.

(** X19: a report is short.  The flat driver returns at most 14 lines with
    the narrative off (one per required key and two for the cross-check)
    and at most 28 with it on; the hierarchical driver returns at most 10
    lines with the narrative off and at most 30 with it on.  The matrix
    rules, which stop at their first defect, add one line however many
    entries are wrong. *)
Theorem report_length_bound (table_json : pyval) (format_version : string)
  (h : h5file) (dr : bool) (rj rh : report)
  (Hj : _validate_json table_json format_version dr = Ok rj)
  (Hh : _validate_hdf5 h dr = Ok rh) :
  (List.length (report_lines rj) <= if dr then 28 else 14)%nat
  /\ (List.length (report_lines rh) <= if dr then 30 else 10)%nat.
Proof.
  split.
  - rewrite validate_json_eq in Hj. apply bind_ok in Hj as (r1 & Hreq & Hj).
    apply check_required_length in Hreq.
    assert (Hr1 : (List.length (report_lines r1)
                   <= if dr then 25 else 12)%nat)
      by (destruct dr; cbn in Hreq |- *; lia).
    clear Hreq. unfold shape_versus_rows in Hj.
    apply bind_ok in Hj as (has & _ & Hj). destruct has.
    + apply bind_ok in Hj as (r2 & H1 & Hj).
      apply cross_check_length in H1, Hj.
      assert (Hn : (List.length
                      (report_lines
                         (narrate dr r1
                            (Line "Validating 'shape' versus number of rows and columns..." [])))
                    <= List.length (report_lines r1)
                       + if dr then 1 else 0)%nat)
        by (destruct dr; cbn; rewrite ?length_app; cbn; lia).
      destruct dr; lia.
    + injection Hj as <-. destruct dr; lia.
  - rewrite validate_hdf5_eq in Hh. apply bind_ok in Hh as (r1 & Hreq & Hh).
    apply check_required_length in Hreq.
    assert (Hr1 : (List.length (report_lines r1)
                   <= if dr then 17 else 8)%nat)
      by (destruct dr; cbn in Hreq |- *; lia).
    clear Hreq.
    pose proof (check_present_length "Missing group: %s" dr h required_groups
                  r1) as Hg.
    pose proof (check_present_length "Missing dataset: %s" dr h
                  required_datasets
                  (check_present "Missing group: %s" dr h required_groups r1))
      as Hd.
    set (r3 := check_present "Missing dataset: %s" dr h required_datasets _)
      in *.
    assert (Hr3 : (List.length (report_lines r3)
                   <= if dr then 27 else 8)%nat)
      by (destruct dr; cbn in Hg, Hd |- *; lia).
    clearbody r3. clear Hg Hd Hr1.
    unfold shape_versus_ids in Hh.
    destruct (dict_has "shape" (attrs h)).
    + apply bind_ok in Hh as (sh & _ & Hh).
      apply bind_ok in Hh as (ns & _ & Hh).
      destruct ns as [| a [| b [| c ns]]]; try discriminate.
      apply bind_ok in Hh as (r4 & H4 & Hh).
      pose proof (flag_len_not_none _ _ _ _ _ H4) as Ho.
      pose proof (flag_len_not_none _ _ _ _ _ Hh) as Hs.
      unfold flag_none in H4. rewrite Ho, Hs in H4.
      apply flag_len_length in H4, Hh.
      assert (Hn : (List.length
                      (report_lines
                         (narrate dr r3
                            (Line "Validating 'shape' versus number of samples and observations..." [])))
                    <= List.length (report_lines r3)
                       + if dr then 1 else 0)%nat)
        by (destruct dr; cbn; rewrite ?length_app; cbn; lia).
      destruct dr; lia.
    + injection Hh as <-. destruct dr; lia.
Qed.

Lemma report_length_bound_witness :
  (List.length (report_lines (Report true [])) <= 14)%nat
  /\ (List.length (report_lines (Report true [])) <= 10)%nat.
Proof.
  apply (report_length_bound (PDict example_table) "1.0.0" example_h5 false).
  - vm_compute. reflexivity.
  - vm_compute. reflexivity.
Defined.
